(** * gym_ai: the adaptive recommendation engine

    A shallow embedding of the learning loop and of the inference engine of
    the gym routine recommender, and the proofs of the properties its
    specification states about them.

    Conventions of the embedding.
    - A Python [int] is a [Z].
    - A Python [float] that only goes through [+], [-], [*], [/], [min],
      [max] and comparisons is an exact rational ([Q]); Python's [==] on
      floats is [Qeq].  A float that goes through [math.sqrt] (similarities
      and everything computed from them) is a real number ([R]).  Rounding
      error, overflow, infinities and NaN of IEEE doubles are outside the
      embedding.
    - A Python [str] is a [string]; a dictionary with free-form keys is a
      [gmap string pyval]; the dictionaries produced by the [to_dict]
      methods are records whose optional fields are the keys that may be
      absent.
    - A method that mutates [self] is a function from the old object to the
      new one; a method that can raise lives in the monad [M] below, which
      returns the state also when an exception is raised.
    - [print] calls are not modelled; [datetime.now().isoformat()] is an
      argument of the function that calls it. *)

From Stdlib Require Import ZArith QArith Qminmax Qround Qabs Reals Lra Lia Psatz.
From Stdlib Require Import String Ascii List DecimalString DecimalPos Sorted.
From Stdlib Require PrimFloat.

(** Decimal literals of binary64 floats stand for the nearest binary64
    value, as they do in Python. *)
Set Warnings "-inexact-float".

From stdpp Require Import base option gmap strings list.

Local Open Scope string_scope.
Local Open Scope Z_scope.

(** * Python values *)

(** The values a JSON-like dictionary of the program holds. *)
Inductive pyval : Type :=
| VNone
| VBool (b : bool)
| VInt (z : Z)
| VFloat (q : Q)
| VStr (s : string).

Abbreviation dict := (gmap string pyval).

(** [d.get(k, dflt)] *)
Definition py_get (d : dict) (k : string) (dflt : pyval) : pyval :=
  default dflt (d !! k).

(** The number a value denotes in arithmetic: [bool] is a subclass of
    [int]; [None] and [str] are not numbers (arithmetic on them raises
    [TypeError]). *)
Definition py_num (v : pyval) : option Q :=
  match v with
  | VBool b => Some (if b then 1%Q else 0%Q)
  | VInt z => Some (inject_Z z)
  | VFloat q => Some q
  | VNone | VStr _ => None
  end.

Definition py_real (v : pyval) : option R := Q2R <$> py_num v.

(** Python's [==] on these values: numbers compare by value across
    [bool], [int] and [float]; values of unrelated types are different. *)
Definition py_eqb (a b : pyval) : bool :=
  match py_num a, py_num b with
  | Some x, Some y => Qeq_bool x y
  | None, None =>
      match a, b with
      | VNone, VNone => true
      | VStr s, VStr t => String.eqb s t
      | _, _ => false
      end
  | _, _ => false
  end.

(** * Strings *)

Definition is_upper (c : ascii) : bool :=
  let n := nat_of_ascii c in (65 <=? n)%nat && (n <=? 90)%nat.

Definition lower_ascii (c : ascii) : ascii :=
  if is_upper c then ascii_of_nat (nat_of_ascii c + 32) else c.

(** [s.lower()] on the ASCII letters.  No character outside ASCII has a
    lower-case form made of the letters of ['cardio'], the only string the
    program compares a lowered string with. *)
Fixpoint lower (s : string) : string :=
  match s with
  | EmptyString => EmptyString
  | String c s' => String (lower_ascii c) (lower s')
  end.

(** [c in s] for a one-character [c]. *)
Fixpoint contains_char (c : ascii) (s : string) : bool :=
  match s with
  | EmptyString => false
  | String c' s' => Ascii.eqb c c' || contains_char c s'
  end.

(** [s.split(c)] for a one-character separator. *)
Fixpoint split_char (c : ascii) (s : string) : list string :=
  match s with
  | EmptyString => [EmptyString]
  | String c' s' =>
      if Ascii.eqb c c' then EmptyString :: split_char c s'
      else match split_char c s' with
           | [] => [String c' EmptyString]
           | w :: ws => String c' w :: ws
           end
  end.

Definition is_space (c : ascii) : bool :=
  let n := nat_of_ascii c in
  (n =? 32)%nat || ((9 <=? n)%nat && (n <=? 13)%nat) ||
  ((28 <=? n)%nat && (n <=? 31)%nat).

Fixpoint lstrip (s : string) : string :=
  match s with
  | String c s' => if is_space c then lstrip s' else s
  | EmptyString => EmptyString
  end.

Fixpoint rstrip (s : string) : string :=
  match s with
  | EmptyString => EmptyString
  | String c s' =>
      match rstrip s' with
      | EmptyString => if is_space c then EmptyString else String c EmptyString
      | r => String c r
      end
  end.

Definition strip (s : string) : string := rstrip (lstrip s).

Definition digit_of (c : ascii) : option Z :=
  let n := nat_of_ascii c in
  if (48 <=? n)%nat && (n <=? 57)%nat then Some (Z.of_nat (n - 48)) else None.

Fixpoint parse_digits (acc : Z) (s : string) : option Z :=
  match s with
  | EmptyString => Some acc
  | String c s' =>
      match digit_of c with
      | Some d => parse_digits (10 * acc + d) s'
      | None => None
      end
  end.

(** [int(s)] for a string: surrounding white space, an optional sign and a
    non-empty run of ASCII digits; [None] is [ValueError].  (Python also
    accepts single underscores between digits and non-ASCII decimal
    digits; the model rejects them.) *)
Definition py_int_of_string (s : string) : option Z :=
  match strip s with
  | EmptyString => None
  | String c rest =>
      if Ascii.eqb c "+"%char then
        match rest with EmptyString => None | _ => parse_digits 0 rest end
      else if Ascii.eqb c "-"%char then
        match rest with
        | EmptyString => None
        | _ => Z.opp <$> parse_digits 0 rest
        end
      else parse_digits 0 (String c rest)
  end.

(** [str(z)] for an integer. *)
Definition str_of_Z (z : Z) : string := NilZero.string_of_int (Z.to_int z).

(** * Numbers *)

(** [round(x)] on a rational: to the nearest integer, ties to the even
    one. *)
Definition Qround_half_even (x : Q) : Z :=
  let f := Qfloor x in
  let r := (x - inject_Z f)%Q in
  match (r ?= 1 # 2)%Q with
  | Lt => f
  | Gt => f + 1
  | Eq => if Z.even f then f else f + 1
  end.

(** [round(x, 2)] on a rational. *)
Definition Qround2 (x : Q) : Q := (inject_Z (Qround_half_even (x * 100)) / 100)%Q.

(** [round(x, 2)] on a real. *)
Definition Rround2 (x : R) : R :=
  let y := (x * 100)%R in
  let f := Int_part y in
  let r := (y - IZR f)%R in
  let n := if Rlt_dec r (1 / 2) then f
           else if Rlt_dec (1 / 2) r then f + 1
           else if Z.even f then f else f + 1 in
  (IZR n / 100)%R.

(** * Exceptions and mutable objects *)

Inductive exn : Type :=
| ValueError (msg : string).

(** A computation over a mutable object of type [S]: it returns a value or
    raises, and in both cases leaves the object in some state. *)
Definition M (S A : Type) : Type := S -> (exn + A) * S.

Definition ret {S A} (a : A) : M S A := fun s => (inr a, s).

Definition bind {S A B} (m : M S A) (f : A -> M S B) : M S B :=
  fun s =>
    match m s with
    | (inl e, s') => (inl e, s')
    | (inr a, s') => f a s'
    end.

Definition raise {S A} (e : exn) : M S A := fun s => (inl e, s).
Definition get {S} : M S S := fun s => (inr s, s).
Definition put {S} (s : S) : M S unit := fun _ => (inr tt, s).
Definition modify {S} (f : S -> S) : M S unit := fun s => (inr tt, f s).

Notation "'let*' x ':=' m 'in' k" := (bind m (fun x => k))
  (at level 10, x name, m at level 100, k at level 200).
Notation "'exec' m 'in' k" := (bind m (fun _ => k))
  (at level 10, m at level 100, k at level 200).

(** * Configuration (config.py, utils/constants.py) *)

Module AIConfig.
Definition LEARNING_RATE : Q := 0.1.
Definition EXPLORATION_FACTOR : Q := 0.2.
Definition SIMILARITY_HIGH : R := 0.85.
Definition SIMILARITY_MEDIUM : R := 0.70.
Definition SIMILARITY_LOW : R := 0.50.
Definition SATISFACTION_EXCELLENT : R := 4.5.
Definition SATISFACTION_GOOD : R := 4.0.
Definition SATISFACTION_ACCEPTABLE : R := 3.5.
Definition CONFIDENCE_HIGH : R := 0.80.
Definition CONFIDENCE_MEDIUM : R := 0.60.
Definition CONFIDENCE_LOW : R := 0.40.
Definition MIN_SIMILAR_USERS : Z := 3.
Definition MIN_CONFIDENCE : Q := 0.6.
Definition TOP_SIMILAR_USERS : Z := 5.
Definition USERS_PER_GENERATION : Z := 10.
End AIConfig.

Module RoutineConfig.
(** [SERIES_BY_LEVEL.get(level)] *)
Definition SERIES_BY_LEVEL (level : string) : option Z :=
  if String.eqb level "principiante" then Some 3
  else if String.eqb level "intermedio" then Some 4
  else if String.eqb level "avanzado" then Some 5
  else None.

Record goal_params := {
  reps_min : Z;
  reps_max : Z;
  rest_min : Z;
  rest_max : Z;
  cardio_probability : Q
}.

(** [PARAMS_BY_GOAL.get(goal)] *)
Definition PARAMS_BY_GOAL (goal : string) : option goal_params :=
  if String.eqb goal "perder_peso" then
    Some {| reps_min := 12; reps_max := 20; rest_min := 30; rest_max := 60;
            cardio_probability := 0.8 |}
  else if String.eqb goal "ganar_masa" then
    Some {| reps_min := 8; reps_max := 12; rest_min := 60; rest_max := 90;
            cardio_probability := 0.3 |}
  else if String.eqb goal "resistencia" then
    Some {| reps_min := 15; reps_max := 25; rest_min := 20; rest_max := 45;
            cardio_probability := 0.9 |}
  else if String.eqb goal "fuerza" then
    Some {| reps_min := 4; reps_max := 8; rest_min := 120; rest_max := 180;
            cardio_probability := 0.3 |}
  else None.

(** [PARAMS_BY_GOAL['ganar_masa']] *)
Definition PARAMS_ganar_masa : goal_params :=
  {| reps_min := 8; reps_max := 12; rest_min := 60; rest_max := 90;
     cardio_probability := 0.3 |}.

(** [EXERCISES_PER_STRUCTURE.get(structure)]: the inner dictionary, read
    with [get(level)]. *)
Definition EXERCISES_PER_STRUCTURE (structure : string)
    : option (string → option Z) :=
  if String.eqb structure "fullbody" then
    Some (fun level =>
            if String.eqb level "principiante" then Some 1
            else if String.eqb level "intermedio" then Some 2
            else if String.eqb level "avanzado" then Some 2
            else None)
  else if String.eqb structure "upper_lower" then
    Some (fun level =>
            if String.eqb level "principiante" then Some 1
            else if String.eqb level "intermedio" then Some 2
            else if String.eqb level "avanzado" then Some 2
            else None)
  else if String.eqb structure "split" then
    Some (fun level =>
            if String.eqb level "principiante" then Some 2
            else if String.eqb level "intermedio" then Some 2
            else if String.eqb level "avanzado" then Some 3
            else None)
  else None.

End RoutineConfig.

Module UserClassificationConfig.

Record category_bounds := {
  min_experiences : option Z;
  max_experiences : option Z;
  description : string
}.

(** [CATEGORIES.get(name)] *)
Definition CATEGORIES (name : string) : option category_bounds :=
  if String.eqb name "novato" then
    Some {| min_experiences := None; max_experiences := Some 0;
            description := "Primera vez usando el sistema" |}
  else if String.eqb name "regular" then
    Some {| min_experiences := Some 1; max_experiences := Some 5;
            description := "Usuario regular con algunas experiencias" |}
  else if String.eqb name "experimentado" then
    Some {| min_experiences := Some 6; max_experiences := Some 15;
            description := "Usuario experimentado con buen historial" |}
  else if String.eqb name "veterano" then
    Some {| min_experiences := Some 16; max_experiences := Some 50;
            description := "Usuario veterano con amplia experiencia" |}
  else if String.eqb name "experto" then
    Some {| min_experiences := Some 51; max_experiences := None;
            description := "Usuario experto del sistema" |}
  else None.

(** [PERFORMANCE_LEVELS], in the order of the dictionary. *)
Definition PERFORMANCE_LEVELS : list (string * R) :=
  [("excelente", 4.5%R); ("bueno", 4.0%R); ("aceptable", 3.5%R);
   ("necesita_ajuste", 0%R)].

End UserClassificationConfig.

Module ValidationConfig.
Definition AGE_MIN : Z := 10.
Definition AGE_MAX : Z := 100.
Definition WEIGHT_MIN : Q := 30.
Definition WEIGHT_MAX : Q := 300.
Definition HEIGHT_MIN : Q := 1.0.
Definition HEIGHT_MAX : Q := 2.5.
Definition DAYS_MIN : Z := 2.
Definition DAYS_MAX : Z := 7.
Definition SATISFACTION_MIN : Z := 1.
Definition SATISFACTION_MAX : Z := 5.
End ValidationConfig.

Module Mappings.
Definition LEVEL_STR_TO_NUM (level : string) : option Z :=
  if String.eqb level "principiante" then Some 1
  else if String.eqb level "intermedio" then Some 2
  else if String.eqb level "avanzado" then Some 3
  else None.

Definition GOAL_STR_TO_NUM (goal : string) : option Z :=
  if String.eqb goal "perder_peso" then Some 1
  else if String.eqb goal "ganar_masa" then Some 2
  else if String.eqb goal "resistencia" then Some 3
  else if String.eqb goal "fuerza" then Some 4
  else None.
End Mappings.

(** [NORMALIZATION_FACTORS] of utils/constants.py *)
Module NORMALIZATION_FACTORS.
Definition edad : R := 100.
Definition imc : R := 20.
Definition nivel : R := 3.
Definition dias : R := 7.
End NORMALIZATION_FACTORS.

(** * utils/calculations.py *)

(** The [factores] dictionary of a prediction: each field is a key that
    may be absent. *)
Record factors := {
  promedio_similares : option R;
  cantidad_similares : option Z;
  similitud_promedio : option R;
  ajuste_complejidad : option R;
  patron_existe : option bool;
  cantidad_patrones : option Z;
  sin_datos : option bool
}.

Module Calculations.

Definition calculate_imc (weight height : Q) : exn + Q :=
  if Qle_bool height 0 then inl (ValueError "La altura debe ser mayor a 0")
  else inr (weight / (height * height))%Q.

(** [abs(a - b)]; [None] is the [TypeError] of a subtraction on a value
    that is not a number. *)
Definition py_abs_sub (a b : pyval) : option R :=
  x ← py_real a; y ← py_real b; Some (Rabs (x - y)).

(** The body of the [try] block of [calculate_profile_similarity];
    [None] stands for an exception raised inside it. *)
Definition similarity_try (profile1 profile2 : dict) : option R :=
  let edad1 := py_get profile1 "edad" (VInt 30) in
  let edad2 := py_get profile2 "edad" (VInt 30) in
  let imc1 := py_get profile1 "imc" (VInt 22) in
  let imc2 := py_get profile2 "imc" (VInt 22) in
  let nivel1 := py_get profile1 "nivel_num" (VInt 2) in
  let nivel2 := py_get profile2 "nivel_num" (VInt 2) in
  let dias1 := py_get profile1 "dias" (VInt 4) in
  let dias2 := py_get profile2 "dias" (VInt 4) in
  let obj1 := py_get profile1 "objetivo_str" (VStr "") in
  let obj2 := py_get profile2 "objetivo_str" (VStr "") in
  let diff_obj : R := if py_eqb obj1 obj2 then 0%R else 1%R in
  a_edad ← py_abs_sub edad1 edad2;
  let diff_edad := (a_edad / NORMALIZATION_FACTORS.edad)%R in
  a_imc ← py_abs_sub imc1 imc2;
  let diff_imc := (a_imc / NORMALIZATION_FACTORS.imc)%R in
  a_nivel ← py_abs_sub nivel1 nivel2;
  let diff_nivel := (a_nivel / NORMALIZATION_FACTORS.nivel)%R in
  a_dias ← py_abs_sub dias1 dias2;
  let diff_dias := (a_dias / NORMALIZATION_FACTORS.dias)%R in
  let distance :=
    sqrt (diff_edad ^ 2 + diff_imc ^ 2 + diff_nivel ^ 2 + diff_obj ^ 2 +
          diff_dias ^ 2)%R in
  let similarity := (1 / (1 + distance))%R in
  Some similarity.

Definition calculate_profile_similarity (profile1 profile2 : dict) : R :=
  match similarity_try profile1 profile2 with
  | Some similarity => similarity
  | None => 0.5%R
  end.

(** [sum(values)] *)
Definition Rsum (values : list R) : R := fold_left Rplus values 0%R.

Definition calculate_bayesian_adjustment
    (f : factors) (thresholds : gmap string R) : R :=
  let adj1 :=
    match similitud_promedio f with
    | Some sim =>
        if Rgt_dec sim (default AIConfig.SIMILARITY_HIGH
                          (thresholds !! "similitud_alta"))
        then [0.3%R]
        else if Rgt_dec sim (default AIConfig.SIMILARITY_MEDIUM
                               (thresholds !! "similitud_media"))
        then [0.1%R]
        else [(-0.1)%R]
    | None => []
    end in
  let adj2 :=
    match cantidad_similares f with
    | Some cantidad =>
        if 5 <=? cantidad then [0.2%R]
        else if 3 <=? cantidad then [0.1%R]
        else []
    | None => []
    end in
  let adj3 :=
    match ajuste_complejidad f with
    | Some comp =>
        if Rgt_dec comp 0.8 then [0.2%R]
        else if Rgt_dec comp 0.6 then [0.0%R]
        else [(-0.2)%R]
    | None => []
    end in
  let adj4 :=
    if default false (patron_existe f) &&
       (5 <=? default 0 (cantidad_patrones f))
    then [0.3%R] else [] in
  Rsum (adj1 ++ adj2 ++ adj3 ++ adj4).

Definition calculate_confidence_score
    (n_samples : Z) (similarity_avg : R) (std_dev : option R) : R :=
  let confidence := 0.5%R in
  let confidence :=
    if 10 <=? n_samples then (confidence + 0.3)%R
    else if 5 <=? n_samples then (confidence + 0.2)%R
    else if 3 <=? n_samples then (confidence + 0.1)%R
    else confidence in
  let confidence :=
    if Rgt_dec similarity_avg AIConfig.SIMILARITY_HIGH
    then (confidence + 0.3)%R
    else if Rgt_dec similarity_avg AIConfig.SIMILARITY_MEDIUM
    then (confidence + 0.2)%R
    else if Rgt_dec similarity_avg AIConfig.SIMILARITY_LOW
    then (confidence + 0.1)%R
    else confidence in
  let confidence :=
    match std_dev with
    | Some sd =>
        if Rlt_dec sd 0.5 then (confidence + 0.2)%R
        else if Rlt_dec sd 1.0 then (confidence + 0.1)%R
        else confidence
    | None => confidence
    end in
  Rmin 1.0 confidence.

Definition calculate_average (values : list R) : R :=
  match values with
  | [] => 0.0%R
  | _ => (Rsum values / INR (length values))%R
  end.

Definition calculate_std_dev (values : list R) : R :=
  if (length values <? 2)%nat then 0.0%R
  else
    let avg := calculate_average values in
    let variance :=
      (Rsum (map (fun x => (x - avg) ^ 2)%R values) /
       (INR (length values) - 1))%R in
    sqrt variance.

(** [IMC_CATEGORIES] of utils/constants.py, in the order of the
    dictionary. *)
Definition IMC_CATEGORIES : list (string * (Q * Q)) :=
  [("bajo_peso", (0, 18.5)%Q); ("normal", (18.5, 25)%Q);
   ("sobrepeso", (25, 30)%Q); ("obesidad", (30, 100)%Q)].

(** [IMC_DISPLAY_NAMES.get(category)] *)
Definition IMC_DISPLAY_NAMES (category : string) : option string :=
  if String.eqb category "bajo_peso" then Some "Bajo peso"
  else if String.eqb category "normal" then Some "Peso normal"
  else if String.eqb category "sobrepeso" then Some "Sobrepeso"
  else if String.eqb category "obesidad" then Some "Obesidad"
  else None.

Definition get_imc_category (imc : Q) : string :=
  match
    List.find (fun entry => Qle_bool (entry.2).1 imc &&
                            negb (Qle_bool (entry.2).2 imc))
              IMC_CATEGORIES
  with
  | Some entry => entry.1
  | None => "obesidad"
  end.

Definition get_imc_display_name (imc : Q) : string :=
  default "Desconocido" (IMC_DISPLAY_NAMES (get_imc_category imc)).

Definition clamp_value (value min_val max_val : Q) : Q :=
  Qmax min_val (Qmin max_val value).

Definition format_rep_range (min_reps max_reps : Z) : string :=
  (str_of_Z min_reps ++ "-" ++ str_of_Z max_reps)%string.

(** [extract_rep_range] on a string; every exception of the [try] block
    gives the default (8, 12). *)
Definition extract_rep_range (rep_str : string) : Z * Z :=
  let attempt :=
    if contains_char "-"%char rep_str then
      match split_char "-"%char rep_str with
      | p0 :: p1 :: _ =>
          a ← py_int_of_string p0; b ← py_int_of_string p1; Some (a, b)
      | _ => None
      end
    else
      val ← py_int_of_string rep_str; Some (val, val) in
  default (8, 12) attempt.

End Calculations.

(** * Python floats as IEEE binary64

    The definitions above compute with exact rationals and reals: they
    leave out rounding, overflow, the infinities and NaN.  This module
    embeds the same source functions over the binary64 floats of the
    kernel, for dictionaries whose numbers are floats, to show where the
    exact results stop describing the program. *)

Module Binary64.

Import PrimFloat.

(** A value of a profile dictionary: a float or a string. *)
Inductive value :=
| Float (f : float)
| Str (s : string).

Definition fdict := gmap string value.

(** [d.get(k, default)] at a place where a number is used; [None] is
    the [TypeError] of arithmetic on a string.  The integer defaults of
    the source enter float arithmetic as the floats of the same value. *)
Definition get_number (d : fdict) (k : string) (default : float)
    : option float :=
  match d !! k with
  | None => Some default
  | Some (Float f) => Some f
  | Some (Str _) => None
  end.

(** [a == b] *)
Definition value_eqb (a b : value) : bool :=
  match a, b with
  | Float x, Float y => (x =? y)%float
  | Str s, Str t => String.eqb s t
  | _, _ => false
  end.

(** [x ** 2] on a float, taken as the rounded product; [None] is the
    [OverflowError] Python raises when the square of a finite float is
    out of range. *)
Definition square (x : float) : option float :=
  let y := (x * x)%float in
  if is_infinity y && negb (is_infinity x) then None else Some y.

(** The body of the [try] block of [calculate_profile_similarity]. *)
Definition similarity_try (profile1 profile2 : fdict) : option float :=
  edad1 ← get_number profile1 "edad" 30%float;
  edad2 ← get_number profile2 "edad" 30%float;
  imc1 ← get_number profile1 "imc" 22%float;
  imc2 ← get_number profile2 "imc" 22%float;
  nivel1 ← get_number profile1 "nivel_num" 2%float;
  nivel2 ← get_number profile2 "nivel_num" 2%float;
  dias1 ← get_number profile1 "dias" 4%float;
  dias2 ← get_number profile2 "dias" 4%float;
  let obj1 := default (Str "") (profile1 !! "objetivo_str") in
  let obj2 := default (Str "") (profile2 !! "objetivo_str") in
  let diff_obj := if value_eqb obj1 obj2 then 0%float else 1%float in
  let diff_edad := (abs (edad1 - edad2) / 100)%float in
  let diff_imc := (abs (imc1 - imc2) / 20)%float in
  let diff_nivel := (abs (nivel1 - nivel2) / 3)%float in
  let diff_dias := (abs (dias1 - dias2) / 7)%float in
  sq_edad ← square diff_edad;
  sq_imc ← square diff_imc;
  sq_nivel ← square diff_nivel;
  sq_obj ← square diff_obj;
  sq_dias ← square diff_dias;
  let distance :=
    sqrt (sq_edad + sq_imc + sq_nivel + sq_obj + sq_dias)%float in
  Some (1 / (1 + distance))%float.

Definition calculate_profile_similarity (profile1 profile2 : fdict) : float :=
  default 0.5%float (similarity_try profile1 profile2).

(** [validate_weight] and [validate_height] of utils/validators.py on a
    float: [float(weight)] is the value itself. *)
Definition validate_weight (weight : float) : bool * string :=
  let weight_float := weight in
  if (weight_float <? 30)%float then (false, "El peso debe ser mayor a 30 kg")
  else if (300 <? weight_float)%float then
    (false, "El peso debe ser menor a 300 kg")
  else (true, "").

Definition validate_height (height : float) : bool * string :=
  let height_float := height in
  if (height_float <? 1)%float then (false, "La altura debe ser mayor a 1.0 m")
  else if (2.5 <? height_float)%float then
    (false, "La altura debe ser menor a 2.5 m")
  else (true, "").

(** [calculate_imc]; [None] is the exception it raises. *)
Definition calculate_imc (weight height : float) : option float :=
  if (height <=? 0)%float then None
  else
    height2 ← square height;
    Some (weight / height2)%float.

(** The keys of the [factores] dictionary that
    [calculate_bayesian_adjustment] reads; the counts are [int]s. *)
Record factors := {
  cantidad_similares : option Z;
  similitud_promedio : option float;
  ajuste_complejidad : option float;
  patron_existe : option bool;
  cantidad_patrones : option Z
}.

(** [sum(values)]: the additions run from the left, starting at 0. *)
Definition fsum (values : list float) : float :=
  fold_left PrimFloat.add values 0%float.

Definition calculate_bayesian_adjustment
    (f : factors) (thresholds : gmap string float) : float :=
  let adj1 :=
    match similitud_promedio f with
    | Some sim =>
        if (default 0.85 (thresholds !! "similitud_alta") <? sim)%float
        then [0.3%float]
        else if (default 0.70 (thresholds !! "similitud_media") <? sim)%float
        then [0.1%float]
        else [(-0.1)%float]
    | None => []
    end in
  let adj2 :=
    match cantidad_similares f with
    | Some cantidad =>
        if (5 <=? cantidad)%Z then [0.2%float]
        else if (3 <=? cantidad)%Z then [0.1%float]
        else []
    | None => []
    end in
  let adj3 :=
    match ajuste_complejidad f with
    | Some comp =>
        if (0.8 <? comp)%float then [0.2%float]
        else if (0.6 <? comp)%float then [0.0%float]
        else [(-0.2)%float]
    | None => []
    end in
  let adj4 :=
    if default false (patron_existe f) &&
       (5 <=? default 0 (cantidad_patrones f))%Z
    then [0.3%float] else [] in
  fsum (adj1 ++ adj2 ++ adj3 ++ adj4).

End Binary64.

(** * models/profile.py *)

Module Profile.

Record t := mk {
  edad : Z;
  peso : Q;
  altura : Q;
  nivel_str : string;
  objetivo_str : string;
  dias : Z;
  imc : Q;
  nivel_num : Z;
  objetivo_num : Z;
  created_at : string
}.

(** [_validate]: the error messages of the validators of
    utils/validators.py, in the order they are collected. *)
Definition _validate (edad : Z) (peso altura : Q)
    (nivel_str objetivo_str : string) (dias : Z) : list string :=
  (if edad <? ValidationConfig.AGE_MIN then ["La edad debe ser mayor a 10"]
   else if ValidationConfig.AGE_MAX <? edad then ["La edad debe ser menor a 100"]
   else []) ++
  (if negb (Qle_bool ValidationConfig.WEIGHT_MIN peso)
   then ["El peso debe ser mayor a 30 kg"]
   else if negb (Qle_bool peso ValidationConfig.WEIGHT_MAX)
   then ["El peso debe ser menor a 300 kg"]
   else []) ++
  (if negb (Qle_bool ValidationConfig.HEIGHT_MIN altura)
   then ["La altura debe ser mayor a 1.0 m"]
   else if negb (Qle_bool altura ValidationConfig.HEIGHT_MAX)
   then ["La altura debe ser menor a 2.5 m"]
   else []) ++
  (match Mappings.LEVEL_STR_TO_NUM nivel_str with
   | Some _ => []
   | None => ["Nivel debe ser uno de: principiante, intermedio, avanzado"]
   end) ++
  (match Mappings.GOAL_STR_TO_NUM objetivo_str with
   | Some _ => []
   | None =>
       ["Objetivo debe ser uno de: perder_peso, ganar_masa, resistencia, fuerza"]
   end) ++
  (if dias <? ValidationConfig.DAYS_MIN then ["Los días deben ser al menos 2"]
   else if ValidationConfig.DAYS_MAX <? dias
   then ["Los días no pueden ser más de 7"]
   else []).

(** [sep.join(l)] *)
Fixpoint join (sep : string) (l : list string) : string :=
  match l with
  | [] => ""
  | [x] => x
  | x :: l' => x ++ sep ++ join sep l'
  end.

(** The constructor with [__post_init__]. *)
Definition new (edad : Z) (peso altura : Q) (nivel_str objetivo_str : string)
    (dias : Z) (created_at : string) : exn + t :=
  match _validate edad peso altura nivel_str objetivo_str dias with
  | [] =>
      match Calculations.calculate_imc peso altura with
      | inl e => inl e
      | inr imc =>
          inr {| edad := edad; peso := peso; altura := altura;
                 nivel_str := nivel_str; objetivo_str := objetivo_str;
                 dias := dias; imc := imc;
                 nivel_num := default 2 (Mappings.LEVEL_STR_TO_NUM nivel_str);
                 objetivo_num :=
                   default 2 (Mappings.GOAL_STR_TO_NUM objetivo_str);
                 created_at := created_at |}
      end
  | errors => inl (ValueError ("Errores de validación: " ++ join "; " errors))
  end.

Definition to_dict (self : t) : dict :=
  <["edad" := VInt (edad self)]>
  (<["peso" := VFloat (peso self)]>
  (<["altura" := VFloat (altura self)]>
  (<["imc" := VFloat (Qround2 (imc self))]>
  (<["nivel_num" := VInt (nivel_num self)]>
  (<["nivel_str" := VStr (nivel_str self)]>
  (<["objetivo_num" := VInt (objetivo_num self)]>
  (<["objetivo_str" := VStr (objetivo_str self)]>
  (<["dias" := VInt (dias self)]>
  (<["created_at" := VStr (created_at self)]> ∅))))))))).

End Profile.

(** * models/exercise.py *)

(** The dictionary [Exercise.to_dict] builds. *)
Record ExerciseDict := {
  d_ejercicio : string;
  d_grupo : string;
  d_series : option Z;
  d_repeticiones : option string;
  d_descanso : option string;
  d_duracion : option string;
  d_intensidad : option string;
  d_notas : option string
}.

(** A field that [to_dict] copies only when it is truthy: an optional
    string is dropped when it is [None] or empty. *)
Definition truthy_str (o : option string) : option string :=
  match o with
  | Some EmptyString => None
  | _ => o
  end.

Module Exercise.

Record t := mk {
  ejercicio : string;
  grupo : string;
  series : option Z;
  repeticiones : option string;
  descanso : option string;
  duracion : option string;
  intensidad : option string;
  notas : option string
}.

Definition is_cardio (self : t) : bool :=
  String.eqb (lower (grupo self)) "cardio".

Definition to_dict (self : t) : ExerciseDict :=
  {| d_ejercicio := ejercicio self;
     d_grupo := grupo self;
     d_series := series self;
     d_repeticiones := truthy_str (repeticiones self);
     d_descanso := truthy_str (descanso self);
     d_duracion := truthy_str (duracion self);
     d_intensidad := truthy_str (intensidad self);
     d_notas := truthy_str (notas self) |}.

Definition create_strength_exercise (nombre grupo : string) (series : Z)
    (reps descanso : string) : t :=
  {| ejercicio := nombre; grupo := grupo; series := Some series;
     repeticiones := Some reps; descanso := Some descanso;
     duracion := None; intensidad := None; notas := None |}.

Definition create_cardio_exercise (nombre duracion intensidad : string) : t :=
  {| ejercicio := nombre; grupo := "cardio"; series := None;
     repeticiones := None; descanso := None;
     duracion := Some duracion; intensidad := Some intensidad;
     notas := None |}.


(** [not s] for an optional string: [None] and the empty string are
    falsy. *)
Definition falsy_str (o : option string) : bool :=
  match truthy_str o with None => true | Some _ => false end.

(** The constructor with [__post_init__]. *)
Definition new (ejercicio grupo : string) (series : option Z)
    (repeticiones descanso duracion intensidad notas : option string)
    : exn + t :=
  let self :=
    {| ejercicio := ejercicio; grupo := grupo; series := series;
       repeticiones := repeticiones; descanso := descanso;
       duracion := duracion; intensidad := intensidad; notas := notas |} in
  if String.eqb ejercicio "" || String.eqb (strip ejercicio) "" then
    inl (ValueError "El nombre del ejercicio no puede estar vacío")
  else if String.eqb grupo "" || String.eqb (strip grupo) "" then
    inl (ValueError "El grupo muscular no puede estar vacío")
  else if is_cardio self then
    if falsy_str duracion then
      inl (ValueError "Ejercicio de cardio debe tener duración")
    else if falsy_str intensidad then
      inl (ValueError "Ejercicio de cardio debe tener intensidad")
    else inr self
  else
    match series with
    | None => inl (ValueError "Ejercicio de fuerza debe tener series")
    | Some _ =>
        if falsy_str repeticiones then
          inl (ValueError "Ejercicio de fuerza debe tener repeticiones")
        else if falsy_str descanso then
          inl (ValueError "Ejercicio de fuerza debe tener descanso")
        else inr self
    end.

(** [from_dict] on a dictionary [to_dict] built: an absent key reads as
    [None]. *)
Definition from_dict (data : ExerciseDict) : exn + t :=
  new (d_ejercicio data) (d_grupo data) (d_series data)
      (d_repeticiones data) (d_descanso data) (d_duracion data)
      (d_intensidad data) (d_notas data).

(** [__eq__] *)
Definition eq (self other : t) : bool :=
  String.eqb (ejercicio self) (ejercicio other) &&
  String.eqb (grupo self) (grupo other).

End Exercise.

(** * models/routine.py *)

(** The dictionary [Routine.to_dict] builds.  [d_rutina_semanal] and
    [d_estructura] are optional because the readers of stored routines
    test for these keys. *)
Record RoutineDict := {
  d_routine_id : option string;
  d_perfil : dict;
  d_rutina_semanal : option (list (string * list ExerciseDict));
  d_estructura : option string;
  d_metadatos : dict;
  d_fecha_generacion : string;
  d_satisfaccion : option Z;
  d_comentarios : option string
}.

Module Routine.

Record t := mk {
  perfil : Profile.t;
  rutina_semanal : list (string * list Exercise.t);
  estructura : string;
  metadatos : dict;
  routine_id : option string;
  fecha_generacion : string;
  satisfaccion : option Z;
  comentarios : option string
}.

(** The constructor with [__post_init__]; [fresh_id] is the identifier
    [_generate_routine_id] makes from the clock. *)
Definition new (perfil : Profile.t)
    (rutina_semanal : list (string * list Exercise.t)) (estructura : string)
    (metadatos : dict) (routine_id : option string) (fresh_id : string)
    (fecha_generacion : string) : exn + t :=
  let routine_id :=
    match truthy_str routine_id with
    | Some i => Some i
    | None => Some fresh_id
    end in
  if negb (String.eqb estructura "fullbody" ||
           String.eqb estructura "upper_lower" ||
           String.eqb estructura "split")
  then inl (ValueError ("Estructura inválida: " ++ estructura ++
                        ". Debe ser 'fullbody', 'upper_lower' o 'split'"))
  else match rutina_semanal with
       | [] => inl (ValueError "La rutina debe tener al menos un día con ejercicios")
       | _ =>
           inr {| perfil := perfil; rutina_semanal := rutina_semanal;
                  estructura := estructura; metadatos := metadatos;
                  routine_id := routine_id;
                  fecha_generacion := fecha_generacion;
                  satisfaccion := None; comentarios := None |}
       end.

Definition get_total_days (self : t) : nat := length (rutina_semanal self).

Definition get_total_exercises (self : t) : nat :=
  foldr (fun day n => (length day.2 + n)%nat) 0%nat (rutina_semanal self).

Definition get_exercises_per_day (self : t) : R :=
  let total_days := get_total_days self in
  if (total_days =? 0)%nat then 0%R
  else (INR (get_total_exercises self) / INR total_days)%R.

Definition is_successful (self : t) : bool :=
  match satisfaccion self with
  | Some s => 4 <=? s
  | None => false
  end.

Definition has_feedback (self : t) : bool :=
  match satisfaccion self with Some _ => true | None => false end.

Definition set_feedback (satisfaccion : Z) (comentarios : string) : M t unit :=
  if negb ((1 <=? satisfaccion) && (satisfaccion <=? 5)) then
    raise (ValueError "La satisfacción debe estar entre 1 y 5")
  else
    modify (fun self =>
      {| perfil := perfil self; rutina_semanal := rutina_semanal self;
         estructura := estructura self; metadatos := metadatos self;
         routine_id := routine_id self;
         fecha_generacion := fecha_generacion self;
         satisfaccion := Some satisfaccion;
         comentarios := Some comentarios |}).

Definition to_dict (self : t) : RoutineDict :=
  {| d_routine_id := routine_id self;
     d_perfil := Profile.to_dict (perfil self);
     d_rutina_semanal :=
       Some (map (fun day => (day.1, map Exercise.to_dict day.2))
                 (rutina_semanal self));
     d_estructura := Some (estructura self);
     d_metadatos := metadatos self;
     d_fecha_generacion := fecha_generacion self;
     d_satisfaccion := satisfaccion self;
     d_comentarios := comentarios self |}.


(** The days are visited in the insertion order of the dictionary. *)
Definition get_muscle_groups_worked (self : t) : gset string :=
  foldl (fun groups day =>
           foldl (fun groups exercise =>
                    if negb (String.eqb (Exercise.grupo exercise) "cardio")
                    then groups ∪ {[Exercise.grupo exercise]}
                    else groups)
                 groups day.2)
        ∅ (rutina_semanal self).

Definition has_cardio (self : t) : bool :=
  existsb (fun day => existsb Exercise.is_cardio day.2) (rutina_semanal self).

Definition get_cardio_frequency (self : t) : Z :=
  foldl (fun count day =>
           if existsb Exercise.is_cardio day.2 then count + 1 else count)
        0 (rutina_semanal self).

Definition get_complexity_score (self : t) : R :=
  let exercises_per_day := get_exercises_per_day self in
  let num_groups := size (get_muscle_groups_worked self) in
  let has_cardio_score := if has_cardio self then 1%R else 0%R in
  let complexity :=
    (exercises_per_day / 7 * 0.4 +
     INR num_groups / 6 * 0.4 +
     has_cardio_score * 0.2)%R in
  Rmin 1.0 complexity.

End Routine.

(** * models/user.py *)

Module User.
Record t := mk {
  nombre : string;
  perfil : Profile.t;
  limitaciones : string;
  fecha_inicio : string;
  user_id : option string
}.
End User.

(** * models/learning_system.py *)

(** An entry of [historico_usuarios].  The optional fields are the keys
    the program reads with [get] and a default. *)
Module Experience.
Record t := mk {
  perfil : option dict;
  rutina_id : option string;
  rutina_exitosa : option RoutineDict;
  satisfaccion : option Z;
  comentarios : string;
  fecha : string
}.
End Experience.

(** An entry of [patrones_exitosos[key]]. *)
Module Pattern.
Record t := mk {
  rutina : RoutineDict;
  satisfaccion : Z;
  fecha : string
}.
End Pattern.

(** An entry of [rutinas_generadas]: the identifying part of the record
    the generator logs (the inference summaries it also stores are read by
    nothing in the core). *)
Module GeneratedRoutine.
Record t := mk {
  id : option string;
  perfil : dict;
  rutina : RoutineDict;
  fecha_generacion : string;
  modo : string;
  generacion : Z
}.
End GeneratedRoutine.

(** [l[-n:]] for a positive [n]. *)
Definition last_n {A} (n : nat) (l : list A) : list A :=
  drop (length l - n) l.

(** [sum(l)] for a list of integers. *)
Definition Zsum (l : list Z) : Z := fold_left Z.add l 0.

Module LearningSystem.

Record t := mk {
  rutinas_generadas : list GeneratedRoutine.t;
  historico_usuarios : list Experience.t;
  patrones_exitosos : gmap string (list Pattern.t);
  combinaciones_ejercicios : gmap string (gmap string Z);
  parametros_optimos : dict;
  generacion : Z;
  tasa_aprendizaje : Q;
  factor_exploracion : Q
}.

(** The default-constructed system. *)
Definition init : t :=
  {| rutinas_generadas := [];
     historico_usuarios := [];
     patrones_exitosos := ∅;
     combinaciones_ejercicios := ∅;
     parametros_optimos := ∅;
     generacion := 0;
     tasa_aprendizaje := AIConfig.LEARNING_RATE;
     factor_exploracion := AIConfig.EXPLORATION_FACTOR |}.

Definition set_rutinas_generadas (v : list GeneratedRoutine.t) (self : t) : t :=
  mk v (historico_usuarios self) (patrones_exitosos self)
     (combinaciones_ejercicios self) (parametros_optimos self)
     (generacion self) (tasa_aprendizaje self) (factor_exploracion self).

Definition set_historico_usuarios (v : list Experience.t) (self : t) : t :=
  mk (rutinas_generadas self) v (patrones_exitosos self)
     (combinaciones_ejercicios self) (parametros_optimos self)
     (generacion self) (tasa_aprendizaje self) (factor_exploracion self).

Definition set_patrones_exitosos (v : gmap string (list Pattern.t))
    (self : t) : t :=
  mk (rutinas_generadas self) (historico_usuarios self) v
     (combinaciones_ejercicios self) (parametros_optimos self)
     (generacion self) (tasa_aprendizaje self) (factor_exploracion self).

Definition set_combinaciones_ejercicios (v : gmap string (gmap string Z))
    (self : t) : t :=
  mk (rutinas_generadas self) (historico_usuarios self)
     (patrones_exitosos self) v (parametros_optimos self)
     (generacion self) (tasa_aprendizaje self) (factor_exploracion self).

Definition set_generacion (v : Z) (self : t) : t :=
  mk (rutinas_generadas self) (historico_usuarios self)
     (patrones_exitosos self) (combinaciones_ejercicios self)
     (parametros_optimos self) v (tasa_aprendizaje self)
     (factor_exploracion self).

Definition set_factor_exploracion (v : Q) (self : t) : t :=
  mk (rutinas_generadas self) (historico_usuarios self)
     (patrones_exitosos self) (combinaciones_ejercicios self)
     (parametros_optimos self) (generacion self) (tasa_aprendizaje self) v.

Definition add_generated_routine (routine_data : GeneratedRoutine.t)
    (self : t) : t :=
  set_rutinas_generadas (rutinas_generadas self ++ [routine_data]) self.

Definition evolve_generation (self : t) : t :=
  let self := set_generacion (generacion self + 1) self in
  if (10 <=? length (historico_usuarios self))%nat then
    let recent := last_n 10 (historico_usuarios self) in
    let total :=
      Zsum (map (fun u => default 3 (Experience.satisfaccion u)) recent) in
    let avg_satisfaction := (inject_Z total / 10)%Q in
    if Qle_bool 4 avg_satisfaction then
      set_factor_exploracion
        (Qmax 0.1 (factor_exploracion self - 0.01)) self
    else if Qle_bool avg_satisfaction 3 then
      set_factor_exploracion
        (Qmin 0.4 (factor_exploracion self + 0.02)) self
    else self
  else self.

Definition add_user_experience (experience : Experience.t) (self : t) : t :=
  let self :=
    set_historico_usuarios (historico_usuarios self ++ [experience]) self in
  if Z.of_nat (length (historico_usuarios self))
       mod AIConfig.USERS_PER_GENERATION =? 0
  then evolve_generation self
  else self.

Definition add_successful_pattern (key : string) (pattern : Pattern.t)
    (self : t) : t :=
  let self :=
    match patrones_exitosos self !! key with
    | Some _ => self
    | None => set_patrones_exitosos (<[key := []]> (patrones_exitosos self)) self
    end in
  set_patrones_exitosos
    (alter (fun l => (l ++ [pattern])%list) key (patrones_exitosos self)) self.

(** The inner dictionaries are [defaultdict(int)]: a missing exercise
    counts from 0. *)
Definition increment_exercise_combination (grupo ejercicio : string)
    (self : t) : t :=
  let self :=
    match combinaciones_ejercicios self !! grupo with
    | Some _ => self
    | None =>
        set_combinaciones_ejercicios
          (<[grupo := ∅]> (combinaciones_ejercicios self)) self
    end in
  set_combinaciones_ejercicios
    (alter (fun d => <[ejercicio := default 0 (d !! ejercicio) + 1]> d)
           grupo (combinaciones_ejercicios self)) self.

Definition get_total_users (self : t) : nat := length (historico_usuarios self).

Definition get_patterns_for_profile (nivel objetivo : string) (self : t)
    : list Pattern.t :=
  let key := (nivel ++ "_" ++ objetivo)%string in
  default [] (patrones_exitosos self !! key).

(** [should_explore]; [draw] is the value [random.random()] returns, a
    number in [0, 1). *)
Definition should_explore (draw : Q) (self : t) : bool :=
  negb (Qle_bool (factor_exploracion self) draw).




End LearningSystem.


(** * config.py: the exercise database *)

Module ExerciseDatabase.

(** An entry of [EXERCISES]: a dictionary of lists by kind, or a plain
    list. *)
Inductive entry :=
| ByKind (kinds : string → option (list string))
| Plain (names : list string).

(** [EXERCISES.get(group)] *)
Definition EXERCISES (group : string) : option entry :=
  if String.eqb group "pecho" then
    Some (ByKind (fun kind =>
      if String.eqb kind "compuestos" then
        Some ["Press banca"; "Press inclinado"; "Fondos en paralelas";
              "Press declinado"]
      else if String.eqb kind "aislamiento" then
        Some ["Aperturas con mancuernas"; "Cruces en polea"; "Pullover";
              "Press con mancuernas"]
      else None))
  else if String.eqb group "espalda" then
    Some (ByKind (fun kind =>
      if String.eqb kind "compuestos" then
        Some ["Dominadas"; "Peso muerto"; "Remo con barra"; "Remo en polea"]
      else if String.eqb kind "aislamiento" then
        Some ["Jalón al pecho"; "Remo con mancuerna"; "Face pulls";
              "Pullover espalda"]
      else None))
  else if String.eqb group "piernas" then
    Some (ByKind (fun kind =>
      if String.eqb kind "compuestos" then
        Some ["Sentadilla"; "Prensa"; "Peso muerto rumano";
              "Sentadilla búlgara"]
      else if String.eqb kind "aislamiento" then
        Some ["Extensiones de cuádriceps"; "Curl femoral";
              "Elevación de pantorrillas"; "Hip thrust"]
      else None))
  else if String.eqb group "hombros" then
    Some (ByKind (fun kind =>
      if String.eqb kind "compuestos" then
        Some ["Press militar"; "Press Arnold"; "Remo al mentón"]
      else if String.eqb kind "aislamiento" then
        Some ["Elevaciones laterales"; "Elevaciones frontales"; "Pájaros";
              "Face pulls"]
      else None))
  else if String.eqb group "brazos" then
    Some (ByKind (fun kind =>
      if String.eqb kind "compuestos" then
        Some ["Press cerrado"; "Dominadas cerradas"]
      else if String.eqb kind "aislamiento" then
        Some ["Curl con barra"; "Extensiones de tríceps"; "Curl martillo";
              "Curl concentrado"; "Fondos tríceps"]
      else None))
  else if String.eqb group "core" then
    Some (ByKind (fun kind =>
      if String.eqb kind "compuestos" then
        Some ["Plancha"; "Crunches"; "Elevación de piernas"; "Russian twists"]
      else None))
  else if String.eqb group "cardio" then
    Some (Plain ["Caminata"; "Trote"; "HIIT"; "Bicicleta"; "Remo"; "Elíptica";
                 "Escaladora"; "Sprints"])
  else None.

End ExerciseDatabase.

(** * services/ai_service.py *)

(** What a step of the generator can raise: the [ValueError] of a
    constructor, the [TypeError] of subscripting [None], or the
    [KeyError] of a missing key. *)
Inductive gen_exn :=
| Raised (e : exn)
| TypeError
| KeyError.

(** A computation of the generator over the state [S] of the random
    number generator. *)
Definition G (S A : Type) : Type := S → (gen_exn + A) * S.

Definition gret {S A} (a : A) : G S A := fun s => (inr a, s).

Definition gbind {S A B} (m : G S A) (f : A → G S B) : G S B :=
  fun s =>
    match m s with
    | (inl e, s') => (inl e, s')
    | (inr a, s') => f a s'
    end.

Definition gfail {S A} (e : gen_exn) : G S A := fun s => (inl e, s).

(** A call into the [random] module. *)
Definition gdraw {S A} (f : S → A * S) : G S A :=
  fun s => let '(a, s') := f s in (inr a, s').

(** A constructor that can raise [ValueError]. *)
Definition gnew {S A} (r : exn + A) : G S A :=
  match r with
  | inl e => gfail (Raised e)
  | inr a => gret a
  end.

Notation "'let+' x ':=' m 'in' k" := (gbind m (fun x => k))
  (at level 10, x name, m at level 200, k at level 200, only parsing).

(** [[f(x) for x in l]], in order. *)
Fixpoint gfor {S A B} (f : A → G S B) (l : list A) : G S (list B) :=
  match l with
  | [] => gret []
  | x :: l' =>
      let+ y := f x in
      let+ ys := gfor f l' in
      gret (y :: ys)
  end.

(** [l[:n]]: a negative [n] counts from the end. *)
Definition slice_to {A} (n : Z) (l : list A) : list A :=
  if n <? 0 then take (length l - Z.to_nat (- n)) l
  else take (Z.to_nat n) l.

(** [x < y] on floats, as a boolean. *)
Definition Rltb (x y : R) : bool := if Rlt_dec x y then true else false.

Module AIService.

(** The ['metadatos'] entry of the dictionary [_generate_exploration_routine]
    returns. *)
Definition exploration_metadatos : dict :=
  <["modo_generacion" := VStr "exploracion"]>
  (<["innovacion_level" := VStr "alta"]> ∅).

(** The ['metadatos'] entry of the dictionary [_generate_learned_routine]
    returns when patterns exist: [basado_en] and [confianza] are the
    ['cantidad_patrones'] and ['confianza'] of the best practices. *)
Definition learned_metadatos (basado_en : Z) (confianza : Q) : dict :=
  <["modo_generacion" := VStr "aprendizaje"]>
  (<["basado_en" := VInt basado_en]>
  (<["confianza" := VFloat confianza]> ∅)).

(** What [_apply_optimal_parameters] does to the metadata. *)
Definition optimized_metadatos (metadatos : dict) (confianza : Q) : dict :=
  <["confianza_parametros" := VFloat confianza]>
  (<["parametros_optimizados" := VBool true]> metadatos).


(** ** The plan of the week *)

Definition _decide_structure (days : Z) : string :=
  if days <=? 3 then "fullbody"
  else if days =? 4 then "upper_lower"
  else "split".

(** [[groups] * days] is empty for [days <= 0]. *)
Definition _decide_groups_per_day (structure : string) (days : Z)
    : list (list string) :=
  if String.eqb structure "fullbody" then
    let groups := ["pecho"; "espalda"; "piernas"; "hombros"; "brazos"] in
    replicate (Z.to_nat days) groups
  else if String.eqb structure "upper_lower" then
    slice_to days
      [["pecho"; "espalda"; "hombros"; "brazos"];
       ["piernas"; "core"];
       ["pecho"; "espalda"; "brazos"];
       ["piernas"; "hombros"; "core"]]
  else
    let base_split :=
      [["pecho"; "brazos"];
       ["espalda"];
       ["piernas"];
       ["hombros"; "brazos"];
       ["pecho"; "espalda"];
       ["piernas"; "core"]] in
    slice_to days base_split.

Definition _decide_exercises_per_group (group structure level : string) : Z :=
  if String.eqb group "cardio" then 1
  else
    let config :=
      default (fun _ => None) (RoutineConfig.EXERCISES_PER_STRUCTURE structure) in
    default 2 (config level).

(** ** Applying inferred parameters *)

(** The body of the loop of [_apply_optimal_parameters]: what it does to
    one exercise.  The four arguments are the entries ['series'],
    ['repeticiones_min'], ['repeticiones_max'] and ['descanso'] of
    [optimal_params]. *)
Definition apply_to_exercise (series reps_min reps_max : Z) (rest : string)
    (exercise : Exercise.t) : Exercise.t :=
  if negb (Exercise.is_cardio exercise) then
    {| Exercise.ejercicio := Exercise.ejercicio exercise;
       Exercise.grupo := Exercise.grupo exercise;
       Exercise.series := Some series;
       Exercise.repeticiones :=
         Some (str_of_Z reps_min ++ "-" ++ str_of_Z reps_max)%string;
       Exercise.descanso := Some rest;
       Exercise.duracion := Exercise.duracion exercise;
       Exercise.intensidad := Exercise.intensidad exercise;
       Exercise.notas := Exercise.notas exercise |}
  else exercise.

(** What [_apply_optimal_parameters] does to the weekly plan. *)
Definition _apply_optimal_parameters
    (rutina_semanal : list (string * list Exercise.t))
    (series reps_min reps_max : Z) (rest : string)
    : list (string * list Exercise.t) :=
  map (fun day =>
         (day.1, map (apply_to_exercise series reps_min reps_max rest) day.2))
      rutina_semanal.

(** ** Quality of a generated routine *)

(** The messages about strength exercises with fewer than two series, in
    the order of the plan. *)
Definition few_series_problems (rutina_semanal : list (string * list Exercise.t))
    : list string :=
  concat
    (map (fun day =>
            omap (fun exercise =>
                    if negb (Exercise.is_cardio exercise) &&
                       match Exercise.series exercise with
                       | None => true
                       | Some s => s <? 2
                       end
                    then Some (day.1 ++ ": " ++ Exercise.ejercicio exercise ++
                               " tiene pocas series")%string
                    else None)
                 day.2)
         rutina_semanal).

(** [', '.join(l)] *)
Fixpoint join_comma (l : list string) : string :=
  match l with
  | [] => ""
  | [x] => x
  | x :: l' => (x ++ ", " ++ join_comma l')%string
  end.

(** [validate_routine_quality]; [order] is the order in which Python
    iterates over the set of missing groups. *)
Definition validate_routine_quality (order : gset string → list string)
    (routine : Routine.t) : bool * list string :=
  let problems :=
    if (Routine.get_total_exercises routine =? 0)%nat
    then ["La rutina no tiene ejercicios"] else [] in
  let groups := Routine.get_muscle_groups_worked routine in
  let major_groups : gset string := {["pecho"; "espalda"; "piernas"]} in
  let missing_major := major_groups ∖ groups in
  let problems :=
    if bool_decide (missing_major ≠ ∅)
    then (problems ++
          [("Falta trabajar: " ++ join_comma (order missing_major))%string])%list
    else problems in
  let exercises_per_day := Routine.get_exercises_per_day routine in
  let problems :=
    if Rltb exercises_per_day 3 then
      (problems ++ ["Muy pocos ejercicios por día"])%list
    else if Rltb 8 exercises_per_day then
      (problems ++ ["Demasiados ejercicios por día"])%list
    else problems in
  let problems :=
    (problems ++ few_series_problems (Routine.rutina_semanal routine))%list in
  ((length problems =? 0)%nat, problems).


(** ** The exploration generator

    The calls of the [random] module are arguments: each reads the state
    of the random number generator and returns the value drawn with the
    new state. *)

Section Generation.

Context {rng : Type}.

(** [random.sample(population, k)] *)
Variable sample : list string → nat → rng → list string * rng.
(** [random.randint(a, b)] *)
Variable randint : Z → Z → rng → Z * rng.
(** [random.random()] *)
Variable random : rng → Q * rng.
(** [random.choice(seq)] *)
Variable choice : list string → rng → string * rng.

Definition _select_innovative_exercises (group : string) (count : Z)
    (level : string) : G rng (list string) :=
  match ExerciseDatabase.EXERCISES group with
  | None => gret []
  | Some (ExerciseDatabase.ByKind available) =>
      let pool :=
        if String.eqb level "principiante" then
          default [] (available "compuestos")
        else
          (default [] (available "compuestos") ++
           default [] (available "aislamiento"))%list in
      gdraw (sample pool (Z.to_nat (Z.min count (Z.of_nat (length pool)))))
  | Some (ExerciseDatabase.Plain available) =>
      gdraw (sample available
               (Z.to_nat (Z.min count (Z.of_nat (length available)))))
  end.

(** The dictionary [_generate_experimental_parameters] returns has one of
    two shapes. *)
Inductive experimental_parameters :=
| CardioParameters (duracion intensidad : string)
| StrengthParameters (series : Z) (repeticiones descanso : string).

Definition _generate_experimental_parameters (objetivo nivel grupo : string)
    : G rng experimental_parameters :=
  let params_config := RoutineConfig.PARAMS_BY_GOAL objetivo in
  let series_config := default 4 (RoutineConfig.SERIES_BY_LEVEL nivel) in
  if String.eqb grupo "cardio" then
    let+ minutes := gdraw (randint 15 30) in
    let+ intensidad := gdraw (choice ["moderada"; "alta"; "HIIT"]) in
    gret (CardioParameters (str_of_Z minutes ++ " min") intensidad)
  else
    match params_config with
    | None => gfail TypeError
    | Some params_config =>
        let reps_min := RoutineConfig.reps_min params_config in
        let reps_max := RoutineConfig.reps_max params_config in
        let+ low := gdraw (randint reps_min (reps_min + 2)) in
        let+ high := gdraw (randint (reps_max - 2) reps_max) in
        let+ rest :=
          gdraw (randint (RoutineConfig.rest_min params_config)
                         (RoutineConfig.rest_max params_config)) in
        gret (StrengthParameters series_config
                (str_of_Z low ++ "-" ++ str_of_Z high)
                (str_of_Z rest ++ "s"))
    end.

Definition _needs_cardio (objetivo : string) (day_num : Z) : G rng bool :=
  match RoutineConfig.PARAMS_BY_GOAL objetivo with
  | None => gfail TypeError
  | Some params =>
      let probability := RoutineConfig.cardio_probability params in
      let+ draw := gdraw random in
      gret (negb (Qle_bool probability draw))
  end.

(** [Exercise.create_cardio_exercise] and [create_strength_exercise] with
    the check of the constructor. *)
Definition new_cardio_exercise (nombre duracion intensidad : string)
    : G rng Exercise.t :=
  gnew (Exercise.new nombre "cardio" None None None (Some duracion)
          (Some intensidad) None).

Definition new_strength_exercise (nombre grupo : string) (series : Z)
    (reps descanso : string) : G rng Exercise.t :=
  gnew (Exercise.new nombre grupo (Some series) (Some reps) (Some descanso)
          None None None).

Definition _generate_cardio_exercise (objetivo : string) : G rng Exercise.t :=
  match ExerciseDatabase.EXERCISES "cardio" with
  | Some (ExerciseDatabase.Plain cardio_options) =>
      let+ cardio_name := gdraw (choice cardio_options) in
      if String.eqb objetivo "perder_peso" then
        let+ minutes := gdraw (randint 20 30) in
        let+ intensity := gdraw (choice ["alta"; "HIIT"]) in
        new_cardio_exercise cardio_name (str_of_Z minutes ++ " min") intensity
      else if String.eqb objetivo "resistencia" then
        let+ minutes := gdraw (randint 25 40) in
        let+ intensity := gdraw (choice ["moderada"; "alta"]) in
        new_cardio_exercise cardio_name (str_of_Z minutes ++ " min") intensity
      else
        let+ minutes := gdraw (randint 15 20) in
        new_cardio_exercise cardio_name (str_of_Z minutes ++ " min") "moderada"
  | _ => gfail KeyError
  end.

(** The body of the loop over the groups of a day. *)
Definition explore_group (profile : Profile.t) (structure group : string)
    : G rng (list Exercise.t) :=
  let num_exercises :=
    _decide_exercises_per_group group structure (Profile.nivel_str profile) in
  let+ exercises :=
    _select_innovative_exercises group num_exercises
      (Profile.nivel_str profile) in
  gfor (fun exercise_name =>
          let+ params :=
            _generate_experimental_parameters (Profile.objetivo_str profile)
              (Profile.nivel_str profile) group in
          if String.eqb group "cardio" then
            match params with
            | CardioParameters duracion intensidad =>
                new_cardio_exercise exercise_name duracion intensidad
            | StrengthParameters _ _ _ => gfail KeyError
            end
          else
            match params with
            | StrengthParameters series repeticiones descanso =>
                new_strength_exercise exercise_name group series repeticiones
                  descanso
            | CardioParameters _ _ => gfail KeyError
            end)
       exercises.

(** The body of the loop over the days: the entry it adds to the weekly
    plan. *)
Definition explore_day (profile : Profile.t) (structure : string)
    (day_num : Z) (groups : list string) : G rng (string * list Exercise.t) :=
  let+ per_group := gfor (explore_group profile structure) groups in
  let day_exercises := concat per_group in
  let+ cardio := _needs_cardio (Profile.objetivo_str profile) day_num in
  let+ day_exercises :=
    if cardio then
      let+ cardio_ex :=
        _generate_cardio_exercise (Profile.objetivo_str profile) in
      gret (day_exercises ++ [cardio_ex])%list
    else gret day_exercises in
  gret (("Día " ++ str_of_Z day_num)%string, day_exercises).

(** [for day_num, groups in enumerate(groups_per_day, start)] *)
Fixpoint explore_days (profile : Profile.t) (structure : string)
    (day_num : Z) (groups_per_day : list (list string))
    : G rng (list (string * list Exercise.t)) :=
  match groups_per_day with
  | [] => gret []
  | groups :: rest =>
      let+ day := explore_day profile structure day_num groups in
      let+ days := explore_days profile structure (day_num + 1) rest in
      gret (day :: days)
  end.

Record routine_dict := {
  rd_rutina_semanal : list (string * list Exercise.t);
  rd_estructura : string;
  rd_metadatos : dict
}.

(** The days get the keys ['Día 1'], ['Día 2'], ... in this order; the
    keys differ, so no entry of the dictionary is overwritten. *)
Definition _generate_exploration_routine (profile : Profile.t)
    : G rng routine_dict :=
  let structure := _decide_structure (Profile.dias profile) in
  let groups_per_day :=
    _decide_groups_per_day structure (Profile.dias profile) in
  let+ weekly_routine := explore_days profile structure 1 groups_per_day in
  gret {| rd_rutina_semanal := weekly_routine;
          rd_estructura := structure;
          rd_metadatos := exploration_metadatos |}.

End Generation.

End AIService.

(** * utils/validators.py *)

Module Validators.

(** A [str] is held as the bytes of its UTF-8 encoding, and [len] counts
    characters: every byte but the continuation bytes [10xxxxxx] starts
    one. *)
Definition continuation_byte (c : ascii) : bool :=
  let n := N_of_ascii c in ((128 <=? n) && (n <? 192))%N.

Fixpoint py_len (s : string) : nat :=
  match s with
  | EmptyString => 0
  | String c s' => if continuation_byte c then py_len s' else S (py_len s')
  end.

(** [validate_satisfaction] of an [int]: [int(satisfaction)] is the value
    itself and raises nothing. *)
Definition validate_satisfaction (satisfaction : Z) : bool * string :=
  let sat_int := satisfaction in
  if sat_int <? ValidationConfig.SATISFACTION_MIN then
    (false, ("La satisfacción debe ser al menos " ++
             str_of_Z ValidationConfig.SATISFACTION_MIN)%string)
  else if ValidationConfig.SATISFACTION_MAX <? sat_int then
    (false, ("La satisfacción no puede ser mayor a " ++
             str_of_Z ValidationConfig.SATISFACTION_MAX)%string)
  else (true, "").

Definition validate_feedback (satisfaction : Z) (comments : string)
    : bool * list string :=
  let errors : list string := [] in
  let '(valid, msg) := validate_satisfaction satisfaction in
  let errors := if negb valid then (errors ++ [msg])%list else errors in
  let errors :=
    if negb (String.eqb comments "") &&
       (500 <? Z.of_nat (py_len comments))
    then (errors ++
          ["Los comentarios no pueden tener más de 500 caracteres"])%list
    else errors in
  ((length errors =? 0)%nat, errors).

End Validators.

(** * services/learning_service.py *)

Module LearningService.

(** The two objects [process_feedback] mutates. *)
Record world := mkWorld {
  learning_system : LearningSystem.t;
  routine : Routine.t
}.

Definition on_routine {A} (m : M Routine.t A) : M world A :=
  fun w =>
    let '(r, routine') := m (routine w) in
    (r, mkWorld (learning_system w) routine').

Definition on_learning_system (f : LearningSystem.t -> LearningSystem.t)
    : M world unit :=
  modify (fun w => mkWorld (f (learning_system w)) (routine w)).

Record learning_results := {
  patrones_actualizados : bool;
  combinaciones_actualizadas : bool;
  exploracion_ajustada : bool;
  generacion_evolucionada : bool
}.

Definition pattern_key (profile : Profile.t) : string :=
  (Profile.nivel_str profile ++ "_" ++ Profile.objetivo_str profile)%string.

Definition _update_successful_patterns (profile : Profile.t)
    (routine : Routine.t) (satisfaction : Z) (now : string)
    (ls : LearningSystem.t) : LearningSystem.t :=
  let pattern :=
    {| Pattern.rutina := Routine.to_dict routine;
       Pattern.satisfaccion := satisfaction;
       Pattern.fecha := now |} in
  LearningSystem.add_successful_pattern (pattern_key profile) pattern ls.

(** The exercises of a routine in the order the two nested loops visit
    them. *)
Definition all_exercises (routine : Routine.t) : list Exercise.t :=
  concat (map snd (Routine.rutina_semanal routine)).

Definition _update_exercise_combinations (routine : Routine.t)
    (ls : LearningSystem.t) : LearningSystem.t :=
  fold_left
    (fun ls exercise =>
       if negb (Exercise.is_cardio exercise) then
         LearningSystem.increment_exercise_combination
           (Exercise.grupo exercise) (Exercise.ejercicio exercise) ls
       else ls)
    (all_exercises routine) ls.

(** [routine.metadatos.get('modo_generacion', 'exploracion')] *)
Definition generation_mode (routine : Routine.t) : pyval :=
  py_get (Routine.metadatos routine) "modo_generacion" (VStr "exploracion").

Definition _adjust_exploration_factor (satisfaction : Z) (routine : Routine.t)
    (ls : LearningSystem.t) : bool * LearningSystem.t :=
  let mode := generation_mode routine in
  if (4 <=? satisfaction) && py_eqb mode (VStr "explotacion") then
    let old_factor := LearningSystem.factor_exploracion ls in
    let ls :=
      LearningSystem.set_factor_exploracion
        (Qmax 0.1 (LearningSystem.factor_exploracion ls - 0.01)) ls in
    if negb (Qeq_bool old_factor (LearningSystem.factor_exploracion ls))
    then (true, ls) else (false, ls)
  else if satisfaction <=? 2 then
    let old_factor := LearningSystem.factor_exploracion ls in
    let ls :=
      LearningSystem.set_factor_exploracion
        (Qmin 0.4 (LearningSystem.factor_exploracion ls + 0.02)) ls in
    if negb (Qeq_bool old_factor (LearningSystem.factor_exploracion ls))
    then (true, ls) else (false, ls)
  else (false, ls).

(** [now1] and [now2] are the time stamps of the experience and of the
    pattern. *)
Definition process_feedback (user : User.t) (satisfaction : Z)
    (comments : string) (now1 now2 : string) : M world learning_results :=
  exec on_routine (Routine.set_feedback satisfaction comments) in
  let* w := get in
  let routine := routine w in
  let experience :=
    {| Experience.perfil := Some (Profile.to_dict (User.perfil user));
       Experience.rutina_id := Routine.routine_id routine;
       Experience.rutina_exitosa :=
         if Routine.is_successful routine
         then Some (Routine.to_dict routine) else None;
       Experience.satisfaccion := Some satisfaction;
       Experience.comentarios := comments;
       Experience.fecha := now1 |} in
  exec on_learning_system (LearningSystem.add_user_experience experience) in
  let* patrones :=
    if Routine.is_successful routine then
      exec on_learning_system
        (_update_successful_patterns (User.perfil user) routine
           satisfaction now2) in
      ret true
    else ret false in
  let* combinaciones :=
    if Routine.is_successful routine then
      exec on_learning_system (_update_exercise_combinations routine) in
      ret true
    else ret false in
  let* w := get in
  let '(exploration_adjusted, ls) :=
    _adjust_exploration_factor satisfaction routine (learning_system w) in
  exec put (mkWorld ls (LearningService.routine w)) in
  let current_gen := LearningSystem.generacion ls in
  let evolucionada := LearningSystem.generacion ls >? current_gen in
  ret {| patrones_actualizados := patrones;
         combinaciones_actualizadas := combinaciones;
         exploracion_ajustada := exploration_adjusted;
         generacion_evolucionada := evolucionada |}.

(** [get_best_practices]: the fields of its result the generator copies
    into the metadata of a learned routine. *)
Definition best_practices_cantidad (profile : Profile.t)
    (ls : LearningSystem.t) : Z :=
  Z.of_nat (length (LearningSystem.get_patterns_for_profile
                      (Profile.nivel_str profile)
                      (Profile.objetivo_str profile) ls)).

Definition best_practices_confianza (profile : Profile.t)
    (ls : LearningSystem.t) : Q :=
  Qmin 1.0 (inject_Z (best_practices_cantidad profile ls) / 10).

(** [should_use_learning_mode]; [draw] is the random number
    [should_explore] draws. *)
Definition should_use_learning_mode (profile : Profile.t) (draw : Q)
    (ls : LearningSystem.t) : bool :=
  let patterns :=
    LearningSystem.get_patterns_for_profile
      (Profile.nivel_str profile) (Profile.objetivo_str profile) ls in
  let has_patterns := (3 <=? length patterns)%nat in
  let should_explore := LearningSystem.should_explore draw ls in
  has_patterns && negb should_explore.

End LearningService.

(** * services/inference_service.py *)

(** [x >= y] and [x <= y] on floats, as booleans. *)
Definition Rgeb (x y : R) : bool := if Rge_dec x y then true else false.
Definition Rleb (x y : R) : bool := if Rle_dec x y then true else false.

(** [sorted(l)] on rationals. *)
Fixpoint Qinsert (x : Q) (l : list Q) : list Q :=
  match l with
  | [] => [x]
  | y :: l' => if Qle_bool x y then x :: l else y :: Qinsert x l'
  end.

Definition Qsort (l : list Q) : list Q := foldr Qinsert [] l.

(** [np.median(l)] for a non-empty list. *)
Definition median (l : list Q) : Q :=
  let s := Qsort l in
  let n := length s in
  if Nat.even n then
    ((nth (n / 2 - 1) s 0%Q + nth (n / 2) s 0%Q) / 2)%Q
  else nth (n / 2) s 0%Q.


Module InferenceService.

(** An element of the list [_find_similar_users] returns. *)
Record similar_user := {
  usuario : Experience.t;
  similitud : R
}.

Record prediction := {
  satisfaccion_predicha : R;
  confianza : R;
  factores : factors;
  recomendacion : bool;
  usuarios_similares : Z;
  metodo : string
}.

Record optimal_params := {
  series : Z;
  repeticiones_min : Z;
  repeticiones_max : Z;
  descanso : string;
  op_confianza : Q;
  basado_en : Z;
  op_metodo : string
}.

Record anomaly := {
  tipo : string;
  descripcion : string;
  recomendacion_anomalia : string
}.

(** The result of [detect_anomalies]; the early return has no
    ['satisfaccion_promedio'] key. *)
Record anomaly_report := {
  anomalias : list anomaly;
  estado : string;
  satisfaccion_promedio : option R
}.

(** [_initialize_thresholds] *)
Definition umbrales : gmap string R :=
  <["similitud_alta" := AIConfig.SIMILARITY_HIGH]>
  (<["similitud_media" := AIConfig.SIMILARITY_MEDIUM]>
  (<["similitud_baja" := AIConfig.SIMILARITY_LOW]>
  (<["confianza_alta" := AIConfig.CONFIDENCE_HIGH]>
  (<["confianza_media" := AIConfig.CONFIDENCE_MEDIUM]>
  (<["confianza_baja" := AIConfig.CONFIDENCE_LOW]> ∅))))).

Definition _baseline_prediction : prediction :=
  {| satisfaccion_predicha := 3.5%R;
     confianza := 0.3%R;
     factores :=
       {| promedio_similares := None; cantidad_similares := None;
          similitud_promedio := None; ajuste_complejidad := None;
          patron_existe := None; cantidad_patrones := None;
          sin_datos := Some true |};
     recomendacion := true;
     usuarios_similares := 0;
     metodo := "baseline" |}.

(** One iteration of the loop of [_find_similar_users]: the entry the
    iteration appends, if any.  A missing, [None] or empty profile is
    skipped. *)
Definition similar_entry (profile : Profile.t) (threshold : R)
    (user_exp : Experience.t) : option similar_user :=
  match Experience.perfil user_exp with
  | None => None
  | Some user_profile_data =>
      if decide (user_profile_data = ∅) then None
      else
        let similarity :=
          Calculations.calculate_profile_similarity
            (Profile.to_dict profile) user_profile_data in
        if Rge_dec similarity threshold
        then Some {| usuario := user_exp; similitud := similarity |}
        else None
  end.

(** [similar.sort(key=similitud, reverse=True)]: a stable sort, larger
    similarities first. *)
Fixpoint insert_desc (x : similar_user) (l : list similar_user)
    : list similar_user :=
  match l with
  | [] => [x]
  | y :: l' =>
      if Rle_dec (similitud y) (similitud x) then x :: l
      else y :: insert_desc x l'
  end.

Definition sort_desc (l : list similar_user) : list similar_user :=
  foldr insert_desc [] l.

Definition _find_similar_users (profile : Profile.t) (threshold : R)
    (ls : LearningSystem.t) : list similar_user :=
  let similar :=
    omap (similar_entry profile threshold)
         (LearningSystem.historico_usuarios ls) in
  take 10 (sort_desc similar).

(** [[u['usuario'].get('satisfaccion', 3) for u in similar_users]] *)
Definition satisfactions_of (similar_users : list similar_user) : list R :=
  map (fun u => IZR (default 3 (Experience.satisfaccion (usuario u))))
      similar_users.

Definition _get_ideal_complexity (profile : Profile.t) : R :=
  let nivel := Profile.nivel_str profile in
  if String.eqb nivel "principiante" then 4%R
  else if String.eqb nivel "intermedio" then 5%R
  else if String.eqb nivel "avanzado" then 6%R
  else 5%R.

Definition _analyze_satisfaction_factors (profile : Profile.t)
    (routine : option Routine.t) (similar_users : list similar_user)
    (ls : LearningSystem.t) : factors :=
  let '(promedio, cantidad, similitud_prom) :=
    match similar_users with
    | [] => (3.5%R, 0, 0%R)
    | _ =>
        (Calculations.calculate_average (satisfactions_of similar_users),
         Z.of_nat (length similar_users),
         Calculations.calculate_average (map similitud similar_users))
    end in
  let ajuste :=
    match routine with
    | Some routine =>
        let complexity := Routine.get_exercises_per_day routine in
        let ideal_complexity := _get_ideal_complexity profile in
        (1 - Rabs (complexity - ideal_complexity) / ideal_complexity)%R
    | None => 1.0%R
    end in
  let patterns :=
    LearningSystem.get_patterns_for_profile
      (Profile.nivel_str profile) (Profile.objetivo_str profile) ls in
  {| promedio_similares := Some promedio;
     cantidad_similares := Some cantidad;
     similitud_promedio := Some similitud_prom;
     ajuste_complejidad := Some ajuste;
     patron_existe := Some (0 <? length patterns)%nat;
     cantidad_patrones := Some (Z.of_nat (length patterns));
     sin_datos := None |}.

Definition _calculate_bayesian_prediction (similar_users : list similar_user)
    (f : factors) : R :=
  match similar_users with
  | [] => 3.5%R
  | _ =>
      let prior :=
        Calculations.calculate_average (satisfactions_of similar_users) in
      let adjustment := Calculations.calculate_bayesian_adjustment f umbrales in
      let posterior := (prior + adjustment)%R in
      Rmax 1.0 (Rmin 5.0 posterior)
  end.

Definition _calculate_prediction_confidence
    (similar_users : list similar_user) (f : factors) : R :=
  match similar_users with
  | [] => 0.3%R
  | _ =>
      let satisfactions := satisfactions_of similar_users in
      let std_dev :=
        if (1 <? length satisfactions)%nat
        then Calculations.calculate_std_dev satisfactions else 1.0%R in
      Calculations.calculate_confidence_score
        (Z.of_nat (length similar_users))
        (default 0%R (similitud_promedio f))
        (Some std_dev)
  end.

Definition predict_satisfaction (profile : Profile.t)
    (routine : option Routine.t) (ls : LearningSystem.t) : prediction :=
  let similar_users := _find_similar_users profile 0.7 ls in
  match similar_users with
  | [] => _baseline_prediction
  | _ =>
      let f := _analyze_satisfaction_factors profile routine similar_users ls in
      let predicted_satisfaction :=
        _calculate_bayesian_prediction similar_users f in
      let confidence := _calculate_prediction_confidence similar_users f in
      let recommend :=
        Rgeb predicted_satisfaction 3.5 &&
        Rgeb confidence
             (default AIConfig.CONFIDENCE_LOW (umbrales !! "confianza_baja")) in
      {| satisfaccion_predicha := Rround2 predicted_satisfaction;
         confianza := Rround2 confidence;
         factores := f;
         recomendacion := recommend;
         usuarios_similares := Z.of_nat (length similar_users);
         metodo := "bayesiano" |}
  end.

(** ** Optimal parameters *)

(** The midpoint a repetition range contributes to [reps_list], if any:
    the body of [if 'repeticiones' in ex], where every exception of the
    inner [try] is swallowed. *)
Definition reps_midpoint (reps_str : string) : option Q :=
  if contains_char "-"%char reps_str then
    match split_char "-"%char reps_str with
    | p0 :: p1 :: _ =>
        match py_int_of_string p0, py_int_of_string p1 with
        | Some a, Some b => Some (inject_Z (a + b) / 2)%Q
        | _, _ => None
        end
    | _ => None
    end
  else None.

(** The exercises of the stored routine of a successful user, if the
    entry has one with a weekly plan. *)
Definition stored_exercises (user_data : similar_user) : list ExerciseDict :=
  match Experience.rutina_exitosa (usuario user_data) with
  | None => []
  | Some routine_data =>
      match d_rutina_semanal routine_data with
      | None => []
      | Some days => concat (map snd days)
      end
  end.

Definition _extract_parameters_from_routines
    (successful_users : list similar_user) : list Z * list Q :=
  let exercises := concat (map stored_exercises successful_users) in
  let series_list := omap d_series exercises in
  let reps_list :=
    omap (fun ex => d_repeticiones ex ≫= reps_midpoint) exercises in
  (series_list, reps_list).

Definition _infer_rest_time (profile : Profile.t) (series reps : Z) : string :=
  let objetivo := Profile.objetivo_str profile in
  if String.eqb objetivo "fuerza" || (5 <=? series) then "120-180s"
  else if String.eqb objetivo "ganar_masa" then "60-90s"
  else if String.eqb objetivo "resistencia" || (15 <=? reps) then "30-45s"
  else "45-60s".

(** The four entries [_calculate_optimal_values] computes. *)
Definition _calculate_optimal_values (params : list Z * list Q)
    (profile : Profile.t) : Z * Z * Z * string :=
  let series :=
    match params.1 with
    | [] => 4
    | l => Qround_half_even (median (map inject_Z l))
    end in
  let reps_median :=
    match params.2 with
    | [] => 10
    | l => Qround_half_even (median l)
    end in
  (series, Z.max 4 (reps_median - 2), reps_median + 2,
   _infer_rest_time profile series reps_median).

Definition _parameters_by_heuristics (profile : Profile.t) : optimal_params :=
  let objetivo := Profile.objetivo_str profile in
  let params_config :=
    default RoutineConfig.PARAMS_ganar_masa
            (RoutineConfig.PARAMS_BY_GOAL objetivo) in
  let series :=
    default 4 (RoutineConfig.SERIES_BY_LEVEL (Profile.nivel_str profile)) in
  {| series := series;
     repeticiones_min := RoutineConfig.reps_min params_config;
     repeticiones_max := RoutineConfig.reps_max params_config;
     descanso :=
       (str_of_Z (RoutineConfig.rest_min params_config) ++ "-" ++
        str_of_Z (RoutineConfig.rest_max params_config) ++ "s")%string;
     op_confianza := 0.5%Q;
     basado_en := 0;
     op_metodo := "heuristica" |}.

Definition infer_optimal_parameters (profile : Profile.t)
    (ls : LearningSystem.t) : optimal_params :=
  let similar_users := _find_similar_users profile 0.75 ls in
  let successful_users :=
    filter (fun u => 4 <= default 0 (Experience.satisfaccion (usuario u)))
           similar_users in
  match successful_users with
  | [] => _parameters_by_heuristics profile
  | _ =>
      let params := _extract_parameters_from_routines successful_users in
      let '(series, reps_min, reps_max, rest) :=
        _calculate_optimal_values params profile in
      let confidence :=
        Qmin 1.0 (inject_Z (Z.of_nat (length successful_users)) / 10) in
      {| series := series;
         repeticiones_min := reps_min;
         repeticiones_max := reps_max;
         descanso := rest;
         op_confianza := Qround2 confidence;
         basado_en := Z.of_nat (length successful_users);
         op_metodo := "inferencia_datos" |}
  end.

(** ** Anomalies *)

(** [all(l[i] > l[i+1] for i in range(len(l) - 1))] *)
Fixpoint strictly_decreasing (l : list Z) : bool :=
  match l with
  | a :: (b :: _) as l' => (b <? a) && strictly_decreasing l'
  | _ => true
  end.

(** [l[-k]] for [1 <= k <= len(l)] *)
Definition from_end (k : nat) (l : list Z) : Z :=
  default 0 (l !! (length l - k)%nat).

Definition detect_anomalies (profile : Profile.t)
    (feedback_history : list Experience.t) : anomaly_report :=
  if (length feedback_history <? 3)%nat then
    {| anomalias := []; estado := "normal"; satisfaccion_promedio := None |}
  else
    let satisfactions :=
      map (fun f => default 3 (Experience.satisfaccion f)) feedback_history in
    let a1 :=
      if (3 <=? length satisfactions)%nat &&
         strictly_decreasing (last_n 3 satisfactions)
      then [{| tipo := "tendencia_negativa";
               descripcion := "Satisfacción en descenso constante";
               recomendacion_anomalia :=
                 "Revisar intensidad o variedad de ejercicios" |}]
      else [] in
    let a2 :=
      if (2 <=? length satisfactions)%nat &&
         (4 <=? from_end 2 satisfactions) && (from_end 1 satisfactions <=? 2)
      then [{| tipo := "caida_abrupta";
               descripcion := "Caída súbita en satisfacción";
               recomendacion_anomalia :=
                 "Verificar posibles lesiones o sobreentrenamiento" |}]
      else [] in
    let avg := Calculations.calculate_average (map IZR satisfactions) in
    let a3 :=
      if Rleb 3.0 avg && Rleb avg 3.5 && (5 <=? length satisfactions)%nat
      then [{| tipo := "estancamiento";
               descripcion := "Satisfacción estancada en nivel medio";
               recomendacion_anomalia :=
                 "Considerar cambio de enfoque o metodología" |}]
      else [] in
    let anomalies := (a1 ++ a2 ++ a3)%list in
    {| anomalias := anomalies;
       estado := match anomalies with [] => "normal" | _ => "anomalo" end;
       satisfaccion_promedio := Some avg |}.


(** ** Classification of a user *)

Record user_category := {
  name : string;
  category_description : string
}.

Definition _get_user_category (num_experiences : nat) : user_category :=
  if (num_experiences =? 0)%nat then
    {| name := "novato";
       category_description := "Primera vez usando el sistema" |}
  else if (num_experiences <=? 5)%nat then
    {| name := "regular";
       category_description := "Usuario regular con algunas experiencias" |}
  else if (num_experiences <=? 15)%nat then
    {| name := "experimentado";
       category_description := "Usuario experimentado con buen historial" |}
  else if (num_experiences <=? 50)%nat then
    {| name := "veterano";
       category_description := "Usuario veterano con amplia experiencia" |}
  else
    {| name := "experto";
       category_description := "Usuario experto del sistema" |}.

Definition _get_performance_level (avg_satisfaction : R) : string :=
  if Rgeb avg_satisfaction 4.5 then "excelente"
  else if Rgeb avg_satisfaction 4.0 then "bueno"
  else if Rgeb avg_satisfaction 3.5 then "aceptable"
  else "necesita_ajuste".

(** An entry of [USER_RECOMMENDATIONS]: a list, or a dictionary of lists
    by performance. *)
Inductive recommendations :=
| RecList (l : list string)
| RecDict (d : string → option (list string)).

(** [USER_RECOMMENDATIONS.get(category)] of utils/constants.py *)
Definition USER_RECOMMENDATIONS (category : string) : option recommendations :=
  if String.eqb category "novato" then
    Some (RecList ["Comienza con rutinas Full Body 3 días/semana";
                   "Enfócate en aprender técnica correcta";
                   "Da feedback detallado para ayudar al sistema"])
  else if String.eqb category "regular" then
    Some (RecDict (fun performance =>
      if String.eqb performance "necesita_ajuste" then
        Some ["Considera ajustar días de entrenamiento";
              "Revisa si la intensidad es adecuada"]
      else if String.eqb performance "default" then
        Some ["Continúa con la consistencia";
              "Considera aumentar días de entrenamiento"]
      else None))
  else if String.eqb category "experimentado" then
    Some (RecDict (fun performance =>
      if String.eqb performance "excelente" then
        Some ["Excelente progreso, mantén el ritmo";
              "Considera técnicas avanzadas"]
      else if String.eqb performance "default" then
        Some ["Revisa objetivos cada 4-6 semanas"]
      else None))
  else if String.eqb category "veterano" then
    Some (RecDict (fun performance =>
      if String.eqb performance "excelente" then
        Some ["Excelente progreso, mantén el ritmo";
              "Considera técnicas avanzadas"]
      else if String.eqb performance "default" then
        Some ["Revisa objetivos cada 4-6 semanas"]
      else None))
  else if String.eqb category "experto" then
    Some (RecList ["Usuario experimentado del sistema";
                   "Considera compartir feedback detallado";
                   "Experimenta con variaciones avanzadas"])
  else None.

Definition _generate_recommendations (category performance : string)
    (profile : Profile.t) : list string :=
  match default (RecList []) (USER_RECOMMENDATIONS category) with
  | RecDict d => default (default [] (d "default")) (d performance)
  | RecList l => l
  end.

Record classification := {
  categoria : string;
  cl_descripcion : string;
  experiencias : nat;
  cl_satisfaccion_promedio : R;
  rendimiento : string;
  recomendaciones : list string
}.

(** [user_history] is [None] when the argument is left out; an empty
    list is as falsy as [None]. *)
Definition classify_user (profile : Profile.t)
    (user_history : option (list Experience.t)) : classification :=
  let history := default [] user_history in
  let num_experiences := length history in
  let avg_satisfaction :=
    match history with
    | [] => 0%R
    | _ =>
        Calculations.calculate_average
          (map (fun exp => IZR (default 3 (Experience.satisfaccion exp)))
               history)
    end in
  let category := _get_user_category num_experiences in
  let performance := _get_performance_level avg_satisfaction in
  {| categoria := name category;
     cl_descripcion := category_description category;
     experiencias := num_experiences;
     cl_satisfaccion_promedio := Rround2 avg_satisfaction;
     rendimiento := performance;
     recomendaciones :=
       _generate_recommendations (name category) performance profile |}.

End InferenceService.

(** * Sample data

    The profile of the end-to-end scenario of the specification, a routine
    as the exploit generator tags it, and the objects built from them. *)

Definition sample_profile : Profile.t :=
  {| Profile.edad := 25; Profile.peso := 70; Profile.altura := 1.75;
     Profile.nivel_str := "intermedio"; Profile.objetivo_str := "ganar_masa";
     Profile.dias := 4; Profile.imc := (70 / (1.75 * 1.75))%Q;
     Profile.nivel_num := 2; Profile.objetivo_num := 2;
     Profile.created_at := "2025-01-01T10:00:00" |}.

Definition sample_exercises : list Exercise.t :=
  [Exercise.create_strength_exercise "Press banca" "pecho" 4 "8-12" "60-90s";
   Exercise.create_cardio_exercise "Cinta" "20 min" "moderada";
   Exercise.create_strength_exercise "Remo" "espalda" 4 "8-12" "60-90s";
   Exercise.create_strength_exercise "Press banca" "pecho" 4 "8-12" "60-90s"].

Definition sample_learned_routine : Routine.t :=
  {| Routine.perfil := sample_profile;
     Routine.rutina_semanal := [("Día 1", sample_exercises)];
     Routine.estructura := "fullbody";
     Routine.metadatos := AIService.learned_metadatos 3 0.3;
     Routine.routine_id := Some "RUT_20250101_100000";
     Routine.fecha_generacion := "2025-01-01T10:00:00";
     Routine.satisfaccion := None;
     Routine.comentarios := None |}.

Definition sample_user : User.t :=
  {| User.nombre := "Ana"; User.perfil := sample_profile;
     User.limitaciones := "ninguna";
     User.fecha_inicio := "2025-01-01T09:00:00";
     User.user_id := Some "USER_ANA_20250101090000" |}.

Definition sample_world : LearningService.world :=
  LearningService.mkWorld LearningSystem.init sample_learned_routine.

(** An experience that records only a satisfaction. *)
Definition experience_of (s : Z) : Experience.t :=
  {| Experience.perfil := None; Experience.rutina_id := None;
     Experience.rutina_exitosa := None; Experience.satisfaccion := Some s;
     Experience.comentarios := ""; Experience.fecha := "" |}.

(** The learning system after a sequence of [add_user_experience] calls. *)
Definition add_user_experiences (es : list Experience.t)
    (ls : LearningSystem.t) : LearningSystem.t :=
  fold_left (fun ls e => LearningSystem.add_user_experience e ls) es ls.

(** A system at the ceiling of the exploration factor whose next
    experience completes a block of ten poorly rated ones. *)
Definition sample_struggling_system : LearningSystem.t :=
  LearningSystem.set_factor_exploracion 0.39
    (LearningSystem.set_historico_usuarios
       (repeat (experience_of 1) 9) LearningSystem.init).

(** A profile of another goal, and histories that hold it. *)
Definition sample_other_profile : Profile.t :=
  {| Profile.edad := 40; Profile.peso := 80; Profile.altura := 1.80;
     Profile.nivel_str := "avanzado"; Profile.objetivo_str := "fuerza";
     Profile.dias := 5; Profile.imc := (80 / (1.80 * 1.80))%Q;
     Profile.nivel_num := 3; Profile.objetivo_num := 4;
     Profile.created_at := "2024-12-01T10:00:00" |}.

Definition experience_with (p : Profile.t) (s : Z) : Experience.t :=
  {| Experience.perfil := Some (Profile.to_dict p);
     Experience.rutina_id := Some "RUT_20241201_100000";
     Experience.rutina_exitosa := None;
     Experience.satisfaccion := Some s;
     Experience.comentarios := "";
     Experience.fecha := "2024-12-02T10:00:00" |}.

(** One rating by a user with another goal. *)
Definition sample_foreign_system : LearningSystem.t :=
  LearningSystem.set_historico_usuarios
    [experience_with sample_other_profile 5] LearningSystem.init.

(** A poor rating by a twin of the sample user and a good one by a user
    with another goal. *)
Definition sample_mixed_system : LearningSystem.t :=
  LearningSystem.set_historico_usuarios
    [experience_with sample_profile 2; experience_with sample_other_profile 5]
    LearningSystem.init.

(** * Predicates of the specification *)

(** The documented range of the exploration factor. *)
Definition exploration_in_bounds (ls : LearningSystem.t) : Prop :=
  (0.1 <= LearningSystem.factor_exploracion ls)%Q ∧
  (LearningSystem.factor_exploracion ls <= 0.4)%Q.

(** How often an exercise of a muscle group has been counted. *)
Definition combination_count (ls : LearningSystem.t) (grupo ejercicio : string)
    : Z :=
  default 0 (LearningSystem.combinaciones_ejercicios ls !! grupo
               ≫= (fun d => d !! ejercicio)).

(** How many non-cardio exercises of a routine carry a given group and
    name. *)
Definition strength_occurrences (routine : Routine.t)
    (grupo ejercicio : string) : Z :=
  Z.of_nat
    (length
       (List.filter
          (fun ex => negb (Exercise.is_cardio ex) &&
                     String.eqb (Exercise.grupo ex) grupo &&
                     String.eqb (Exercise.ejercicio ex) ejercicio)
          (LearningService.all_exercises routine))).

(** A profile dictionary whose entries for the four numeric dimensions,
    where present, are numbers. *)
Definition numeric_entry (d : dict) (k : string) : Prop :=
  ∀ v, d !! k = Some v → is_Some (py_num v).

Definition numeric_profile (d : dict) : Prop :=
  numeric_entry d "edad" ∧ numeric_entry d "imc" ∧
  numeric_entry d "nivel_num" ∧ numeric_entry d "dias".



(** The entries of the history that [_find_similar_users] compares with a
    profile, and the similarity it computes for each. *)
Definition compared (ls : LearningSystem.t) (e : Experience.t) (d : dict)
    : Prop :=
  e ∈ LearningSystem.historico_usuarios ls ∧
  Experience.perfil e = Some d ∧ d ≠ ∅.



(** The rating an experience counts for in the anomaly checks. *)
Definition rating (e : Experience.t) : Z := default 3 (Experience.satisfaccion e).

(** The kinds of the anomalies of a report. *)
Definition anomaly_kinds (r : InferenceService.anomaly_report) : list string :=
  map InferenceService.tipo (InferenceService.anomalias r).

(** A string made of ASCII digits only. *)
Fixpoint all_digits (s : string) : bool :=
  match s with
  | EmptyString => true
  | String c s' =>
      match digit_of c with Some _ => all_digits s' | None => false end
  end.

(** ** The exploration generator: what it relies on and what it builds *)

(** What the generator relies on from the [random] module: a sample of
    [k] elements of a population that holds at least [k], an integer of
    the closed range asked for, an element of a sequence that is not
    empty. *)
Record random_spec {rng : Type}
    (sample : list string → nat → rng → list string * rng)
    (randint : Z → Z → rng → Z * rng)
    (choice : list string → rng → string * rng) : Prop := {
  sample_length : ∀ pool k g,
    (k <= length pool)%nat → length (sample pool k g).1 = k;
  sample_elem : ∀ pool k g x, x ∈ (sample pool k g).1 → x ∈ pool;
  randint_range : ∀ a b g, a <= b → a <= (randint a b g).1 <= b;
  choice_elem : ∀ l g, l ≠ [] → (choice l g).1 ∈ l
}.

(** A generator to run the definitions on: it takes the first elements,
    the lower bound, the draw 0 and the first element, and has no state. *)
Definition first_sample (pool : list string) (k : nat) (g : unit)
    : list string * unit := (take k pool, g).
Definition low_randint (a b : Z) (g : unit) : Z * unit := (a, g).
Definition zero_random (g : unit) : Q * unit := (0%Q, g).
Definition first_choice (l : list string) (g : unit) : string * unit :=
  (List.hd ""%string l, g).

(** The names [_select_innovative_exercises] draws from for a group and a
    level. *)
Definition innovative_pool (group level : string) : list string :=
  match ExerciseDatabase.EXERCISES group with
  | None => []
  | Some (ExerciseDatabase.ByKind available) =>
      if String.eqb level "principiante" then
        default [] (available "compuestos")
      else
        (default [] (available "compuestos") ++
         default [] (available "aislamiento"))%list
  | Some (ExerciseDatabase.Plain available) => available
  end.

(** The number of exercises the generator gets for a group: the number
    decided, or the whole pool if that is smaller. *)
Definition group_load (profile : Profile.t) (structure group : string) : nat :=
  Z.to_nat
    (Z.min (AIService._decide_exercises_per_group group structure
              (Profile.nivel_str profile))
           (Z.of_nat (length (innovative_pool group
                                (Profile.nivel_str profile))))).

(** A strength exercise of the exploration generator for a group: an
    exercise of the pool with the series of the level, a repetition range
    and a rest drawn from the ranges of the goal. *)
Definition explored_strength (profile : Profile.t) (group : string)
    (ex : Exercise.t) : Prop :=
  ∃ params low high rest,
    RoutineConfig.PARAMS_BY_GOAL (Profile.objetivo_str profile) = Some params ∧
    RoutineConfig.reps_min params <= low <= RoutineConfig.reps_min params + 2 ∧
    RoutineConfig.reps_max params - 2 <= high <= RoutineConfig.reps_max params ∧
    RoutineConfig.rest_min params <= rest <= RoutineConfig.rest_max params ∧
    Exercise.ejercicio ex ∈ innovative_pool group (Profile.nivel_str profile) ∧
    ex = Exercise.create_strength_exercise (Exercise.ejercicio ex) group
           (default 4 (RoutineConfig.SERIES_BY_LEVEL (Profile.nivel_str profile)))
           (Calculations.format_rep_range low high)
           (str_of_Z rest ++ "s").

(** The cardio exercise the generator may add to a day. *)
Definition explored_cardio (objetivo : string) (ex : Exercise.t) : Prop :=
  ∃ minutes intensity,
    15 <= minutes <= 40 ∧
    intensity ∈ ["moderada"; "alta"; "HIIT"]%string ∧
    (objetivo = "perder_peso"%string →
     20 <= minutes <= 30 ∧ intensity ≠ "moderada"%string) ∧
    Exercise.ejercicio ex ∈ innovative_pool "cardio" "" ∧
    ex = Exercise.create_cardio_exercise (Exercise.ejercicio ex)
           (str_of_Z minutes ++ " min") intensity.

(** A day of the exploration generator for the groups planned: the
    strength exercises of the groups, then at most one cardio exercise. *)
Definition explored_day (profile : Profile.t) (structure : string)
    (day_num : Z) (groups : list string)
    (day : string * list Exercise.t) : Prop :=
  day.1 = ("Día " ++ str_of_Z day_num)%string ∧
  ∃ strength cardio,
    day.2 = (strength ++ cardio)%list ∧
    length strength = sum_list (map (group_load profile structure) groups) ∧
    Forall (fun ex => ∃ group, group ∈ groups ∧
                               explored_strength profile group ex) strength ∧
    (cardio = [] ∨
     ∃ c, cardio = [c] ∧ explored_cardio (Profile.objetivo_str profile) c).


(** * Properties of the domain records *)

Local Open Scope list_scope.

Section RoutineFeedback.

Variables (s : Z) (c : string) (r : Routine.t).

Lemma set_feedback_invalid :
  ¬ (1 <= s <= 5) →
  Routine.set_feedback s c r =
    (inl (ValueError "La satisfacción debe estar entre 1 y 5"), r).
Proof.
  intros Hout. unfold Routine.set_feedback.
  destruct (negb ((1 <=? s) && (s <=? 5))) eqn:E; [reflexivity|].
  apply negb_false_iff, andb_true_iff in E as [H1 H2]. lia.
Qed.

Lemma set_feedback_valid :
  1 <= s <= 5 →
  Routine.set_feedback s c r =
    (inr tt,
     Routine.mk (Routine.perfil r) (Routine.rutina_semanal r)
       (Routine.estructura r) (Routine.metadatos r) (Routine.routine_id r)
       (Routine.fecha_generacion r) (Some s) (Some c)).
Proof.
  intros Hin. unfold Routine.set_feedback.
  destruct (negb ((1 <=? s) && (s <=? 5))) eqn:E; [|reflexivity].
  apply negb_true_iff, andb_false_iff in E as [H|H]; lia.
Qed.

End RoutineFeedback.

(** C9: [Routine.set_feedback] raises exactly when the satisfaction is
    outside [1, 5]; when it raises the routine is left as it was (so
    [satisfaccion] and [comentarios] are unchanged); when the satisfaction
    is in range the call returns and both fields hold the given values,
    the other fields being untouched. *)
Theorem C9_set_feedback_validates (s : Z) (c : string) (r : Routine.t) :
  let out := Routine.set_feedback s c r in
  ((∃ e, out.1 = inl e) ↔ ¬ (1 <= s <= 5)) ∧
  (¬ (1 <= s <= 5) →
     out.2 = r ∧
     Routine.satisfaccion out.2 = Routine.satisfaccion r ∧
     Routine.comentarios out.2 = Routine.comentarios r) ∧
  (1 <= s <= 5 →
     out.1 = inr tt ∧
     Routine.satisfaccion out.2 = Some s ∧
     Routine.comentarios out.2 = Some c ∧
     Routine.perfil out.2 = Routine.perfil r ∧
     Routine.rutina_semanal out.2 = Routine.rutina_semanal r ∧
     Routine.estructura out.2 = Routine.estructura r ∧
     Routine.metadatos out.2 = Routine.metadatos r ∧
     Routine.routine_id out.2 = Routine.routine_id r ∧
     Routine.fecha_generacion out.2 = Routine.fecha_generacion r).
Proof.
  intros out. subst out. split; [|split].
  - split.
    + intros [e He] Hin. rewrite (set_feedback_valid s c r Hin) in He.
      discriminate He.
    + intros Hout. rewrite (set_feedback_invalid s c r Hout). eauto.
  - intros Hout. rewrite (set_feedback_invalid s c r Hout). auto.
  - intros Hin. rewrite (set_feedback_valid s c r Hin). cbn. tauto.
Qed.

Lemma C9_set_feedback_validates_witness :
  ((Routine.set_feedback 6 "mal" sample_learned_routine).2
     = sample_learned_routine) ∧
  Routine.satisfaccion (Routine.set_feedback 4 "bien" sample_learned_routine).2
    = Some 4.
Proof.
  split.
  - apply (C9_set_feedback_validates 6 "mal" sample_learned_routine). lia.
  - apply (C9_set_feedback_validates 4 "bien" sample_learned_routine). lia.
Defined.

(** * Properties of the learning state *)

Section Generation.

Import LearningSystem.

Lemma evolve_generation_generacion ls :
  generacion (evolve_generation ls) = generacion ls + 1.
Proof.
  unfold evolve_generation.
  repeat match goal with |- context [if ?b then _ else _] => destruct b end;
    reflexivity.
Qed.

Lemma evolve_generation_historico ls :
  historico_usuarios (evolve_generation ls) = historico_usuarios ls.
Proof.
  unfold evolve_generation.
  repeat match goal with |- context [if ?b then _ else _] => destruct b end;
    reflexivity.
Qed.

Lemma add_user_experience_historico e ls :
  historico_usuarios (add_user_experience e ls) = historico_usuarios ls ++ [e].
Proof.
  unfold add_user_experience.
  destruct (_ =? 0); [apply evolve_generation_historico | reflexivity].
Qed.

(** The counter moves exactly on the calls that complete a block of ten. *)
Lemma add_user_experience_generacion e ls :
  generacion (add_user_experience e ls) =
    generacion ls +
    (if Z.of_nat (S (length (historico_usuarios ls))) mod 10 =? 0
     then 1 else 0).
Proof.
  unfold add_user_experience. cbn [set_historico_usuarios historico_usuarios].
  rewrite length_app. cbn [length]. rewrite Nat.add_1_r.
  unfold AIConfig.USERS_PER_GENERATION.
  destruct (_ =? 0).
  - rewrite evolve_generation_generacion. reflexivity.
  - cbn. lia.
Qed.

Lemma div10_succ (n : Z) :
  0 <= n → (n + 1) / 10 = n / 10 + (if (n + 1) mod 10 =? 0 then 1 else 0).
Proof.
  intros Hn. destruct ((n + 1) mod 10 =? 0) eqn:E.
  - apply Z.eqb_eq in E. Z.to_euclidean_division_equations. lia.
  - apply Z.eqb_neq in E. Z.to_euclidean_division_equations. lia.
Qed.

(** A system whose counter agrees with its history keeps agreeing. *)
Lemma add_user_experiences_generacion es : ∀ ls,
  generacion ls = Z.of_nat (length (historico_usuarios ls)) / 10 →
  generacion (add_user_experiences es ls) =
    Z.of_nat (length (historico_usuarios ls) + length es) / 10.
Proof.
  induction es as [|e es IH]; intros ls Hls; cbn [add_user_experiences fold_left].
  - rewrite Nat.add_0_r. exact Hls.
  - fold (add_user_experiences es (add_user_experience e ls)).
    rewrite IH.
    + rewrite add_user_experience_historico, length_app. cbn [length].
      f_equal. lia.
    + rewrite add_user_experience_generacion, add_user_experience_historico.
      rewrite length_app. cbn [length]. rewrite Hls.
      replace (Z.of_nat (length (historico_usuarios ls) + 1))
        with (Z.of_nat (length (historico_usuarios ls)) + 1) by lia.
      replace (Z.of_nat (S (length (historico_usuarios ls))))
        with (Z.of_nat (length (historico_usuarios ls)) + 1) by lia.
      symmetry. apply div10_succ. lia.
Qed.

End Generation.

(** C2: every [add_user_experience] call appends one entry to the
    history and moves the generation counter by exactly 1 when the new
    history length is a multiple of 10 and by 0 otherwise; hence after [n]
    calls on a freshly created system the counter is [n / 10] (rounded
    down). *)
Theorem C2_generation_every_ten_experiences :
  (∀ (e : Experience.t) (ls : LearningSystem.t),
     let ls' := LearningSystem.add_user_experience e ls in
     let n' := length (LearningSystem.historico_usuarios ls') in
     n' = S (length (LearningSystem.historico_usuarios ls)) ∧
     LearningSystem.generacion ls' =
       LearningSystem.generacion ls +
       (if Z.of_nat n' mod 10 =? 0 then 1 else 0)) ∧
  (∀ es : list Experience.t,
     LearningSystem.generacion (add_user_experiences es LearningSystem.init) =
       Z.of_nat (length es) / 10).
Proof.
  split.
  - intros e ls ls' n'. subst n' ls'.
    rewrite add_user_experience_historico, length_app. cbn [length].
    rewrite Nat.add_1_r. split; [reflexivity|].
    apply add_user_experience_generacion.
  - intros es.
    rewrite (add_user_experiences_generacion es LearningSystem.init); reflexivity.
Qed.

(** * The exploration factor *)

Ltac case_ifs :=
  repeat match goal with
         | |- context [if ?b then _ else _] => destruct b eqn:?
         end.

Section ExplorationBounds.

Import LearningSystem LearningService.

Lemma Qmax_floor_in_bounds (f : Q) :
  (f <= 0.4)%Q → (0.1 <= Qmax 0.1 (f - 0.01))%Q ∧ (Qmax 0.1 (f - 0.01) <= 0.4)%Q.
Proof.
  intros Hf. split.
  - apply Q.le_max_l.
  - apply Q.max_lub; lra.
Qed.

Lemma Qmin_ceiling_in_bounds (f : Q) :
  (0.1 <= f)%Q → (0.1 <= Qmin 0.4 (f + 0.02))%Q ∧ (Qmin 0.4 (f + 0.02) <= 0.4)%Q.
Proof.
  intros Hf. split.
  - apply Q.min_glb; lra.
  - apply Q.le_min_l.
Qed.

Lemma init_in_bounds : exploration_in_bounds init.
Proof. split; cbn; unfold AIConfig.EXPLORATION_FACTOR; lra. Qed.

Lemma evolve_generation_in_bounds ls :
  exploration_in_bounds ls → exploration_in_bounds (evolve_generation ls).
Proof.
  intros [Hlo Hhi]. unfold evolve_generation, exploration_in_bounds.
  case_ifs; cbn.
  - apply Qmax_floor_in_bounds, Hhi.
  - apply Qmin_ceiling_in_bounds, Hlo.
  - auto.
  - auto.
Qed.

Lemma add_user_experience_in_bounds e ls :
  exploration_in_bounds ls → exploration_in_bounds (add_user_experience e ls).
Proof.
  intros H. unfold add_user_experience. case_ifs.
  - apply evolve_generation_in_bounds, H.
  - exact H.
Qed.

Lemma adjust_exploration_factor_in_bounds s r ls :
  exploration_in_bounds ls →
  exploration_in_bounds (_adjust_exploration_factor s r ls).2.
Proof.
  intros [Hlo Hhi]. unfold _adjust_exploration_factor, exploration_in_bounds.
  case_ifs; cbn; auto using Qmax_floor_in_bounds, Qmin_ceiling_in_bounds.
Qed.

End ExplorationBounds.

(** * The learning update *)

Section ProcessFeedback.

Import LearningSystem LearningService.

Variables (user : User.t) (s : Z) (c t1 t2 : string).
Variables (ls : LearningSystem.t) (r : Routine.t).

(** The routine once the feedback is attached. *)
Let r' : Routine.t :=
  Routine.mk (Routine.perfil r) (Routine.rutina_semanal r)
    (Routine.estructura r) (Routine.metadatos r) (Routine.routine_id r)
    (Routine.fecha_generacion r) (Some s) (Some c).

Let experience : Experience.t :=
  {| Experience.perfil := Some (Profile.to_dict (User.perfil user));
     Experience.rutina_id := Routine.routine_id r;
     Experience.rutina_exitosa :=
       if 4 <=? s then Some (Routine.to_dict r') else None;
     Experience.satisfaccion := Some s;
     Experience.comentarios := c;
     Experience.fecha := t1 |}.

Let ls1 := add_user_experience experience ls.
Let ls2 :=
  if 4 <=? s then _update_successful_patterns (User.perfil user) r' s t2 ls1
  else ls1.
Let ls3 := if 4 <=? s then _update_exercise_combinations r' ls2 else ls2.

Lemma process_feedback_invalid :
  ¬ (1 <= s <= 5) →
  process_feedback user s c t1 t2 (mkWorld ls r) =
    (inl (ValueError "La satisfacción debe estar entre 1 y 5"), mkWorld ls r).
Proof.
  intros Hout. unfold process_feedback, bind, on_routine.
  cbn [routine learning_system].
  rewrite (set_feedback_invalid s c r Hout). reflexivity.
Qed.

Lemma process_feedback_valid :
  1 <= s <= 5 →
  process_feedback user s c t1 t2 (mkWorld ls r) =
    (inr {| patrones_actualizados := 4 <=? s;
            combinaciones_actualizadas := 4 <=? s;
            exploracion_ajustada := (_adjust_exploration_factor s r' ls3).1;
            generacion_evolucionada := false |},
     mkWorld (_adjust_exploration_factor s r' ls3).2 r').
Proof.
  intros Hin. unfold process_feedback, bind, on_routine.
  cbn [routine learning_system].
  rewrite (set_feedback_valid s c r Hin). fold r'.
  cbn [get on_learning_system modify ret routine learning_system].
  change (Routine.is_successful r') with (4 <=? s).
  fold experience. fold ls1.
  subst ls3 ls2. destruct (4 <=? s);
    cbn [get on_learning_system modify ret put bind routine learning_system];
    destruct (_adjust_exploration_factor s r' _) as [adj lsf];
    cbn; rewrite Z.gtb_ltb, Z.ltb_irrefl; reflexivity.
Qed.

End ProcessFeedback.

Section Frames.

Import LearningSystem LearningService.

Lemma update_successful_patterns_factor p r s t ls :
  factor_exploracion (_update_successful_patterns p r s t ls) =
    factor_exploracion ls.
Proof.
  unfold _update_successful_patterns, add_successful_pattern.
  destruct (patrones_exitosos ls !! pattern_key p); reflexivity.
Qed.

Lemma increment_exercise_combination_factor g x ls :
  factor_exploracion (increment_exercise_combination g x ls) =
    factor_exploracion ls.
Proof.
  unfold increment_exercise_combination.
  destruct (combinaciones_ejercicios ls !! g); reflexivity.
Qed.

Lemma increment_exercise_combination_patrones g x ls :
  patrones_exitosos (increment_exercise_combination g x ls) =
    patrones_exitosos ls.
Proof.
  unfold increment_exercise_combination.
  destruct (combinaciones_ejercicios ls !! g); reflexivity.
Qed.

(** What a fold of conditional increments leaves alone. *)
Lemma update_exercise_combinations_frame {A} (proj : LearningSystem.t → A) :
  (∀ g x ls, proj (increment_exercise_combination g x ls) = proj ls) →
  ∀ r ls, proj (_update_exercise_combinations r ls) = proj ls.
Proof.
  intros Hinc r. unfold _update_exercise_combinations.
  induction (all_exercises r) as [|ex exs IH]; intros ls; [reflexivity|].
  cbn [fold_left]. rewrite IH. destruct (negb _); [apply Hinc | reflexivity].
Qed.

Lemma evolve_generation_patrones ls :
  patrones_exitosos (evolve_generation ls) = patrones_exitosos ls.
Proof. unfold evolve_generation. case_ifs; reflexivity. Qed.

Lemma evolve_generation_combinaciones ls :
  combinaciones_ejercicios (evolve_generation ls) = combinaciones_ejercicios ls.
Proof. unfold evolve_generation. case_ifs; reflexivity. Qed.

Lemma add_user_experience_patrones e ls :
  patrones_exitosos (add_user_experience e ls) = patrones_exitosos ls.
Proof.
  unfold add_user_experience. case_ifs;
    [rewrite evolve_generation_patrones|]; reflexivity.
Qed.

Lemma add_user_experience_combinaciones e ls :
  combinaciones_ejercicios (add_user_experience e ls) =
    combinaciones_ejercicios ls.
Proof.
  unfold add_user_experience. case_ifs;
    [rewrite evolve_generation_combinaciones|]; reflexivity.
Qed.

Lemma adjust_exploration_factor_patrones s r ls :
  patrones_exitosos (_adjust_exploration_factor s r ls).2 =
    patrones_exitosos ls.
Proof. unfold _adjust_exploration_factor. case_ifs; reflexivity. Qed.

Lemma adjust_exploration_factor_combinaciones s r ls :
  combinaciones_ejercicios (_adjust_exploration_factor s r ls).2 =
    combinaciones_ejercicios ls.
Proof. unfold _adjust_exploration_factor. case_ifs; reflexivity. Qed.

Lemma update_successful_patterns_combinaciones p r s t ls :
  combinaciones_ejercicios (_update_successful_patterns p r s t ls) =
    combinaciones_ejercicios ls.
Proof.
  unfold _update_successful_patterns, add_successful_pattern.
  destruct (patrones_exitosos ls !! pattern_key p); reflexivity.
Qed.

Lemma in_bounds_of_factor ls ls' :
  factor_exploracion ls' = factor_exploracion ls →
  exploration_in_bounds ls → exploration_in_bounds ls'.
Proof. unfold exploration_in_bounds. intros ->. auto. Qed.

Lemma process_feedback_in_bounds user s c t1 t2 ls r :
  exploration_in_bounds ls →
  exploration_in_bounds
    (learning_system (process_feedback user s c t1 t2 (mkWorld ls r)).2).
Proof.
  intros Hls. destruct (decide (1 <= s <= 5)) as [Hin|Hout].
  - rewrite process_feedback_valid by exact Hin. cbn [snd learning_system].
    apply adjust_exploration_factor_in_bounds.
    destruct (4 <=? s).
    + eapply in_bounds_of_factor.
      { apply (update_exercise_combinations_frame factor_exploracion).
        apply increment_exercise_combination_factor. }
      eapply in_bounds_of_factor.
      { apply update_successful_patterns_factor. }
      apply add_user_experience_in_bounds, Hls.
    + apply add_user_experience_in_bounds, Hls.
  - rewrite process_feedback_invalid by exact Hout. exact Hls.
Qed.

End Frames.

(** C3: the exploration factor stays in [0.1, 0.4].  The bound holds for
    the freshly created system (factor 0.2) and is preserved by the
    per-feedback adjustment, by the generation evolution, by
    [add_user_experience] (which may run the evolution) and by a whole
    [process_feedback] call, in which both may fire. *)
Theorem C3_exploration_factor_bounded :
  exploration_in_bounds LearningSystem.init ∧
  ∀ ls : LearningSystem.t,
    exploration_in_bounds ls →
    (∀ s r,
       exploration_in_bounds
         (LearningService._adjust_exploration_factor s r ls).2) ∧
    exploration_in_bounds (LearningSystem.evolve_generation ls) ∧
    (∀ e, exploration_in_bounds (LearningSystem.add_user_experience e ls)) ∧
    (∀ user s c t1 t2 r,
       exploration_in_bounds
         (LearningService.learning_system
            (LearningService.process_feedback user s c t1 t2
               (LearningService.mkWorld ls r)).2)).
Proof.
  split; [apply init_in_bounds|].
  intros ls Hls. repeat split.
  - apply adjust_exploration_factor_in_bounds, Hls.
  - apply adjust_exploration_factor_in_bounds, Hls.
  - apply evolve_generation_in_bounds, Hls.
  - apply evolve_generation_in_bounds, Hls.
  - apply add_user_experience_in_bounds, Hls.
  - apply add_user_experience_in_bounds, Hls.
  - apply process_feedback_in_bounds, Hls.
  - apply process_feedback_in_bounds, Hls.
Qed.

(** The factor of the sample system goes 0.39 -> 0.4 (evolution, capped)
    -> 0.4 (adjustment, capped) in one [process_feedback] call. *)
Lemma C3_exploration_factor_bounded_witness :
  exploration_in_bounds sample_struggling_system ∧
  exploration_in_bounds
    (LearningService.learning_system
       (LearningService.process_feedback sample_user 1 "muy dura"
          "2025-01-02T10:00:00" "2025-01-02T10:00:01"
          (LearningService.mkWorld sample_struggling_system
             sample_learned_routine)).2).
Proof.
  assert (H : exploration_in_bounds sample_struggling_system)
    by (split; vm_compute; discriminate).
  split; [exact H|].
  apply (proj2 C3_exploration_factor_bounded sample_struggling_system H).
Defined.

(** * Success patterns and exercise combinations *)

Section Combinations.

Import LearningSystem LearningService.

Lemma combination_count_increment g x ls g' x' :
  combination_count (increment_exercise_combination g x ls) g' x' =
    combination_count ls g' x' +
    (if String.eqb g g' && String.eqb x x' then 1 else 0).
Proof.
  unfold combination_count, increment_exercise_combination.
  destruct (String.eqb_spec g g') as [<-|Hg]; cbn [andb].
  - destruct (combinaciones_ejercicios ls !! g) as [d|] eqn:Hd;
      cbn [combinaciones_ejercicios set_combinaciones_ejercicios].
    + rewrite lookup_alter_eq, Hd. cbn.
      destruct (String.eqb_spec x x') as [<-|Hx].
      * rewrite lookup_insert_eq. cbn. reflexivity.
      * rewrite lookup_insert_ne by exact Hx. lia.
    + rewrite lookup_alter_eq, lookup_insert_eq. cbn.
      destruct (String.eqb_spec x x') as [<-|Hx].
      * rewrite lookup_insert_eq. cbn. rewrite lookup_empty. reflexivity.
      * rewrite lookup_insert_ne by exact Hx. rewrite lookup_empty. cbn. lia.
  - destruct (combinaciones_ejercicios ls !! g) as [d|] eqn:Hd;
      cbn [combinaciones_ejercicios set_combinaciones_ejercicios].
    + rewrite lookup_alter_ne by exact Hg. lia.
    + rewrite lookup_alter_ne, lookup_insert_ne by exact Hg. lia.
Qed.

Lemma combination_count_fold g' x' exs : ∀ ls,
  combination_count
    (fold_left
       (fun ls ex =>
          if negb (Exercise.is_cardio ex) then
            increment_exercise_combination
              (Exercise.grupo ex) (Exercise.ejercicio ex) ls
          else ls) exs ls) g' x' =
    combination_count ls g' x' +
    Z.of_nat
      (length
         (List.filter
            (fun ex => negb (Exercise.is_cardio ex) &&
                       String.eqb (Exercise.grupo ex) g' &&
                       String.eqb (Exercise.ejercicio ex) x') exs)).
Proof.
  induction exs as [|ex exs IH]; intros ls; cbn [fold_left List.filter].
  - cbn. lia.
  - rewrite IH. destruct (negb (Exercise.is_cardio ex)); cbn [andb].
    + rewrite combination_count_increment.
      destruct (_ && _); cbn [length]; lia.
    + lia.
Qed.

Lemma update_exercise_combinations_count r ls g x :
  combination_count (_update_exercise_combinations r ls) g x =
    combination_count ls g x + strength_occurrences r g x.
Proof. apply combination_count_fold. Qed.

Lemma add_successful_pattern_patrones key pattern ls :
  patrones_exitosos (add_successful_pattern key pattern ls) =
    <[key := default [] (patrones_exitosos ls !! key) ++ [pattern]]>
      (patrones_exitosos ls).
Proof.
  unfold add_successful_pattern.
  destruct (patrones_exitosos ls !! key) as [l|] eqn:Hl;
    cbn [patrones_exitosos set_patrones_exitosos default].
  - apply map_eq. intros k. destruct (decide (key = k)) as [<-|Hk].
    + rewrite lookup_alter_eq, lookup_insert_eq, Hl. reflexivity.
    + rewrite lookup_alter_ne, lookup_insert_ne by exact Hk. reflexivity.
  - apply map_eq. intros k. destruct (decide (key = k)) as [<-|Hk].
    + rewrite lookup_alter_eq, !lookup_insert_eq. reflexivity.
    + rewrite lookup_alter_ne, !lookup_insert_ne by exact Hk. reflexivity.
Qed.

Lemma insert_snoc_differs (key : string) (p : Pattern.t)
    (m : gmap string (list Pattern.t)) :
  <[key := default [] (m !! key) ++ [p]]> m ≠ m.
Proof.
  intros Heq. apply (f_equal (fun m' => length (default [] (m' !! key)))) in Heq.
  rewrite lookup_insert_eq in Heq. cbn in Heq. rewrite length_app in Heq.
  cbn in Heq. lia.
Qed.

End Combinations.

Section FeedbackStores.

Import LearningSystem LearningService.

Variables (user : User.t) (s : Z) (c t1 t2 : string).
Variables (ls : LearningSystem.t) (r : Routine.t).

Let out := process_feedback user s c t1 t2 (mkWorld ls r).
Let key := pattern_key (User.perfil user).

Lemma combination_count_ext ls1 ls2 g x :
  combinaciones_ejercicios ls1 = combinaciones_ejercicios ls2 →
  combination_count ls1 g x = combination_count ls2 g x.
Proof. unfold combination_count. intros ->. reflexivity. Qed.

Lemma process_feedback_routine :
  1 <= s <= 5 →
  routine out.2 =
    Routine.mk (Routine.perfil r) (Routine.rutina_semanal r)
      (Routine.estructura r) (Routine.metadatos r) (Routine.routine_id r)
      (Routine.fecha_generacion r) (Some s) (Some c).
Proof.
  intros Hin. subst out. rewrite process_feedback_valid by exact Hin.
  reflexivity.
Qed.

Lemma process_feedback_successful :
  1 <= s <= 5 → 4 <= s →
  patrones_exitosos (learning_system out.2) =
    <[key := default [] (patrones_exitosos ls !! key) ++
             [{| Pattern.rutina := Routine.to_dict (routine out.2);
                 Pattern.satisfaccion := s;
                 Pattern.fecha := t2 |}]]>
      (patrones_exitosos ls) ∧
  ∀ g x,
    combination_count (learning_system out.2) g x =
      combination_count ls g x + strength_occurrences r g x.
Proof.
  intros Hin Hs. rewrite process_feedback_routine by exact Hin.
  subst out. rewrite process_feedback_valid by exact Hin.
  cbn [snd learning_system].
  assert (E : (4 <=? s) = true) by (apply Z.leb_le, Hs). rewrite !E.
  split.
  - rewrite adjust_exploration_factor_patrones.
    rewrite (update_exercise_combinations_frame patrones_exitosos)
      by apply increment_exercise_combination_patrones.
    unfold _update_successful_patterns.
    rewrite add_successful_pattern_patrones, add_user_experience_patrones.
    reflexivity.
  - intros g x.
    erewrite combination_count_ext
      by apply adjust_exploration_factor_combinaciones.
    rewrite update_exercise_combinations_count.
    erewrite combination_count_ext
      by (rewrite update_successful_patterns_combinaciones;
          apply add_user_experience_combinaciones).
    reflexivity.
Qed.

Lemma process_feedback_unsuccessful :
  s <= 3 →
  patrones_exitosos (learning_system out.2) = patrones_exitosos ls ∧
  combinaciones_ejercicios (learning_system out.2) =
    combinaciones_ejercicios ls.
Proof.
  intros Hs. subst out. destruct (decide (1 <= s <= 5)) as [Hin|Hout].
  - rewrite process_feedback_valid by exact Hin. cbn [snd learning_system].
    assert (E : (4 <=? s) = false) by (apply Z.leb_gt; lia). rewrite !E.
    rewrite adjust_exploration_factor_patrones,
      adjust_exploration_factor_combinaciones,
      add_user_experience_patrones, add_user_experience_combinaciones.
    split; reflexivity.
  - rewrite process_feedback_invalid by exact Hout. split; reflexivity.
Qed.

End FeedbackStores.

(** C4: for a satisfaction the operation accepts (1 to 5),
    [process_feedback] appends one entry -- the routine snapshot, the
    satisfaction and the time stamp -- to [patrones_exitosos] under the
    user's ["level_goal"] key and raises the count of every non-cardio
    exercise of the routine by its number of occurrences exactly when the
    satisfaction is at least 4; for a satisfaction of at most 3 both
    stores are left as they were. *)
Theorem C4_patterns_updated_iff_successful
    (user : User.t) (s : Z) (c t1 t2 : string)
    (ls : LearningSystem.t) (r : Routine.t) :
  1 <= s <= 5 →
  let out :=
    LearningService.process_feedback user s c t1 t2
      (LearningService.mkWorld ls r) in
  let ls' := LearningService.learning_system out.2 in
  let key := LearningService.pattern_key (User.perfil user) in
  let pattern :=
    {| Pattern.rutina := Routine.to_dict (LearningService.routine out.2);
       Pattern.satisfaccion := s;
       Pattern.fecha := t2 |} in
  (4 <= s →
     LearningSystem.patrones_exitosos ls' =
       <[key := default [] (LearningSystem.patrones_exitosos ls !! key)
                ++ [pattern]]> (LearningSystem.patrones_exitosos ls) ∧
     ∀ g x,
       combination_count ls' g x =
         combination_count ls g x + strength_occurrences r g x) ∧
  (s <= 3 →
     LearningSystem.patrones_exitosos ls' = LearningSystem.patrones_exitosos ls ∧
     LearningSystem.combinaciones_ejercicios ls' =
       LearningSystem.combinaciones_ejercicios ls) ∧
  (LearningSystem.patrones_exitosos ls' ≠ LearningSystem.patrones_exitosos ls
     ↔ 4 <= s).
Proof.
  intros Hin out ls' key pattern. subst ls' pattern key out.
  split; [|split].
  - intros Hs. apply process_feedback_successful; assumption.
  - intros Hs. apply process_feedback_unsuccessful; assumption.
  - split.
    + intros Hne. destruct (decide (4 <= s)) as [Hs|Hs]; [exact Hs|].
      exfalso. apply Hne.
      apply process_feedback_unsuccessful. lia.
    + intros Hs.
      rewrite (proj1 (process_feedback_successful user s c t1 t2 ls r Hin Hs)).
      apply insert_snoc_differs.
Qed.

Lemma C4_patterns_updated_iff_successful_witness :
  let ls' :=
    LearningService.learning_system
      (LearningService.process_feedback sample_user 5 "perfecta"
         "2025-01-02T10:00:00" "2025-01-02T10:00:01" sample_world).2 in
  length <$> (LearningSystem.patrones_exitosos ls' !! "intermedio_ganar_masa")
    = Some 1%nat ∧
  combination_count ls' "pecho" "Press banca" = 2 ∧
  combination_count ls' "cardio" "Cinta" = 0.
Proof.
  assert (Hin : 1 <= 5 <= 5) by lia.
  pose proof (C4_patterns_updated_iff_successful sample_user 5 "perfecta"
                "2025-01-02T10:00:00" "2025-01-02T10:00:01"
                LearningSystem.init sample_learned_routine Hin) as (H & _ & _).
  destruct H as [Hp Hc]; [lia|].
  intros ls'. subst ls'. unfold sample_world. split; [|split].
  - rewrite Hp. rewrite lookup_insert_eq. reflexivity.
  - rewrite Hc. reflexivity.
  - rewrite Hc. reflexivity.
Defined.

(** * The exploration adjustment and the generation mode *)

Section ExploitMode.

Import LearningSystem LearningService.

(** The mode the exploit generator records, also after the optimal
    parameters have been applied to the routine. *)
Lemma learned_metadatos_mode n q :
  AIService.learned_metadatos n q !! "modo_generacion" = Some (VStr "aprendizaje").
Proof. reflexivity. Qed.

Lemma optimized_metadatos_mode m q :
  AIService.optimized_metadatos m q !! "modo_generacion" = m !! "modo_generacion".
Proof.
  unfold AIService.optimized_metadatos.
  rewrite !lookup_insert_ne by discriminate. reflexivity.
Qed.

(** On the branch the adjuster does take, a good rating lowers the
    factor by 0.01 down to the floor. *)
Lemma adjust_explotacion_decreases s r ls :
  4 <= s →
  Routine.metadatos r !! "modo_generacion" = Some (VStr "explotacion") →
  (factor_exploracion (_adjust_exploration_factor s r ls).2 ==
     Qmax 0.1 (factor_exploracion ls - 0.01))%Q.
Proof.
  intros Hs Hm. unfold _adjust_exploration_factor, generation_mode, py_get.
  rewrite Hm. cbn [default].
  replace (4 <=? s) with true by (symmetry; apply Z.leb_le, Hs).
  cbn [andb py_eqb py_num]. cbn. case_ifs; reflexivity.
Qed.

(** A routine tagged ['aprendizaje'] never takes that branch: with a
    rating of 3 or more the adjuster changes nothing. *)
Lemma adjust_aprendizaje_unchanged s r ls :
  3 <= s →
  Routine.metadatos r !! "modo_generacion" = Some (VStr "aprendizaje") →
  _adjust_exploration_factor s r ls = (false, ls).
Proof.
  intros Hs Hm. unfold _adjust_exploration_factor, generation_mode, py_get.
  rewrite Hm. cbn [default].
  replace (py_eqb (VStr "aprendizaje") (VStr "explotacion")) with false
    by reflexivity.
  rewrite andb_false_r.
  replace (s <=? 2) with false by (symmetry; apply Z.leb_gt; lia).
  reflexivity.
Qed.

End ExploitMode.

(** C1, evaluated on a routine of the exploit generator: its metadata
    say ['aprendizaje'], the adjuster looks for ['explotacion'], and a
    feedback of 5 on a system whose factor is 0.2 leaves the factor at 0.2
    instead of lowering it to 0.19. *)
Theorem C1_learned_routine_feedback_keeps_factor :
  let out :=
    LearningService.process_feedback sample_user 5 "perfecta"
      "2025-01-02T10:00:00" "2025-01-02T10:00:01" sample_world in
  LearningService.generation_mode sample_learned_routine = VStr "aprendizaje" ∧
  LearningSystem.factor_exploracion
    (LearningService.learning_system sample_world) = 0.2%Q ∧
  out.1 = inr {| LearningService.patrones_actualizados := true;
                 LearningService.combinaciones_actualizadas := true;
                 LearningService.exploracion_ajustada := false;
                 LearningService.generacion_evolucionada := false |} ∧
  LearningSystem.factor_exploracion (LearningService.learning_system out.2)
    = 0.2%Q ∧
  ¬ (LearningSystem.factor_exploracion (LearningService.learning_system out.2)
       == 0.2 - 0.01)%Q.
Proof.
  cbv zeta. repeat split; try (vm_compute; reflexivity).
  vm_compute. discriminate.
Qed.

(** * Profile similarity *)

Section Similarity.

Import Calculations.



Lemma py_eqb_refl (a : pyval) : py_eqb a a = true.
Proof.
  destruct a; cbn; try reflexivity;
    try (apply Qeq_bool_iff; reflexivity).
  apply String.eqb_refl.
Qed.


Lemma py_abs_sub_diag (a : pyval) :
  is_Some (py_num a) → py_abs_sub a a = Some 0%R.
Proof.
  intros [q Hq]. unfold py_abs_sub, py_real. rewrite Hq. cbn.
  f_equal. rewrite Rminus_diag. apply Rabs_R0.
Qed.



Lemma py_get_numeric (d : dict) (k : string) (z : Z) :
  numeric_entry d k → is_Some (py_num (py_get d k (VInt z))).
Proof.
  intros H. unfold py_get. destruct (d !! k) as [v|] eqn:E; cbn.
  - apply H. exact E.
  - eauto.
Qed.

Lemma calculate_profile_similarity_diag (d : dict) :
  numeric_profile d → calculate_profile_similarity d d = 1%R.
Proof.
  intros (He & Hi & Hn & Hd).
  unfold calculate_profile_similarity, similarity_try.
  rewrite py_eqb_refl.
  rewrite !py_abs_sub_diag by (apply py_get_numeric; assumption).
  cbn [mbind option_bind].
  replace (0 / NORMALIZATION_FACTORS.edad)%R with 0%R
    by (unfold NORMALIZATION_FACTORS.edad; lra).
  replace (0 / NORMALIZATION_FACTORS.imc)%R with 0%R
    by (unfold NORMALIZATION_FACTORS.imc; lra).
  replace (0 / NORMALIZATION_FACTORS.nivel)%R with 0%R
    by (unfold NORMALIZATION_FACTORS.nivel; lra).
  replace (0 / NORMALIZATION_FACTORS.dias)%R with 0%R
    by (unfold NORMALIZATION_FACTORS.dias; lra).
  replace (0 ^ 2 + 0 ^ 2 + 0 ^ 2 + 0 ^ 2 + 0 ^ 2)%R with 0%R by lra.
  rewrite sqrt_0. lra.
Qed.

Lemma to_dict_edad (p : Profile.t) :
  Profile.to_dict p !! "edad" = Some (VInt (Profile.edad p)).
Proof. reflexivity. Qed.

Lemma to_dict_imc (p : Profile.t) :
  Profile.to_dict p !! "imc" = Some (VFloat (Qround2 (Profile.imc p))).
Proof. reflexivity. Qed.

Lemma to_dict_nivel_num (p : Profile.t) :
  Profile.to_dict p !! "nivel_num" = Some (VInt (Profile.nivel_num p)).
Proof. reflexivity. Qed.

Lemma to_dict_dias (p : Profile.t) :
  Profile.to_dict p !! "dias" = Some (VInt (Profile.dias p)).
Proof. reflexivity. Qed.

Lemma to_dict_objetivo_str (p : Profile.t) :
  Profile.to_dict p !! "objetivo_str" = Some (VStr (Profile.objetivo_str p)).
Proof. reflexivity. Qed.

Lemma to_dict_numeric (p : Profile.t) : numeric_profile (Profile.to_dict p).
Proof.
  split; [|split; [|split]]; intros v Hv.
  - rewrite to_dict_edad in Hv. injection Hv as <-. cbn. eauto.
  - rewrite to_dict_imc in Hv. injection Hv as <-. cbn. eauto.
  - rewrite to_dict_nivel_num in Hv. injection Hv as <-. cbn. eauto.
  - rewrite to_dict_dias in Hv. injection Hv as <-. cbn. eauto.
Qed.



End Similarity.



Section NaNProfile.

Import PrimFloat.

(** The claim of C7 as the spec states it, for all profile dictionaries,
    fails on floats: a weight that is NaN passes both one-sided tests of
    [validate_weight], the body-mass index computed from it is NaN, and
    on the dictionary of such a profile the similarity with itself is NaN,
    which is neither [== 1.0] nor [==] to itself. *)
Lemma C7_similarity_of_nan_profile :
  let d : Binary64.fdict :=
    <["edad" := Binary64.Float 25%float]>
    (<["imc" := Binary64.Float PrimFloat.nan]>
    (<["nivel_num" := Binary64.Float 2%float]>
    (<["objetivo_str" := Binary64.Str "ganar_masa"]>
    (<["dias" := Binary64.Float 4%float]> ∅)))) in
  Binary64.validate_weight PrimFloat.nan = (true, "") ∧
  (∃ imc, Binary64.calculate_imc PrimFloat.nan 1.75%float = Some imc ∧
          PrimFloat.is_nan imc = true) ∧
  PrimFloat.is_nan (Binary64.calculate_profile_similarity d d) = true ∧
  PrimFloat.eqb (Binary64.calculate_profile_similarity d d) 1%float = false ∧
  PrimFloat.eqb (Binary64.calculate_profile_similarity d d)
                (Binary64.calculate_profile_similarity d d) = false.
Proof.
  intros d. split; [reflexivity|]. split.
  - eexists. split; vm_compute; reflexivity.
  - repeat split; vm_compute; reflexivity.
Qed.

End NaNProfile.



Section Overflow.

Import PrimFloat.

(** The claim of C10 as the spec states it, for arbitrary dictionaries,
    fails on floats: with an age of 1.5 * 2^518 against 30 and a
    body-mass index of 1.1875 * 2^516 against 22, each square is a finite
    float but their sum is infinite, so the distance is infinite and the
    similarity returned is exactly 0.0. *)
Lemma C10_similarity_zero_on_overflow :
  let a : Binary64.fdict :=
    <["edad" := Binary64.Float 0x1.8p+518%float]>
    (<["imc" := Binary64.Float 0x1.3p+516%float]> ∅) in
  let b : Binary64.fdict :=
    <["edad" := Binary64.Float 30%float]>
    (<["imc" := Binary64.Float 22%float]> ∅) in
  Binary64.calculate_profile_similarity a b = 0%float ∧
  PrimFloat.ltb 0%float (Binary64.calculate_profile_similarity a b) = false.
Proof. intros a b. split; vm_compute; reflexivity. Qed.

End Overflow.

(** * The similar-user search *)

Section SimilarUsers.

Import Calculations InferenceService.

Lemma insert_desc_perm x l : insert_desc x l ≡ₚ x :: l.
Proof.
  induction l as [|y l IH]; cbn; [reflexivity|].
  destruct (Rle_dec _ _); [reflexivity|].
  rewrite IH. apply Permutation_swap.
Qed.

Lemma sort_desc_perm l : sort_desc l ≡ₚ l.
Proof.
  induction l as [|x l IH]; cbn; [reflexivity|].
  rewrite insert_desc_perm, IH. reflexivity.
Qed.

(** Every user the search returns is an entry of the history with a
    non-empty profile whose similarity reaches the threshold. *)
Lemma find_similar_users_elem p threshold ls u :
  u ∈ _find_similar_users p threshold ls →
  ∃ d, compared ls (usuario u) d ∧
       similitud u = calculate_profile_similarity (Profile.to_dict p) d ∧
       (similitud u >= threshold)%R.
Proof.
  unfold _find_similar_users. intros Hu.
  apply (subseteq_take 10) in Hu. rewrite sort_desc_perm in Hu.
  apply list_elem_of_omap in Hu as (e & He & Hf).
  unfold similar_entry in Hf.
  destruct (Experience.perfil e) as [d|] eqn:Hd; [|discriminate].
  destruct (decide (d = ∅)) as [|Hne]; [discriminate|].
  destruct (Rge_dec _ _) as [Hge|]; [|discriminate].
  injection Hf as <-. cbn. exists d. repeat split; assumption.
Qed.

Lemma find_similar_users_nil p threshold ls :
  (∀ e d, compared ls e d →
     (calculate_profile_similarity (Profile.to_dict p) d < threshold)%R) →
  _find_similar_users p threshold ls = [].
Proof.
  intros H. destruct (_find_similar_users p threshold ls) as [|u l] eqn:E;
    [reflexivity|].
  assert (Hu : u ∈ _find_similar_users p threshold ls)
    by (rewrite E; left).
  apply find_similar_users_elem in Hu as (d & Hc & Hs & Hge).
  specialize (H _ _ Hc). lra.
Qed.

(** Profiles of different goals are at distance at least 1. *)
Lemma similarity_goal_mismatch (a b : dict) :
  py_eqb (py_get a "objetivo_str" (VStr "")) (py_get b "objetivo_str" (VStr ""))
    = false →
  (calculate_profile_similarity a b <= 1 / 2)%R.
Proof.
  intros Hobj. unfold calculate_profile_similarity, similarity_try.
  rewrite Hobj.
  destruct (py_abs_sub (py_get a "edad" _) _) as [e|];
    cbn [mbind option_bind]; [|lra].
  destruct (py_abs_sub (py_get a "imc" _) _) as [i|];
    cbn [mbind option_bind]; [|lra].
  destruct (py_abs_sub (py_get a "nivel_num" _) _) as [n|];
    cbn [mbind option_bind]; [|lra].
  destruct (py_abs_sub (py_get a "dias" _) _) as [d|];
    cbn [mbind option_bind]; [|lra].
  match goal with |- context [sqrt ?t] => set (sum := t) end.
  assert (Hsum : (1 <= sum)%R).
  { subst sum.
    pose proof (pow2_ge_0 (e / NORMALIZATION_FACTORS.edad)).
    pose proof (pow2_ge_0 (i / NORMALIZATION_FACTORS.imc)).
    pose proof (pow2_ge_0 (n / NORMALIZATION_FACTORS.nivel)).
    pose proof (pow2_ge_0 (d / NORMALIZATION_FACTORS.dias)).
    lra. }
  assert (Hd : (1 <= sqrt sum)%R).
  { rewrite <- sqrt_1 at 1. apply sqrt_le_1_alt, Hsum. }
  assert (Hinv : ((1 + sqrt sum) * (1 / (1 + sqrt sum)) = 1)%R)
    by (field; lra).
  assert (Hpos : (0 < 1 / (1 + sqrt sum))%R)
    by (apply Rdiv_lt_0_compat; lra).
  nra.
Qed.

End SimilarUsers.

(** C5: when no compared entry of the history reaches similarity 0.7 with
    the profile -- in particular when the history is empty --
    [predict_satisfaction] returns the baseline: predicted satisfaction
    3.5, confidence 0.3, recommendation true, no similar user, method
    ['baseline']. *)
Theorem C5_baseline_prediction_without_similar_users
    (p : Profile.t) (routine : option Routine.t) (ls : LearningSystem.t) :
  (∀ e d, compared ls e d →
     (Calculations.calculate_profile_similarity (Profile.to_dict p) d < 0.7)%R) →
  InferenceService.predict_satisfaction p routine ls =
    {| InferenceService.satisfaccion_predicha := 3.5%R;
       InferenceService.confianza := 0.3%R;
       InferenceService.factores :=
         {| promedio_similares := None; cantidad_similares := None;
            similitud_promedio := None; ajuste_complejidad := None;
            patron_existe := None; cantidad_patrones := None;
            sin_datos := Some true |};
       InferenceService.recomendacion := true;
       InferenceService.usuarios_similares := 0;
       InferenceService.metodo := "baseline" |}.
Proof.
  intros H. unfold InferenceService.predict_satisfaction.
  rewrite (find_similar_users_nil p 0.7 ls H). reflexivity.
Qed.

Lemma sample_foreign_compared e d :
  compared sample_foreign_system e d →
  d = Profile.to_dict sample_other_profile.
Proof.
  intros (He & Hd & _). cbn in He. apply list_elem_of_singleton in He as ->.
  cbn in Hd. congruence.
Qed.

Lemma sample_other_similarity :
  (Calculations.calculate_profile_similarity
     (Profile.to_dict sample_profile) (Profile.to_dict sample_other_profile)
   <= 1 / 2)%R.
Proof. apply similarity_goal_mismatch. reflexivity. Qed.

Lemma C5_baseline_prediction_without_similar_users_witness :
  InferenceService.metodo
    (InferenceService.predict_satisfaction sample_profile
       (Some sample_learned_routine) sample_foreign_system) = "baseline" ∧
  InferenceService.predict_satisfaction sample_profile None LearningSystem.init
    = InferenceService._baseline_prediction.
Proof.
  split.
  - rewrite (C5_baseline_prediction_without_similar_users sample_profile
               (Some sample_learned_routine) sample_foreign_system);
      [reflexivity|].
    intros e d Hc. rewrite (sample_foreign_compared e d Hc).
    pose proof sample_other_similarity. lra.
  - apply (C5_baseline_prediction_without_similar_users sample_profile None
             LearningSystem.init).
    intros e d (He & _). cbn in He. inversion He.
Defined.

(** * Optimal parameters and anomalies *)

Section Heuristics.

Import Calculations InferenceService.

Lemma successful_users_nil p ls :
  (∀ e d, compared ls e d →
     4 <= default 0 (Experience.satisfaccion e) →
     (calculate_profile_similarity (Profile.to_dict p) d < 0.75)%R) →
  filter (fun u => 4 <= default 0 (Experience.satisfaccion (usuario u)))
         (_find_similar_users p 0.75 ls) = [].
Proof.
  intros H.
  destruct (filter _ (_find_similar_users p 0.75 ls)) as [|u l] eqn:E;
    [reflexivity|].
  assert (Hu : u ∈ filter
                 (fun u => 4 <= default 0 (Experience.satisfaccion (usuario u)))
                 (_find_similar_users p 0.75 ls))
    by (rewrite E; left).
  apply list_elem_of_filter in Hu as [Hsat Hu].
  apply find_similar_users_elem in Hu as (d & Hc & Hs & Hge).
  specialize (H _ _ Hc Hsat). lra.
Qed.

Lemma parameters_by_heuristics_fixed p :
  op_confianza (_parameters_by_heuristics p) = 0.5%Q ∧
  basado_en (_parameters_by_heuristics p) = 0 ∧
  op_metodo (_parameters_by_heuristics p) = "heuristica".
Proof. repeat split. Qed.

Lemma parameters_by_heuristics_intermedio_ganar_masa p :
  Profile.nivel_str p = "intermedio" →
  Profile.objetivo_str p = "ganar_masa" →
  _parameters_by_heuristics p =
    {| series := 4; repeticiones_min := 8; repeticiones_max := 12;
       descanso := "60-90s"; op_confianza := 0.5%Q; basado_en := 0;
       op_metodo := "heuristica" |}.
Proof.
  intros Hn Ho. unfold _parameters_by_heuristics. rewrite Hn, Ho.
  reflexivity.
Qed.

(** The heuristic values for every level and every goal: the entries of
    [SERIES_BY_LEVEL] and [PARAMS_BY_GOAL], with 4 series for any other
    level and the values of ['ganar_masa'] for any other goal. *)
Lemma parameters_by_heuristics_table p :
  series (_parameters_by_heuristics p) =
    (if String.eqb (Profile.nivel_str p) "principiante" then 3
     else if String.eqb (Profile.nivel_str p) "intermedio" then 4
     else if String.eqb (Profile.nivel_str p) "avanzado" then 5
     else 4) ∧
  (repeticiones_min (_parameters_by_heuristics p),
   repeticiones_max (_parameters_by_heuristics p),
   descanso (_parameters_by_heuristics p)) =
    (if String.eqb (Profile.objetivo_str p) "perder_peso"
     then (12, 20, "30-60s")
     else if String.eqb (Profile.objetivo_str p) "ganar_masa"
     then (8, 12, "60-90s")
     else if String.eqb (Profile.objetivo_str p) "resistencia"
     then (15, 25, "20-45s")
     else if String.eqb (Profile.objetivo_str p) "fuerza"
     then (4, 8, "120-180s")
     else (8, 12, "60-90s")).
Proof.
  unfold _parameters_by_heuristics, RoutineConfig.SERIES_BY_LEVEL,
    RoutineConfig.PARAMS_BY_GOAL.
  cbn [series repeticiones_min repeticiones_max descanso]. split.
  - destruct (String.eqb (Profile.nivel_str p) "principiante");
      [reflexivity|].
    destruct (String.eqb (Profile.nivel_str p) "intermedio"); [reflexivity|].
    destruct (String.eqb (Profile.nivel_str p) "avanzado"); reflexivity.
  - destruct (String.eqb (Profile.objetivo_str p) "perder_peso");
      [reflexivity|].
    destruct (String.eqb (Profile.objetivo_str p) "ganar_masa");
      [reflexivity|].
    destruct (String.eqb (Profile.objetivo_str p) "resistencia");
      [reflexivity|].
    destruct (String.eqb (Profile.objetivo_str p) "fuerza"); reflexivity.
Qed.

End Heuristics.

(** C6: when no compared entry of the history is both successful
    (satisfaction at least 4) and similar to the profile at threshold
    0.75, [infer_optimal_parameters] returns the static heuristic values
    with confidence exactly 0.5, based on 0 users, method ['heuristica'].
    The values are those of the table keyed by level and goal: 3, 4 or 5
    series for a beginner, intermediate or advanced profile (4 for any
    other level); 12 to 20 repetitions and a rest of "30-60s" to lose
    weight, 8 to 12 and "60-90s" to gain mass, 15 to 25 and "20-45s" for
    endurance, 4 to 8 and "120-180s" for strength (those of gaining mass
    for any other goal).  For level [intermedio] and goal [ganar_masa]
    that is 4 series, 8 to 12 repetitions and a rest of "60-90s". *)
Theorem C6_heuristic_parameters_without_successful_neighbours
    (p : Profile.t) (ls : LearningSystem.t) :
  (∀ e d, compared ls e d →
     4 <= default 0 (Experience.satisfaccion e) →
     (Calculations.calculate_profile_similarity (Profile.to_dict p) d < 0.75)%R) →
  let params := InferenceService.infer_optimal_parameters p ls in
  InferenceService.op_confianza params = 0.5%Q ∧
  InferenceService.basado_en params = 0 ∧
  InferenceService.op_metodo params = "heuristica" ∧
  InferenceService.series params =
    (if String.eqb (Profile.nivel_str p) "principiante" then 3
     else if String.eqb (Profile.nivel_str p) "intermedio" then 4
     else if String.eqb (Profile.nivel_str p) "avanzado" then 5
     else 4) ∧
  (InferenceService.repeticiones_min params,
   InferenceService.repeticiones_max params,
   InferenceService.descanso params) =
    (if String.eqb (Profile.objetivo_str p) "perder_peso"
     then (12, 20, "30-60s")
     else if String.eqb (Profile.objetivo_str p) "ganar_masa"
     then (8, 12, "60-90s")
     else if String.eqb (Profile.objetivo_str p) "resistencia"
     then (15, 25, "20-45s")
     else if String.eqb (Profile.objetivo_str p) "fuerza"
     then (4, 8, "120-180s")
     else (8, 12, "60-90s")) ∧
  (Profile.nivel_str p = "intermedio" →
   Profile.objetivo_str p = "ganar_masa" →
   params =
     {| InferenceService.series := 4;
        InferenceService.repeticiones_min := 8;
        InferenceService.repeticiones_max := 12;
        InferenceService.descanso := "60-90s";
        InferenceService.op_confianza := 0.5%Q;
        InferenceService.basado_en := 0;
        InferenceService.op_metodo := "heuristica" |}).
Proof.
  intros H params.
  assert (E : params = InferenceService._parameters_by_heuristics p).
  { subst params. unfold InferenceService.infer_optimal_parameters.
    rewrite (successful_users_nil p ls H). reflexivity. }
  rewrite E.
  pose proof (parameters_by_heuristics_fixed p) as (Hc & Hb & Hm).
  pose proof (parameters_by_heuristics_table p) as (Hs & Ht).
  split; [exact Hc|]. split; [exact Hb|]. split; [exact Hm|].
  split; [exact Hs|]. split; [exact Ht|].
  apply parameters_by_heuristics_intermedio_ganar_masa.
Qed.

Lemma sample_mixed_compared e d :
  compared sample_mixed_system e d →
  4 <= default 0 (Experience.satisfaccion e) →
  d = Profile.to_dict sample_other_profile.
Proof.
  intros (He & Hd & _) Hsat. cbn in He.
  apply elem_of_cons in He as [->|He].
  - cbn in Hsat. lia.
  - apply list_elem_of_singleton in He as ->. cbn in Hd. congruence.
Qed.

(** The twin of the sample user is similar but rated 2, the satisfied
    user has another goal: the heuristic values are returned. *)
Lemma C6_heuristic_parameters_without_successful_neighbours_witness :
  InferenceService.infer_optimal_parameters sample_profile sample_mixed_system =
    {| InferenceService.series := 4;
       InferenceService.repeticiones_min := 8;
       InferenceService.repeticiones_max := 12;
       InferenceService.descanso := "60-90s";
       InferenceService.op_confianza := 0.5%Q;
       InferenceService.basado_en := 0;
       InferenceService.op_metodo := "heuristica" |}.
Proof.
  refine (proj2 (proj2 (proj2 (proj2 (proj2
            (C6_heuristic_parameters_without_successful_neighbours
               sample_profile sample_mixed_system _))))) eq_refl eq_refl).
  intros e d Hc Hsat. rewrite (sample_mixed_compared e d Hc Hsat).
  pose proof sample_other_similarity. lra.
Defined.

(** C8: on a feedback history of fewer than three entries (the empty one
    included) [detect_anomalies] returns at once: no anomaly, state
    ['normal'], and no average computed. *)
Theorem C8_no_anomalies_on_short_history
    (p : Profile.t) (feedback_history : list Experience.t) :
  (length feedback_history < 3)%nat →
  InferenceService.detect_anomalies p feedback_history =
    {| InferenceService.anomalias := [];
       InferenceService.estado := "normal";
       InferenceService.satisfaccion_promedio := None |}.
Proof.
  intros Hlen. unfold InferenceService.detect_anomalies.
  replace (length feedback_history <? 3)%nat with true
    by (symmetry; apply Nat.ltb_lt, Hlen).
  reflexivity.
Qed.

(** Two entries that would make an abrupt drop (4 then 1) if they were
    checked. *)
Lemma C8_no_anomalies_on_short_history_witness :
  InferenceService.anomalias
    (InferenceService.detect_anomalies sample_profile
       [experience_of 4; experience_of 1]) = [] ∧
  InferenceService.detect_anomalies sample_profile [] =
    {| InferenceService.anomalias := [];
       InferenceService.estado := "normal";
       InferenceService.satisfaccion_promedio := None |}.
Proof.
  split.
  - rewrite (C8_no_anomalies_on_short_history sample_profile
               [experience_of 4; experience_of 1]); [reflexivity|].
    cbn. lia.
  - apply (C8_no_anomalies_on_short_history sample_profile []). cbn. lia.
Defined.

(** * Scenarios of the specification *)

(** A history whose tail is 5, 4, 3 shows a declining trend; 3, 4, 5 does
    not. *)
Example declining_trend_fires :
  map InferenceService.tipo
    (InferenceService.anomalias
       (InferenceService.detect_anomalies sample_profile
          [experience_of 5; experience_of 4; experience_of 3]))
  = ["tendencia_negativa"].
Proof.
  unfold InferenceService.detect_anomalies.
  cbn [length Nat.ltb Nat.leb map].
  change (5 <=? 3)%nat with false. rewrite !andb_false_r. reflexivity.
Qed.

Example rising_trend_is_normal :
  InferenceService.estado
    (InferenceService.detect_anomalies sample_profile
       [experience_of 3; experience_of 4; experience_of 5])
  = "normal".
Proof.
  unfold InferenceService.detect_anomalies.
  cbn [length Nat.ltb Nat.leb map].
  change (5 <=? 3)%nat with false. rewrite !andb_false_r. reflexivity.
Qed.

(** An abrupt drop: 4 then 2. *)
Example abrupt_drop_fires :
  map InferenceService.tipo
    (InferenceService.anomalias
       (InferenceService.detect_anomalies sample_profile
          [experience_of 3; experience_of 4; experience_of 2]))
  = ["caida_abrupta"].
Proof.
  unfold InferenceService.detect_anomalies.
  cbn [length Nat.ltb Nat.leb map].
  change (5 <=? 3)%nat with false. rewrite !andb_false_r. reflexivity.
Qed.

(** Twenty-five good ratings on a fresh system: two generations, and the
    factor lowered twice. *)
Example two_generations_after_25_experiences :
  let ls := add_user_experiences (repeat (experience_of 5) 25) LearningSystem.init in
  LearningSystem.generacion ls = 2 ∧
  (LearningSystem.factor_exploracion ls == 0.18)%Q.
Proof. split; vm_compute; reflexivity. Qed.

(** The same feedback on the same routine, had the generator tagged it
    ['explotacion']: the factor goes from 0.2 to 0.19. *)
Example explotacion_tag_lowers_factor :
  let r :=
    Routine.mk sample_profile [("Día 1", sample_exercises)] "fullbody"
      (<["modo_generacion" := VStr "explotacion"]> ∅)
      (Some "RUT_20250101_100000") "2025-01-01T10:00:00" None None in
  let out :=
    LearningService.process_feedback sample_user 5 "perfecta"
      "2025-01-02T10:00:00" "2025-01-02T10:00:01"
      (LearningService.mkWorld LearningSystem.init r) in
  (LearningSystem.factor_exploracion (LearningService.learning_system out.2)
     == 0.19)%Q.
Proof. vm_compute. reflexivity. Qed.

(** The struggling system: the tenth poor rating runs the evolution
    (0.39 to 0.4) and then the adjustment (capped at 0.4). *)
Example struggling_system_hits_ceiling :
  let out :=
    LearningService.process_feedback sample_user 1 "muy dura"
      "2025-01-02T10:00:00" "2025-01-02T10:00:01"
      (LearningService.mkWorld sample_struggling_system sample_learned_routine) in
  let ls := LearningService.learning_system out.2 in
  LearningSystem.generacion ls = 1 ∧
  length (LearningSystem.historico_usuarios ls) = 10%nat ∧
  (LearningSystem.factor_exploracion ls == 0.4)%Q.
Proof. repeat split; vm_compute; reflexivity. Qed.

(** The profile of the end-to-end scenario passes validation and gets the
    body-mass index 22.86. *)
Example sample_profile_valid :
  Profile.new 25 70 1.75 "intermedio" "ganar_masa" 4 "2025-01-01T10:00:00"
    = inr sample_profile ∧
  Profile.to_dict sample_profile !! "imc" = Some (VFloat 22.86).
Proof. split; reflexivity. Qed.

(** * Further properties of the learning update *)

Section FeedbackCall.

Import LearningSystem LearningService.

Variables (user : User.t) (s : Z) (c t1 t2 : string).
Variables (ls : LearningSystem.t) (r : Routine.t).

Let out := process_feedback user s c t1 t2 (mkWorld ls r).

Lemma evolve_generation_rutinas l :
  rutinas_generadas (evolve_generation l) = rutinas_generadas l.
Proof. unfold evolve_generation. case_ifs; reflexivity. Qed.

Lemma add_user_experience_rutinas e l :
  rutinas_generadas (add_user_experience e l) = rutinas_generadas l.
Proof.
  unfold add_user_experience. case_ifs;
    [rewrite evolve_generation_rutinas|]; reflexivity.
Qed.

Lemma adjust_exploration_factor_historico s' r' l :
  historico_usuarios (_adjust_exploration_factor s' r' l).2 = historico_usuarios l.
Proof. unfold _adjust_exploration_factor. case_ifs; reflexivity. Qed.

Lemma adjust_exploration_factor_generacion s' r' l :
  generacion (_adjust_exploration_factor s' r' l).2 = generacion l.
Proof. unfold _adjust_exploration_factor. case_ifs; reflexivity. Qed.

Lemma update_successful_patterns_historico p r' s' t l :
  historico_usuarios (_update_successful_patterns p r' s' t l) =
    historico_usuarios l.
Proof.
  unfold _update_successful_patterns, add_successful_pattern.
  destruct (patrones_exitosos l !! pattern_key p); reflexivity.
Qed.

Lemma update_successful_patterns_generacion p r' s' t l :
  generacion (_update_successful_patterns p r' s' t l) = generacion l.
Proof.
  unfold _update_successful_patterns, add_successful_pattern.
  destruct (patrones_exitosos l !! pattern_key p); reflexivity.
Qed.

Lemma increment_exercise_combination_historico g x l :
  historico_usuarios (increment_exercise_combination g x l) =
    historico_usuarios l.
Proof.
  unfold increment_exercise_combination.
  destruct (combinaciones_ejercicios l !! g); reflexivity.
Qed.

Lemma increment_exercise_combination_generacion g x l :
  generacion (increment_exercise_combination g x l) = generacion l.
Proof.
  unfold increment_exercise_combination.
  destruct (combinaciones_ejercicios l !! g); reflexivity.
Qed.

(** The history and the generation after an accepted call are those
    [add_user_experience] leaves. *)
Lemma process_feedback_historico :
  1 <= s <= 5 →
  historico_usuarios (learning_system out.2) =
    historico_usuarios ls ++
    [{| Experience.perfil := Some (Profile.to_dict (User.perfil user));
        Experience.rutina_id := Routine.routine_id r;
        Experience.rutina_exitosa :=
          if 4 <=? s then Some (Routine.to_dict (routine out.2)) else None;
        Experience.satisfaccion := Some s;
        Experience.comentarios := c;
        Experience.fecha := t1 |}].
Proof.
  intros Hin. subst out. rewrite process_feedback_routine by exact Hin.
  rewrite process_feedback_valid by exact Hin.
  cbn [snd learning_system].
  rewrite adjust_exploration_factor_historico.
  destruct (4 <=? s).
  - rewrite (update_exercise_combinations_frame historico_usuarios)
      by apply increment_exercise_combination_historico.
    rewrite update_successful_patterns_historico.
    apply add_user_experience_historico.
  - apply add_user_experience_historico.
Qed.

Lemma process_feedback_generacion :
  1 <= s <= 5 →
  generacion (learning_system out.2) =
    generacion ls +
    (if Z.of_nat (S (length (historico_usuarios ls))) mod 10 =? 0
     then 1 else 0).
Proof.
  intros Hin. subst out. rewrite process_feedback_valid by exact Hin.
  cbn [snd learning_system].
  rewrite adjust_exploration_factor_generacion.
  destruct (4 <=? s).
  - rewrite (update_exercise_combinations_frame generacion)
      by apply increment_exercise_combination_generacion.
    rewrite update_successful_patterns_generacion.
    apply add_user_experience_generacion.
  - apply add_user_experience_generacion.
Qed.

End FeedbackCall.

(** X1: a feedback whose satisfaction is outside 1..5 is rejected as a
    whole: [process_feedback] raises the [ValueError] of [set_feedback]
    and neither the learning system nor the routine is changed. *)
Theorem X1_rejected_feedback_changes_nothing
    (user : User.t) (s : Z) (c t1 t2 : string) (w : LearningService.world) :
  ¬ (1 <= s <= 5) →
  LearningService.process_feedback user s c t1 t2 w =
    (inl (ValueError "La satisfacción debe estar entre 1 y 5"), w).
Proof.
  intros Hout. destruct w as [ls r]. apply process_feedback_invalid, Hout.
Qed.

Lemma X1_rejected_feedback_changes_nothing_witness :
  (LearningService.process_feedback sample_user 0 "sin nota"
     "2025-01-02T10:00:00" "2025-01-02T10:00:01" sample_world).2 = sample_world.
Proof.
  rewrite (X1_rejected_feedback_changes_nothing sample_user 0 "sin nota"
             "2025-01-02T10:00:00" "2025-01-02T10:00:01" sample_world);
    [reflexivity | lia].
Defined.

(** X2: the ['generacion_evolucionada'] flag of the result is never set:
    the call reads the generation it compares with after the experience
    has been added.  The flag is [False] also on the calls that do advance
    the generation, which are exactly those that bring the history to a
    multiple of 10 entries. *)
Theorem X2_generation_flag_never_set
    (user : User.t) (s : Z) (c t1 t2 : string)
    (ls : LearningSystem.t) (r : Routine.t) :
  1 <= s <= 5 →
  let out :=
    LearningService.process_feedback user s c t1 t2
      (LearningService.mkWorld ls r) in
  (∃ res, out.1 = inr res ∧
          LearningService.generacion_evolucionada res = false) ∧
  LearningSystem.generacion (LearningService.learning_system out.2) =
    LearningSystem.generacion ls +
    (if Z.of_nat (S (length (LearningSystem.historico_usuarios ls))) mod 10 =? 0
     then 1 else 0).
Proof.
  intros Hin out. split.
  - subst out. rewrite process_feedback_valid by exact Hin. eauto.
  - apply process_feedback_generacion, Hin.
Qed.

Lemma X2_generation_flag_never_set_witness :
  let out :=
    LearningService.process_feedback sample_user 1 "muy dura"
      "2025-01-02T10:00:00" "2025-01-02T10:00:01"
      (LearningService.mkWorld sample_struggling_system sample_learned_routine) in
  LearningSystem.generacion (LearningService.learning_system out.2) = 1 ∧
  ∃ res, out.1 = inr res ∧ LearningService.generacion_evolucionada res = false.
Proof.
  assert (Hin : 1 <= 1 <= 5) by lia.
  destruct (X2_generation_flag_never_set sample_user 1 "muy dura"
              "2025-01-02T10:00:00" "2025-01-02T10:00:01"
              sample_struggling_system sample_learned_routine Hin) as [Hf Hg].
  split; [rewrite Hg; reflexivity | exact Hf].
Defined.

(** X3: an accepted feedback appends exactly one entry to the history:
    the user's profile, the routine id, the satisfaction, the comments,
    and a snapshot of the routine only when the satisfaction is at least
    4.  The routine keeps its plan and metadata and now holds the
    feedback; the log of generated routines is not touched. *)
Theorem X3_accepted_feedback_appends_one_experience
    (user : User.t) (s : Z) (c t1 t2 : string)
    (ls : LearningSystem.t) (r : Routine.t) :
  1 <= s <= 5 →
  let out :=
    LearningService.process_feedback user s c t1 t2
      (LearningService.mkWorld ls r) in
  let ls' := LearningService.learning_system out.2 in
  let r' := LearningService.routine out.2 in
  LearningSystem.historico_usuarios ls' =
    LearningSystem.historico_usuarios ls ++
    [{| Experience.perfil := Some (Profile.to_dict (User.perfil user));
        Experience.rutina_id := Routine.routine_id r;
        Experience.rutina_exitosa :=
          if 4 <=? s then Some (Routine.to_dict r') else None;
        Experience.satisfaccion := Some s;
        Experience.comentarios := c;
        Experience.fecha := t1 |}] ∧
  LearningSystem.rutinas_generadas ls' = LearningSystem.rutinas_generadas ls ∧
  Routine.satisfaccion r' = Some s ∧
  Routine.comentarios r' = Some c ∧
  Routine.rutina_semanal r' = Routine.rutina_semanal r ∧
  Routine.metadatos r' = Routine.metadatos r ∧
  Routine.is_successful r' = (4 <=? s).
Proof.
  intros Hin out ls' r'. subst ls' r' out. split.
  - apply process_feedback_historico, Hin.
  - rewrite process_feedback_routine by exact Hin. cbn.
    repeat split.
    rewrite process_feedback_valid by exact Hin. cbn [snd LearningService.learning_system].
    assert (Hr : ∀ s' r0 l,
      LearningSystem.rutinas_generadas
        (LearningService._adjust_exploration_factor s' r0 l).2 =
      LearningSystem.rutinas_generadas l).
    { intros. unfold LearningService._adjust_exploration_factor.
      case_ifs; reflexivity. }
    rewrite Hr. destruct (4 <=? s).
    + rewrite (update_exercise_combinations_frame LearningSystem.rutinas_generadas).
      * unfold LearningService._update_successful_patterns,
          LearningSystem.add_successful_pattern.
        destruct (_ !! _); cbn; apply add_user_experience_rutinas.
      * intros g x l. unfold LearningSystem.increment_exercise_combination.
        destruct (_ !! _); reflexivity.
    + apply add_user_experience_rutinas.
Qed.

Lemma X3_accepted_feedback_appends_one_experience_witness :
  let out :=
    LearningService.process_feedback sample_user 3 "normal"
      "2025-01-02T10:00:00" "2025-01-02T10:00:01" sample_world in
  length (LearningSystem.historico_usuarios
            (LearningService.learning_system out.2)) = 1%nat ∧
  Routine.satisfaccion (LearningService.routine out.2) = Some 3.
Proof.
  assert (Hin : 1 <= 3 <= 5) by lia.
  destruct (X3_accepted_feedback_appends_one_experience sample_user 3 "normal"
              "2025-01-02T10:00:00" "2025-01-02T10:00:01"
              LearningSystem.init sample_learned_routine Hin)
    as (Hh & _ & Hs & _).
  split; [unfold sample_world; rewrite Hh; reflexivity | exact Hs].
Defined.

Section FactorDrift.

Import LearningSystem LearningService.









End FactorDrift.



(** * The exploit decision *)

Section LearningMode.

Import LearningSystem LearningService.

Lemma pattern_key_lookup p l :
  get_patterns_for_profile (Profile.nivel_str p) (Profile.objetivo_str p) l =
    default [] (patrones_exitosos l !! pattern_key p).
Proof. reflexivity. Qed.

End LearningMode.

(** X5: the exploit decision.  With fewer than three success patterns
    for the profile's level and goal the generator never exploits,
    whatever the random draw; with three or more it exploits exactly when
    the draw is not below the exploration factor, so for a factor in its
    range a draw of 0.4 or more always exploits and a draw below 0.1
    never does. *)
Theorem X5_learning_mode_needs_three_patterns
    (p : Profile.t) (draw : Q) (ls : LearningSystem.t) :
  let n :=
    length (LearningSystem.get_patterns_for_profile
              (Profile.nivel_str p) (Profile.objetivo_str p) ls) in
  ((n < 3)%nat → LearningService.should_use_learning_mode p draw ls = false) ∧
  ((3 <= n)%nat →
     LearningService.should_use_learning_mode p draw ls =
       Qle_bool (LearningSystem.factor_exploracion ls) draw) ∧
  ((3 <= n)%nat → exploration_in_bounds ls →
     ((0.4 <= draw)%Q → LearningService.should_use_learning_mode p draw ls = true) ∧
     ((draw < 0.1)%Q → LearningService.should_use_learning_mode p draw ls = false)).
Proof.
  intros n. subst n. unfold LearningService.should_use_learning_mode,
    LearningSystem.should_explore.
  set (n := length _). rewrite negb_involutive.
  split; [|split].
  - intros Hn. replace (3 <=? n)%nat with false
      by (symmetry; apply Nat.leb_gt, Hn). reflexivity.
  - intros Hn. replace (3 <=? n)%nat with true
      by (symmetry; apply Nat.leb_le, Hn). reflexivity.
  - intros Hn [Hlo Hhi]. replace (3 <=? n)%nat with true
      by (symmetry; apply Nat.leb_le, Hn). cbn [andb]. split.
    + intros Hd. apply Qle_bool_iff. lra.
    + intros Hd. destruct (Qle_bool _ draw) eqn:E; [|reflexivity].
      apply Qle_bool_iff in E. lra.
Qed.

Lemma X5_learning_mode_needs_three_patterns_witness :
  LearningService.should_use_learning_mode sample_profile 0.99
    LearningSystem.init = false.
Proof.
  apply (proj1 (X5_learning_mode_needs_three_patterns sample_profile 0.99
                  LearningSystem.init)).
  vm_compute. lia.
Defined.

(** X6: an accepted feedback of 4 or 5 adds exactly one pattern to the
    bucket of the user's level and goal, at its end, and an accepted
    feedback of 3 or less adds none; the buckets of the other keys are
    never changed. *)
Theorem X6_feedback_grows_only_the_users_bucket
    (user : User.t) (s : Z) (c t1 t2 : string)
    (ls : LearningSystem.t) (r : Routine.t) :
  1 <= s <= 5 →
  let out :=
    LearningService.process_feedback user s c t1 t2
      (LearningService.mkWorld ls r) in
  let ls' := LearningService.learning_system out.2 in
  let p := User.perfil user in
  let before :=
    LearningSystem.get_patterns_for_profile
      (Profile.nivel_str p) (Profile.objetivo_str p) ls in
  let after :=
    LearningSystem.get_patterns_for_profile
      (Profile.nivel_str p) (Profile.objetivo_str p) ls' in
  (4 <= s →
     after = before ++
       [{| Pattern.rutina := Routine.to_dict (LearningService.routine out.2);
           Pattern.satisfaccion := s; Pattern.fecha := t2 |}]) ∧
  (s <= 3 → after = before) ∧
  (∀ key, key ≠ LearningService.pattern_key p →
     LearningSystem.patrones_exitosos ls' !! key =
       LearningSystem.patrones_exitosos ls !! key).
Proof.
  intros Hin out ls' p before after. subst before after.
  rewrite !pattern_key_lookup. subst ls' p out.
  pose proof (process_feedback_successful user s c t1 t2 ls r Hin) as Hs.
  pose proof (process_feedback_unsuccessful user s c t1 t2 ls r) as Hu.
  split; [|split].
  - intros H4. rewrite (proj1 (Hs H4)), lookup_insert_eq. reflexivity.
  - intros H3. rewrite (proj1 (Hu H3)). reflexivity.
  - intros key Hk. destruct (decide (4 <= s)) as [H4|H3].
    + rewrite (proj1 (Hs H4)), lookup_insert_ne by congruence. reflexivity.
    + rewrite (proj1 (Hu ltac:(lia))). reflexivity.
Qed.

Lemma X6_feedback_grows_only_the_users_bucket_witness :
  let ls' :=
    LearningService.learning_system
      (LearningService.process_feedback sample_user 4 "buena"
         "2025-01-02T10:00:00" "2025-01-02T10:00:01" sample_world).2 in
  length (LearningSystem.get_patterns_for_profile "intermedio" "ganar_masa" ls')
    = 1%nat ∧
  LearningSystem.patrones_exitosos ls' !! "avanzado_fuerza" = None.
Proof.
  assert (Hin : 1 <= 4 <= 5) by lia.
  destruct (X6_feedback_grows_only_the_users_bucket sample_user 4 "buena"
              "2025-01-02T10:00:00" "2025-01-02T10:00:01"
              LearningSystem.init sample_learned_routine Hin)
    as (Hs & _ & Ho).
  intros ls'. subst ls'. unfold sample_world. split.
  - change "intermedio" with (Profile.nivel_str (User.perfil sample_user)).
    change "ganar_masa" with (Profile.objetivo_str (User.perfil sample_user)).
    rewrite Hs by lia. reflexivity.
  - rewrite Ho by discriminate. reflexivity.
Defined.

(** * Further properties of the similar-user search *)

Section SimilarSorted.

Import Calculations InferenceService.

(** [x] may stand before [y] in a list sorted by falling similarity. *)
Let before (x y : similar_user) : Prop := (similitud y <= similitud x)%R.

Lemma insert_desc_sorted x l :
  StronglySorted before l → StronglySorted before (insert_desc x l).
Proof.
  induction l as [|y l IH]; intros Hl; cbn.
  - repeat constructor.
  - apply StronglySorted_inv in Hl as [Hl Hy].
    destruct (Rle_dec (similitud y) (similitud x)) as [Hle|Hgt].
    + constructor; [constructor; assumption|].
      constructor; [exact Hle|].
      eapply Forall_impl; [exact Hy|].
      intros z Hz. unfold before in *. lra.
    + constructor; [apply IH, Hl|].
      rewrite insert_desc_perm. constructor; [|exact Hy].
      unfold before. lra.
Qed.

Lemma sort_desc_sorted l : StronglySorted before (sort_desc l).
Proof.
  induction l as [|x l IH]; cbn; [constructor|].
  apply insert_desc_sorted, IH.
Qed.

Lemma take_strongly_sorted n (l : list similar_user) :
  StronglySorted before l → StronglySorted before (take n l).
Proof.
  revert n. induction l as [|x l IH]; intros n Hl; destruct n; cbn;
    try constructor.
  - apply IH. apply StronglySorted_inv in Hl. tauto.
  - apply Forall_take. apply StronglySorted_inv in Hl. tauto.
Qed.

Lemma find_similar_users_sorted p threshold ls :
  StronglySorted before (_find_similar_users p threshold ls).
Proof. apply take_strongly_sorted, sort_desc_sorted. Qed.

Lemma find_similar_users_length p threshold ls :
  (length (_find_similar_users p threshold ls) <= 10)%nat.
Proof. unfold _find_similar_users. rewrite length_take. lia. Qed.

Lemma find_similar_users_length_history p threshold ls :
  (length (_find_similar_users p threshold ls) <=
   length (LearningSystem.historico_usuarios ls))%nat.
Proof.
  unfold _find_similar_users. rewrite length_take, sort_desc_perm.
  etransitivity; [apply Nat.le_min_r|].
  induction (LearningSystem.historico_usuarios ls) as [|e l IH]; cbn; [lia|].
  destruct (similar_entry p threshold e); cbn; lia.
Qed.

End SimilarSorted.

(** X7: [_find_similar_users] returns at most ten users and never more
    than the history holds, ordered by falling similarity; each of them
    is an entry of the history with a non-empty profile, carries the
    similarity of that profile with the one searched for, and reaches the
    threshold. *)
Theorem X7_similar_users_top_ten_sorted
    (p : Profile.t) (threshold : R) (ls : LearningSystem.t) :
  let found := InferenceService._find_similar_users p threshold ls in
  (length found <= 10)%nat ∧
  (length found <= length (LearningSystem.historico_usuarios ls))%nat ∧
  StronglySorted
    (fun x y => (InferenceService.similitud y <= InferenceService.similitud x)%R)
    found ∧
  (∀ u, u ∈ found →
     ∃ d, compared ls (InferenceService.usuario u) d ∧
          InferenceService.similitud u =
            Calculations.calculate_profile_similarity (Profile.to_dict p) d ∧
          (InferenceService.similitud u >= threshold)%R).
Proof.
  intros found. subst found. repeat split.
  - apply find_similar_users_length.
  - apply find_similar_users_length_history.
  - apply find_similar_users_sorted.
  - intros u Hu. apply find_similar_users_elem, Hu.
Qed.

Section Closeness.

Import Calculations InferenceService.

(** A similarity above one half leaves no room for a goal mismatch. *)
Lemma similar_same_goal (a b : dict) :
  (1 / 2 < calculate_profile_similarity a b)%R →
  py_eqb (py_get a "objetivo_str" (VStr "")) (py_get b "objetivo_str" (VStr ""))
    = true.
Proof.
  intros H. destruct (py_eqb _ _) eqn:E; [reflexivity|].
  pose proof (similarity_goal_mismatch a b E). lra.
Qed.

Lemma Q2R_inject_Z (z : Z) : Q2R (inject_Z z) = IZR z.
Proof. unfold Q2R, inject_Z. cbn. field. Qed.

Lemma py_abs_sub_int (x y : Z) :
  py_abs_sub (VInt x) (VInt y) = Some (Rabs (IZR (x - y))).
Proof.
  unfold py_abs_sub, py_real. cbn. rewrite !Q2R_inject_Z, minus_IZR.
  reflexivity.
Qed.

(** The similarity of two profiles, written out on their fields. *)
Lemma profile_similarity_formula (p q : Profile.t) :
  calculate_profile_similarity (Profile.to_dict p) (Profile.to_dict q) =
    (1 / (1 + sqrt
       ((Rabs (IZR (Profile.edad p - Profile.edad q)) / 100) ^ 2 +
        (Rabs (Q2R (Qround2 (Profile.imc p)) - Q2R (Qround2 (Profile.imc q)))
           / 20) ^ 2 +
        (Rabs (IZR (Profile.nivel_num p - Profile.nivel_num q)) / 3) ^ 2 +
        (if String.eqb (Profile.objetivo_str p) (Profile.objetivo_str q)
         then 0 else 1) ^ 2 +
        (Rabs (IZR (Profile.dias p - Profile.dias q)) / 7) ^ 2)))%R.
Proof.
  unfold calculate_profile_similarity, similarity_try, py_get.
  rewrite !to_dict_edad, !to_dict_imc, !to_dict_nivel_num, !to_dict_dias,
    !to_dict_objetivo_str.
  cbn [from_option]. unfold Datatypes.id. rewrite !py_abs_sub_int.
  cbn [mbind option_bind py_abs_sub py_real py_num fmap option_fmap option_map
       py_eqb].
  reflexivity.
Qed.

Lemma Rabs_IZR_le (z : Z) (k : Z) :
  (Rabs (IZR z) < IZR (k + 1))%R → Z.abs z <= k.
Proof.
  intros H. rewrite <- abs_IZR in H. apply lt_IZR in H. lia.
Qed.

End Closeness.

(** X8: profiles of different goals are never similar: their similarity
    is at most 0.5, so every user [_find_similar_users] returns for a
    threshold above 0.5 -- the search uses 0.7 and 0.75 -- has recorded
    the goal of the profile searched for. *)
Theorem X8_similar_users_share_the_goal
    (p : Profile.t) (threshold : R) (ls : LearningSystem.t)
    (u : InferenceService.similar_user) :
  (1 / 2 < threshold)%R →
  u ∈ InferenceService._find_similar_users p threshold ls →
  ∃ d, Experience.perfil (InferenceService.usuario u) = Some d ∧
       py_eqb (VStr (Profile.objetivo_str p))
              (py_get d "objetivo_str" (VStr "")) = true.
Proof.
  intros Ht Hu.
  apply find_similar_users_elem in Hu as (d & (_ & Hd & _) & Hs & Hge).
  exists d. split; [exact Hd|].
  pose proof (similar_same_goal (Profile.to_dict p) d) as H.
  unfold py_get in H at 1. rewrite to_dict_objetivo_str in H. apply H.
  rewrite <- Hs. lra.
Qed.

(** X9: two profiles whose similarity reaches 0.7 have the same goal,
    ages at most 42 years apart, levels at most one step apart and
    training days at most 3 apart. *)
Theorem X9_similar_profiles_are_close (p q : Profile.t) :
  (Calculations.calculate_profile_similarity
     (Profile.to_dict p) (Profile.to_dict q) >= 0.7)%R →
  Profile.objetivo_str p = Profile.objetivo_str q ∧
  Z.abs (Profile.edad p - Profile.edad q) <= 42 ∧
  Z.abs (Profile.nivel_num p - Profile.nivel_num q) <= 1 ∧
  Z.abs (Profile.dias p - Profile.dias q) <= 3.
Proof.
  rewrite profile_similarity_formula.
  set (e := (Rabs (IZR (Profile.edad p - Profile.edad q)) / 100)%R).
  set (i := (Rabs _ / 20)%R).
  set (n := (Rabs (IZR (Profile.nivel_num p - Profile.nivel_num q)) / 3)%R).
  set (d := (Rabs (IZR (Profile.dias p - Profile.dias q)) / 7)%R).
  set (o := (if String.eqb _ _ then 0 else 1)%R).
  set (sum := (e ^ 2 + i ^ 2 + n ^ 2 + o ^ 2 + d ^ 2)%R).
  intros H.
  assert (He : (0 <= e)%R)
    by (subst e; match goal with |- context [Rabs ?x] =>
          pose proof (Rabs_pos x) end; lra).
  assert (Hi : (0 <= i)%R)
    by (subst i; match goal with |- context [Rabs ?x] =>
          pose proof (Rabs_pos x) end; lra).
  assert (Hn : (0 <= n)%R)
    by (subst n; match goal with |- context [Rabs ?x] =>
          pose proof (Rabs_pos x) end; lra).
  assert (Hd : (0 <= d)%R)
    by (subst d; match goal with |- context [Rabs ?x] =>
          pose proof (Rabs_pos x) end; lra).
  assert (Ho : (0 <= o)%R) by (subst o; destruct (String.eqb _ _); lra).
  assert (Hsum : (0 <= sum)%R) by (subst sum; nra).
  pose proof (sqrt_pos sum) as Hs.
  assert (Hinv : ((1 + sqrt sum) * (1 / (1 + sqrt sum)) = 1)%R) by (field; lra).
  assert (Hdist : (sqrt sum <= 3 / 7)%R) by nra.
  assert (Hsq : (sum <= 9 / 49)%R).
  { rewrite <- (sqrt_sqrt sum Hsum). nra. }
  assert (Hpe : (0 <= e ^ 2)%R) by apply pow2_ge_0.
  assert (Hpi : (0 <= i ^ 2)%R) by apply pow2_ge_0.
  assert (Hpn : (0 <= n ^ 2)%R) by apply pow2_ge_0.
  assert (Hpd : (0 <= d ^ 2)%R) by apply pow2_ge_0.
  assert (Hpo : (0 <= o ^ 2)%R) by apply pow2_ge_0.
  unfold sum in Hsq.
  assert (Le : (e <= 3 / 7)%R) by nra.
  assert (Ln : (n <= 3 / 7)%R) by nra.
  assert (Ld : (d <= 3 / 7)%R) by nra.
  split; [|split; [|split]].
  - destruct (String.eqb_spec (Profile.objetivo_str p)
                (Profile.objetivo_str q)) as [E|E]; [exact E|].
    exfalso. unfold o in Hsq. lra.
  - apply Rabs_IZR_le. change (IZR (42 + 1)) with 43%R. unfold e in Le. lra.
  - apply Rabs_IZR_le. change (IZR (1 + 1)) with 2%R. unfold n in Ln. lra.
  - apply Rabs_IZR_le. change (IZR (3 + 1)) with 4%R. unfold d in Ld. lra.
Qed.

Lemma X9_similar_profiles_are_close_witness :
  Profile.objetivo_str sample_profile = Profile.objetivo_str sample_profile ∧
  Z.abs (Profile.edad sample_profile - Profile.edad sample_profile) <= 42.
Proof.
  assert (H : (Calculations.calculate_profile_similarity
                 (Profile.to_dict sample_profile)
                 (Profile.to_dict sample_profile) >= 0.7)%R).
  { rewrite calculate_profile_similarity_diag by apply to_dict_numeric. lra. }
  destruct (X9_similar_profiles_are_close sample_profile sample_profile H)
    as (Ho & He & _).
  split; assumption.
Defined.

Section SampleSearch.

Import Calculations InferenceService.

Lemma to_dict_nonempty (p : Profile.t) : Profile.to_dict p ≠ ∅.
Proof.
  intros E. pose proof (to_dict_edad p) as H. rewrite E in H.
  rewrite lookup_empty in H. discriminate H.
Qed.

(** An entry that records the very profile searched for is kept, with
    similarity 1. *)
Lemma similar_entry_twin p threshold s :
  (threshold <= 1)%R →
  similar_entry p threshold (experience_with p s) =
    Some {| usuario := experience_with p s; similitud := 1%R |}.
Proof.
  intros Ht. unfold similar_entry. cbn [Experience.perfil experience_with].
  destruct (decide _) as [E|_]; [destruct (to_dict_nonempty p E)|].
  rewrite calculate_profile_similarity_diag by apply to_dict_numeric.
  destruct (Rge_dec 1 threshold); [reflexivity | lra].
Qed.

Lemma similar_entry_sample_other threshold s :
  (1 / 2 < threshold)%R →
  similar_entry sample_profile threshold (experience_with sample_other_profile s)
    = None.
Proof.
  intros Ht. unfold similar_entry. cbn [Experience.perfil experience_with].
  destruct (decide _) as [E|_]; [reflexivity|].
  pose proof sample_other_similarity.
  destruct (Rge_dec _ threshold); [lra | reflexivity].
Qed.

Lemma find_similar_users_sample_mixed threshold :
  (1 / 2 < threshold <= 1)%R →
  _find_similar_users sample_profile threshold sample_mixed_system =
    [{| usuario := experience_with sample_profile 2; similitud := 1%R |}].
Proof.
  intros [Hlo Hhi]. unfold _find_similar_users, sample_mixed_system.
  cbn [LearningSystem.historico_usuarios LearningSystem.set_historico_usuarios
       omap list_omap].
  rewrite similar_entry_twin by exact Hhi.
  rewrite similar_entry_sample_other by exact Hlo.
  reflexivity.
Qed.

End SampleSearch.

Lemma X8_similar_users_share_the_goal_witness :
  let u :=
    {| InferenceService.usuario := experience_with sample_profile 2;
       InferenceService.similitud := 1%R |} in
  u ∈ InferenceService._find_similar_users sample_profile 0.7 sample_mixed_system ∧
  ∃ d, Experience.perfil (InferenceService.usuario u) = Some d ∧
       py_eqb (VStr "ganar_masa") (py_get d "objetivo_str" (VStr "")) = true.
Proof.
  intros u.
  assert (Hu : u ∈ InferenceService._find_similar_users sample_profile 0.7
                     sample_mixed_system).
  { rewrite find_similar_users_sample_mixed by lra. left. }
  split; [exact Hu|].
  apply (X8_similar_users_share_the_goal sample_profile 0.7
           sample_mixed_system u); [lra | exact Hu].
Defined.

(** * Ranges of the scores *)

Section Scores.

Import Calculations InferenceService.

(** Rounding to two decimals never leaves an interval whose ends have two
    decimals. *)
Lemma Rround2_between (lo hi : Z) (x : R) :
  (IZR lo <= x * 100 <= IZR hi)%R →
  (IZR lo / 100 <= Rround2 x <= IZR hi / 100)%R.
Proof.
  intros [Hlo Hhi]. unfold Rround2.
  set (y := (x * 100)%R) in *. set (f := Int_part y).
  destruct (base_Int_part y) as [Hf1 Hf2]. fold f in Hf1, Hf2.
  assert (Hflo : lo <= f).
  { assert (IZR lo - 1 < IZR f)%R by lra.
    assert (lo - 1 < f) by (apply lt_IZR; rewrite minus_IZR; assumption).
    lia. }
  assert (Hfhi : f <= hi) by (apply le_IZR; lra).
  assert (Hup : (1 / 2 <= y - IZR f)%R → f + 1 <= hi).
  { intros Hr. assert (IZR f < IZR hi)%R by lra.
    apply lt_IZR in H. lia. }
  assert (Hn : ∀ n, lo <= n <= hi → (IZR lo / 100 <= IZR n / 100 <= IZR hi / 100)%R).
  { intros n [H1 H2]. apply IZR_le in H1, H2. lra. }
  destruct (Rlt_dec (y - IZR f) (1 / 2)) as [Hlt|Hge].
  - apply Hn. lia.
  - assert (f + 1 <= hi) by (apply Hup; lra).
    destruct (Rlt_dec (1 / 2) (y - IZR f)); [apply Hn; lia|].
    destruct (Z.even f); apply Hn; lia.
Qed.

Lemma calculate_confidence_score_range n sim sd :
  (0.5 <= calculate_confidence_score n sim sd <= 1)%R.
Proof.
  unfold calculate_confidence_score.
  unfold Rmin. destruct sd as [sd|]; case_ifs; destruct (Rle_dec _ _); lra.
Qed.



End Scores.


Ltac Zleb_to_prop :=
  repeat match goal with
         | H : (_ <=? _) = true |- _ => apply Z.leb_le in H
         | H : (_ <=? _) = false |- _ => apply Z.leb_gt in H
         end.

(** X11: [calculate_confidence_score] lies between 0.5 and 1; it is
    exactly 0.5 for fewer than three samples of average similarity at
    most 0.5 without a deviation, and more samples never lower it. *)
Theorem X11_confidence_score_range_and_monotone
    (n n' : Z) (sim : R) (sd : option R) :
  (0.5 <= Calculations.calculate_confidence_score n sim sd <= 1)%R ∧
  (n < 3 → (sim <= 0.5)%R →
     Calculations.calculate_confidence_score n sim None = 0.5%R) ∧
  (n <= n' →
     (Calculations.calculate_confidence_score n sim sd <=
      Calculations.calculate_confidence_score n' sim sd)%R).
Proof.
  split; [apply calculate_confidence_score_range|]. split.
  - intros Hn Hs. unfold Calculations.calculate_confidence_score,
      AIConfig.SIMILARITY_HIGH, AIConfig.SIMILARITY_MEDIUM,
      AIConfig.SIMILARITY_LOW.
    case_ifs; Zleb_to_prop; try lia; try lra;
      unfold Rmin; case_ifs; lra.
  - intros Hn. unfold Calculations.calculate_confidence_score.
    destruct sd as [d|]; case_ifs; Zleb_to_prop; try lia;
      unfold Rmin; case_ifs; lra.
Qed.

Lemma X11_confidence_score_range_and_monotone_witness :
  Calculations.calculate_confidence_score 0 0 None = 0.5%R ∧
  (Calculations.calculate_confidence_score 2 0.9 (Some 0.3%R) <=
   Calculations.calculate_confidence_score 12 0.9 (Some 0.3%R))%R.
Proof.
  split.
  - apply (proj1 (proj2 (X11_confidence_score_range_and_monotone 0 0 0 None)));
      [lia | lra].
  - apply (proj2 (proj2 (X11_confidence_score_range_and_monotone
                           2 12 0.9 (Some 0.3%R)))).
    lia.
Defined.

Section BayesianAdjustment.

Import PrimFloat.


End BayesianAdjustment.

(** * Inferred parameters *)

Section InferredParameters.

Import InferenceService.



End InferredParameters.



(** * Anomalies *)

Section Anomalies.

Import InferenceService.

Lemma last_n_app3 {A} (l : list A) x y z : last_n 3 (l ++ [x; y; z]) = [x; y; z].
Proof.
  unfold last_n. rewrite length_app. cbn [length].
  replace (length l + 3 - 3)%nat with (length l) by lia.
  apply drop_app_length.
Qed.

Lemma from_end_app3 (l : list Z) x y z :
  from_end 2 (l ++ [x; y; z]) = y ∧ from_end 1 (l ++ [x; y; z]) = z.
Proof.
  unfold from_end. rewrite length_app. cbn [length]. split.
  - rewrite lookup_app_r by lia.
    replace (length l + 3 - 2 - length l)%nat with 1%nat by lia. reflexivity.
  - rewrite lookup_app_r by lia.
    replace (length l + 3 - 1 - length l)%nat with 2%nat by lia. reflexivity.
Qed.

Lemma kinds_of_flags (t1 t2 t3 : bool) :
  let ks :=
    (if t1 then ["tendencia_negativa"] else []) ++
    (if t2 then ["caida_abrupta"] else []) ++
    (if t3 then ["estancamiento"] else []) in
  ("tendencia_negativa" ∈ ks ↔ t1 = true) ∧
  ("caida_abrupta" ∈ ks ↔ t2 = true) ∧
  ("estancamiento" ∈ ks ↔ t3 = true) ∧
  (ks = [] ↔ t1 = false ∧ t2 = false ∧ t3 = false).
Proof.
  destruct t1, t2, t3; cbn;
    rewrite ?elem_of_cons, ?elem_of_nil; intuition congruence.
Qed.

(** The report on a history of three or more entries, by its three
    checks. *)
Lemma detect_anomalies_flags p pre a b c :
  let history := pre ++ [a; b; c] in
  let avg := Calculations.calculate_average (map IZR (map rating history)) in
  let t1 := (rating b <? rating a) && (rating c <? rating b) in
  let t2 := (4 <=? rating b) && (rating c <=? 2) in
  let t3 := Rleb 3.0 avg && Rleb avg 3.5 && (5 <=? length history)%nat in
  anomaly_kinds (detect_anomalies p history) =
    (if t1 then ["tendencia_negativa"] else []) ++
    (if t2 then ["caida_abrupta"] else []) ++
    (if t3 then ["estancamiento"] else []) ∧
  estado (detect_anomalies p history) =
    (if t1 || t2 || t3 then "anomalo" else "normal") ∧
  satisfaccion_promedio (detect_anomalies p history) = Some avg.
Proof.
  intros history avg t1 t2 t3.
  unfold detect_anomalies, anomaly_kinds.
  assert (Hlen : (length history <? 3)%nat = false).
  { apply Nat.ltb_ge. subst history. rewrite length_app. cbn. lia. }
  rewrite Hlen.
  change (map (λ f, default 3 (Experience.satisfaccion f)) history)
    with (map rating history).
  assert (Hsat : map rating history =
                 map rating pre ++ [rating a; rating b; rating c]).
  { subst history. rewrite map_app. reflexivity. }
  assert (H3 : (3 <=? length (map rating history))%nat = true).
  { apply Nat.leb_le. rewrite length_map. subst history.
    rewrite length_app. cbn. lia. }
  assert (H2 : (2 <=? length (map rating history))%nat = true).
  { apply Nat.leb_le. rewrite length_map. subst history.
    rewrite length_app. cbn. lia. }
  rewrite H3, H2. cbn [andb].
  fold avg.
  assert (E1 : strictly_decreasing (last_n 3 (map rating history)) = t1).
  { rewrite Hsat, last_n_app3. cbn. subst t1. rewrite andb_true_r. reflexivity. }
  assert (E2 : (4 <=? from_end 2 (map rating history)) &&
               (from_end 1 (map rating history) <=? 2) = t2).
  { rewrite Hsat.
    destruct (from_end_app3 (map rating pre) (rating a) (rating b) (rating c))
      as [-> ->]. reflexivity. }
  rewrite E1, E2, length_map. fold t3.
  cbn [anomalias estado satisfaccion_promedio].
  destruct t1, t2, t3; repeat split.
Qed.

End Anomalies.

(** X14: on a history of three or more entries the anomaly checks look
    at its last three ratings and at the overall average only.  A
    declining trend is reported exactly when the last three ratings fall
    strictly, an abrupt drop exactly when the one before last is at least
    4 and the last at most 2, and a plateau exactly when there are five or
    more entries and the average lies between 3.0 and 3.5; the state is
    ['anomalo'] exactly when one of them is reported, and the average is
    part of the report. *)
Theorem X14_anomalies_from_last_three
    (p : Profile.t) (pre : list Experience.t) (a b c : Experience.t) :
  let history := pre ++ [a; b; c] in
  let report := InferenceService.detect_anomalies p history in
  let avg := Calculations.calculate_average (map IZR (map rating history)) in
  ("tendencia_negativa" ∈ anomaly_kinds report ↔
     rating a > rating b ∧ rating b > rating c) ∧
  ("caida_abrupta" ∈ anomaly_kinds report ↔ 4 <= rating b ∧ rating c <= 2) ∧
  ("estancamiento" ∈ anomaly_kinds report ↔
     (3.0 <= avg <= 3.5)%R ∧ (5 <= length history)%nat) ∧
  (InferenceService.estado report = "anomalo" ↔ anomaly_kinds report ≠ []) ∧
  (InferenceService.estado report = "normal" ↔ anomaly_kinds report = []) ∧
  InferenceService.satisfaccion_promedio report = Some avg.
Proof.
  intros history report avg. subst report.
  destruct (detect_anomalies_flags p pre a b c) as (Hk & He & Ha).
  fold history avg in Hk, He, Ha.
  rewrite Hk, He, Ha.
  set (t1 := (rating b <? rating a) && (rating c <? rating b)) in *.
  set (t2 := (4 <=? rating b) && (rating c <=? 2)) in *.
  set (t3 := Rleb 3.0 avg && Rleb avg 3.5 && (5 <=? length history)%nat) in *.
  destruct (kinds_of_flags t1 t2 t3) as (K1 & K2 & K3 & K0).
  cbv zeta in K1, K2, K3, K0.
  assert (T1 : t1 = true ↔ rating a > rating b ∧ rating b > rating c).
  { subst t1. rewrite andb_true_iff, !Z.ltb_lt. lia. }
  assert (T2 : t2 = true ↔ 4 <= rating b ∧ rating c <= 2).
  { subst t2. rewrite andb_true_iff, !Z.leb_le. lia. }
  assert (T3 : t3 = true ↔ (3.0 <= avg <= 3.5)%R ∧ (5 <= length history)%nat).
  { subst t3. rewrite !andb_true_iff, Nat.leb_le. unfold Rleb.
    destruct (Rle_dec 3.0 avg), (Rle_dec avg 3.5); intuition (try lra; try discriminate). }
  rewrite K1, K2, K3, K0, T1, T2, T3.
  split; [tauto|]. split; [tauto|]. split; [tauto|].
  clear K1 K2 K3 K0 T1 T2 T3 Hk He Ha.
  split; [|split; [|reflexivity]];
    destruct t1, t2, t3; cbn; split; intros H;
      solve [ reflexivity | discriminate H | repeat split
            | intros (? & ? & ?); discriminate
            | destruct H as (? & ? & ?); discriminate
            | exfalso; apply H; repeat split ].
Qed.

(** * Printing and parsing integers *)

Section Decimal.

Lemma parse_digits_acc (d : Decimal.uint) : ∀ acc : positive,
  parse_digits (Zpos acc) (NilEmpty.string_of_uint d) =
    Some (Zpos (Pos.of_uint_acc d acc)).
Proof.
  induction d; intros acc; cbn [NilEmpty.string_of_uint parse_digits Pos.of_uint_acc];
    try reflexivity;
    match goal with
    | |- context [digit_of ?c] =>
        let v := eval vm_compute in (digit_of c) in
        change (digit_of c) with v
    end;
    cbv iota beta;
    match goal with
    | |- parse_digits ?a _ = Some (Zpos (Pos.of_uint_acc _ ?b)) =>
        replace a with (Zpos b) by lia
    end;
    apply IHd.
Qed.

Lemma parse_digits_uint (d : Decimal.uint) :
  parse_digits 0 (NilEmpty.string_of_uint d) = Some (Z.of_N (Pos.of_uint d)).
Proof.
  induction d; cbn [NilEmpty.string_of_uint parse_digits Pos.of_uint];
    try reflexivity;
    match goal with
    | |- context [digit_of ?c] =>
        let v := eval vm_compute in (digit_of c) in
        change (digit_of c) with v
    end;
    cbv iota beta;
    first [ exact IHd | apply (parse_digits_acc d) ].
Qed.

Lemma string_of_uint_digits (d : Decimal.uint) :
  all_digits (NilEmpty.string_of_uint d) = true.
Proof. induction d; cbn; auto. Qed.

Lemma string_of_uint_empty (d : Decimal.uint) :
  NilEmpty.string_of_uint d = EmptyString → d = Decimal.Nil.
Proof. destruct d; cbn; intros H; first [reflexivity | discriminate H]. Qed.

(** The decimal form of a natural number: digits only, not empty, and
    read back by [parse_digits]. *)
Lemma str_of_Z_nonneg (n : Z) :
  0 <= n →
  all_digits (str_of_Z n) = true ∧ str_of_Z n ≠ EmptyString ∧
  parse_digits 0 (str_of_Z n) = Some n.
Proof.
  intros Hn. destruct n as [|p|p]; [repeat split; discriminate| |lia].
  unfold str_of_Z. cbn [Z.to_int NilZero.string_of_int].
  pose proof (DecimalPos.Unsigned.of_to p) as Hp.
  assert (Hs : NilZero.string_of_uint (Pos.to_uint p) =
               NilEmpty.string_of_uint (Pos.to_uint p)).
  { destruct (Pos.to_uint p); [cbn in Hp; discriminate Hp|..]; reflexivity. }
  rewrite Hs. split; [apply string_of_uint_digits|].
  split.
  - intros H. apply string_of_uint_empty in H. rewrite H in Hp.
    cbn in Hp. discriminate Hp.
  - rewrite parse_digits_uint, Hp. reflexivity.
Qed.

Lemma digit_not_special c v :
  digit_of c = Some v →
  is_space c = false ∧ Ascii.eqb c "+" = false ∧ Ascii.eqb c "-" = false ∧
  Ascii.eqb "-" c = false.
Proof.
  unfold digit_of, is_space. intros H.
  destruct (_ && _) eqn:E; [|discriminate H].
  apply andb_true_iff in E as [E1 E2].
  apply Nat.leb_le in E1, E2.
  repeat split.
  - destruct (nat_of_ascii c =? 32)%nat eqn:A;
      [apply Nat.eqb_eq in A; lia|].
    destruct (nat_of_ascii c <=? 13)%nat eqn:B;
      [apply Nat.leb_le in B; lia|].
    destruct (nat_of_ascii c <=? 31)%nat eqn:C;
      [apply Nat.leb_le in C; lia|].
    rewrite !andb_false_r. reflexivity.
  - apply Ascii.eqb_neq. intros ->. vm_compute in E1. lia.
  - apply Ascii.eqb_neq. intros ->. vm_compute in E1. lia.
  - apply Ascii.eqb_neq. intros <-. vm_compute in E1. lia.
Qed.

Lemma rstrip_digits s : all_digits s = true → rstrip s = s.
Proof.
  induction s as [|c s IH]; cbn [rstrip all_digits]; [reflexivity|].
  destruct (digit_of c) eqn:E; [|discriminate].
  intros Hs. rewrite (IH Hs).
  destruct (digit_not_special c _ E) as (Hsp & _).
  destruct s; [rewrite Hsp|]; reflexivity.
Qed.

Lemma strip_digits s : all_digits s = true → strip s = s.
Proof.
  intros Hs. unfold strip.
  assert (lstrip s = s) as ->.
  { destruct s as [|c s]; [reflexivity|]. cbn [lstrip all_digits] in *.
    destruct (digit_of c) eqn:E; [|discriminate].
    destruct (digit_not_special c _ E) as (-> & _). reflexivity. }
  apply rstrip_digits, Hs.
Qed.

Lemma contains_dash_digits s : all_digits s = true → contains_char "-" s = false.
Proof.
  induction s as [|c s IH]; cbn [contains_char all_digits]; [reflexivity|].
  destruct (digit_of c) eqn:E; [|discriminate].
  destruct (digit_not_special c _ E) as (_ & _ & _ & ->). exact IH.
Qed.

Lemma split_dash_digits s : all_digits s = true → split_char "-" s = [s].
Proof.
  induction s as [|c s IH]; cbn [split_char all_digits]; [reflexivity|].
  destruct (digit_of c) eqn:E; [|discriminate].
  destruct (digit_not_special c _ E) as (_ & _ & _ & ->).
  intros Hs. rewrite (IH Hs). reflexivity.
Qed.

Lemma py_int_of_string_str_of_Z (n : Z) :
  0 <= n → py_int_of_string (str_of_Z n) = Some n.
Proof.
  intros Hn. destruct (str_of_Z_nonneg n Hn) as (Hd & Hne & Hp).
  unfold py_int_of_string. rewrite (strip_digits _ Hd).
  destruct (str_of_Z n) as [|c s] eqn:E; [congruence|].
  cbn [all_digits] in Hd. destruct (digit_of c) eqn:Ec; [|discriminate].
  destruct (digit_not_special c _ Ec) as (_ & -> & -> & _). exact Hp.
Qed.

Lemma contains_dash_joined s1 s2 :
  contains_char "-" (s1 ++ String "-" s2)%string = true.
Proof.
  induction s1 as [|c s1 IH]; [reflexivity|].
  change (contains_char "-" (String c s1 ++ String "-" s2)%string)
    with (Ascii.eqb "-" c || contains_char "-" (s1 ++ String "-" s2)%string).
  rewrite IH. apply orb_true_r.
Qed.

Lemma split_dash_joined s1 s2 :
  all_digits s1 = true →
  split_char "-" (s1 ++ String "-" s2)%string = s1 :: split_char "-" s2.
Proof.
  induction s1 as [|c s1 IH]; [reflexivity|].
  change (split_char "-" (String c s1 ++ String "-" s2)%string)
    with (if Ascii.eqb "-" c
          then EmptyString :: split_char "-" (s1 ++ String "-" s2)%string
          else match split_char "-" (s1 ++ String "-" s2)%string with
               | [] => [String c EmptyString]
               | w :: ws => String c w :: ws
               end).
  cbn [all_digits].
  destruct (digit_of c) eqn:E; [|discriminate].
  destruct (digit_not_special c _ E) as (_ & _ & _ & ->).
  intros Hs. rewrite (IH Hs). reflexivity.
Qed.

End Decimal.

(** X15: a repetition range written by [format_rep_range] is read back
    by [extract_rep_range] when both bounds are natural numbers; a
    negative lower bound is not read back -- the string then starts with
    a dash and the default (8, 12) is returned. *)
Theorem X15_rep_range_round_trip (a b : Z) :
  (0 <= a → 0 <= b →
     Calculations.extract_rep_range (Calculations.format_rep_range a b) = (a, b)) ∧
  (a < 0 →
     Calculations.extract_rep_range (Calculations.format_rep_range a b) = (8, 12)).
Proof.
  unfold Calculations.extract_rep_range, Calculations.format_rep_range. split.
  - intros Ha Hb.
    destruct (str_of_Z_nonneg a Ha) as (Hda & _ & _).
    destruct (str_of_Z_nonneg b Hb) as (Hdb & _ & _).
    change (str_of_Z a ++ "-" ++ str_of_Z b)%string
      with (str_of_Z a ++ String "-" (str_of_Z b))%string.
    rewrite contains_dash_joined, (split_dash_joined _ _ Hda),
      (split_dash_digits _ Hdb).
    rewrite !py_int_of_string_str_of_Z by assumption. reflexivity.
  - intros Ha. destruct a as [|p|p]; try lia.
    set (rest := (NilZero.string_of_uint (Pos.to_uint p) ++ "-" ++
                  str_of_Z b)%string).
    change (str_of_Z (Z.neg p) ++ "-" ++ str_of_Z b)%string
      with (String "-" rest).
    change (contains_char "-" (String "-" rest)) with true.
    change (split_char "-" (String "-" rest))
      with (EmptyString :: split_char "-" rest).
    destruct (split_char "-" rest); reflexivity.
Qed.

Lemma X15_rep_range_round_trip_witness :
  Calculations.extract_rep_range (Calculations.format_rep_range 6 10) = (6, 10) ∧
  Calculations.extract_rep_range (Calculations.format_rep_range (-3) 5) = (8, 12).
Proof.
  split.
  - apply (proj1 (X15_rep_range_round_trip 6 10)); lia.
  - apply (proj2 (X15_rep_range_round_trip (-3) 5)); lia.
Defined.

(** * Body-mass categories and clamping *)

Ltac Qleb_to_prop :=
  repeat match goal with
         | H : Qle_bool _ _ = true |- _ => apply Qle_bool_iff in H
         | H : Qle_bool ?x ?y = false |- _ =>
             assert (¬ (x <= y)%Q)
               by (intros ?Hle; apply Qle_bool_iff in Hle; congruence);
             clear H
         end.

(** X16: [get_imc_category] cuts the body-mass index at 18.5, 25 and 30:
    ['bajo_peso'] on [0, 18.5), ['normal'] on [18.5, 25), ['sobrepeso'] on
    [25, 30), and ['obesidad'] from 30 on -- also above 100, where no
    table entry matches -- and for a negative index.  The display name is
    never ['Desconocido']. *)
Theorem X16_imc_category_cut_points (imc : Q) :
  let category := Calculations.get_imc_category imc in
  (category = "bajo_peso" ↔ (0 <= imc)%Q ∧ (imc < 18.5)%Q) ∧
  (category = "normal" ↔ (18.5 <= imc)%Q ∧ (imc < 25)%Q) ∧
  (category = "sobrepeso" ↔ (25 <= imc)%Q ∧ (imc < 30)%Q) ∧
  (category = "obesidad" ↔ (imc < 0)%Q ∨ (30 <= imc)%Q) ∧
  Calculations.get_imc_display_name imc ≠ "Desconocido".
Proof.
  intros category. subst category.
  unfold Calculations.get_imc_display_name, Calculations.get_imc_category,
    Calculations.IMC_CATEGORIES.
  cbn [List.find fst snd].
  destruct (Qle_bool 0 imc) eqn:E0, (Qle_bool 18.5 imc) eqn:E1,
    (Qle_bool 25 imc) eqn:E2, (Qle_bool 30 imc) eqn:E3,
    (Qle_bool 100 imc) eqn:E4;
    cbn [andb negb fst snd]; Qleb_to_prop;
    (repeat split; try discriminate; intros; try lra;
     try (exfalso; lra); try reflexivity;
     try (match goal with H : _ ∨ _ |- _ => destruct H end; lra);
     try (left; lra); try (right; lra)).
Qed.

(** X17: [clamp_value] returns a value of the interval whenever the
    interval is not empty, returns its argument unchanged when that
    already lies in the interval, and clamping twice is clamping once;
    when the bounds are crossed the result is the lower bound. *)
Theorem X17_clamp_value_range (value min_val max_val : Q) :
  ((min_val <= max_val)%Q →
     (min_val <= Calculations.clamp_value value min_val max_val)%Q ∧
     (Calculations.clamp_value value min_val max_val <= max_val)%Q) ∧
  ((min_val <= value)%Q → (value <= max_val)%Q →
     (Calculations.clamp_value value min_val max_val == value)%Q) ∧
  (Calculations.clamp_value
     (Calculations.clamp_value value min_val max_val) min_val max_val ==
   Calculations.clamp_value value min_val max_val)%Q ∧
  ((max_val < min_val)%Q →
     (Calculations.clamp_value value min_val max_val == min_val)%Q).
Proof.
  unfold Calculations.clamp_value.
  repeat match goal with
         | |- context [Qmin ?a ?b] =>
             let m := fresh "m" in
             pose proof (Q.min_spec a b); generalize dependent (Qmin a b);
             intros m ?
         | |- context [Qmax ?a ?b] =>
             let m := fresh "m" in
             pose proof (Q.max_spec a b); generalize dependent (Qmax a b);
             intros m ?
         end.
  repeat split; intros;
    repeat match goal with
           | H : _ ∨ _ |- _ => destruct H
           | H : _ ∧ _ |- _ => destruct H
           end; lra.
Qed.

Lemma X17_clamp_value_range_witness :
  (Calculations.clamp_value 7 1 5 <= 5)%Q ∧
  (Calculations.clamp_value 3 1 5 == 3)%Q ∧
  (Calculations.clamp_value 3 5 1 == 5)%Q.
Proof.
  split; [|split].
  - apply (proj1 (X17_clamp_value_range 7 1 5)). lra.
  - apply (proj1 (proj2 (X17_clamp_value_range 3 1 5))); lra.
  - apply (proj2 (proj2 (proj2 (X17_clamp_value_range 3 5 1)))). lra.
Defined.

(** * The plan of the week *)

Section WeeklyPlan.

Lemma slice_to_length {A} (n : Z) (l : list A) :
  0 <= n → length (slice_to n l) = Z.to_nat (Z.min n (Z.of_nat (length l))).
Proof.
  intros Hn. unfold slice_to.
  destruct (n <? 0) eqn:E; [lia|]. rewrite length_take. lia.
Qed.

Lemma slice_to_length_le {A} (n : Z) (l : list A) :
  (length (slice_to n l) <= length l)%nat.
Proof.
  unfold slice_to. destruct (n <? 0); rewrite length_take; lia.
Qed.

Lemma slice_to_elem {A} (n : Z) (l : list A) (x : A) :
  x ∈ slice_to n l → x ∈ l.
Proof.
  unfold slice_to. destruct (n <? 0); apply subseteq_take.
Qed.

Lemma decide_groups_day (structure : string) (days : Z) (groups : list string) :
  groups ∈ AIService._decide_groups_per_day structure days →
  groups ≠ [] ∧ "cardio" ∉ groups.
Proof.
  unfold AIService._decide_groups_per_day.
  destruct (String.eqb structure "fullbody");
    [|destruct (String.eqb structure "upper_lower")]; intros Hin.
  - apply elem_of_replicate in Hin as [-> _].
    split; [discriminate|].
    rewrite !elem_of_cons, elem_of_nil. intros H.
    repeat destruct H as [H|H]; try discriminate H; exact H.
  - apply slice_to_elem in Hin.
    rewrite !elem_of_cons, elem_of_nil in Hin.
    repeat destruct Hin as [Hin|Hin]; try contradiction; subst groups;
      (split; [discriminate|]);
      rewrite !elem_of_cons, elem_of_nil; intros H;
      repeat destruct H as [H|H]; try discriminate H; exact H.
  - apply slice_to_elem in Hin.
    rewrite !elem_of_cons, elem_of_nil in Hin.
    repeat destruct Hin as [Hin|Hin]; try contradiction; subst groups;
      (split; [discriminate|]);
      rewrite !elem_of_cons, elem_of_nil; intros H;
      repeat destruct H as [H|H]; try discriminate H; exact H.
Qed.

Lemma decide_groups_length (structure : string) (days : Z) :
  0 <= days →
  Z.of_nat (length (AIService._decide_groups_per_day structure days)) <= days.
Proof.
  intros Hd. unfold AIService._decide_groups_per_day.
  destruct (String.eqb structure "fullbody");
    [|destruct (String.eqb structure "upper_lower")].
  - rewrite length_replicate. lia.
  - rewrite slice_to_length by exact Hd. lia.
  - rewrite slice_to_length by exact Hd. lia.
Qed.

Lemma decide_structure_plan_length (days : Z) :
  0 <= days →
  length (AIService._decide_groups_per_day (AIService._decide_structure days) days) =
  Z.to_nat (Z.min days 6).
Proof.
  intros Hd. unfold AIService._decide_structure.
  destruct (days <=? 3) eqn:E3; [|destruct (days =? 4) eqn:E4].
  - change (AIService._decide_groups_per_day "fullbody" days)
      with (replicate (Z.to_nat days)
              ["pecho"; "espalda"; "piernas"; "hombros"; "brazos"]%string).
    rewrite length_replicate. lia.
  - change (AIService._decide_groups_per_day "upper_lower" days)
      with (slice_to days
              [["pecho"; "espalda"; "hombros"; "brazos"];
               ["piernas"; "core"];
               ["pecho"; "espalda"; "brazos"];
               ["piernas"; "hombros"; "core"]]%string).
    rewrite slice_to_length by exact Hd. cbn [length]. lia.
  - change (AIService._decide_groups_per_day "split" days)
      with (slice_to days
              [["pecho"; "brazos"]; ["espalda"]; ["piernas"];
               ["hombros"; "brazos"]; ["pecho"; "espalda"];
               ["piernas"; "core"]]%string).
    rewrite slice_to_length by exact Hd. cbn [length]. lia.
Qed.

Lemma decide_structure_accepted (days : Z) (perfil : Profile.t)
    (rutina : list (string * list Exercise.t)) (metadatos : dict)
    (id : option string) (fresh fecha : string) :
  rutina ≠ [] →
  ∃ r, Routine.new perfil rutina (AIService._decide_structure days)
         metadatos id fresh fecha = inr r ∧
       Routine.rutina_semanal r = rutina ∧
       Routine.estructura r = AIService._decide_structure days.
Proof.
  intros Hne. unfold AIService._decide_structure.
  destruct rutina as [|d rutina]; [contradiction|].
  destruct (days <=? 3); [|destruct (days =? 4)];
    eexists; (split; [reflexivity|split; reflexivity]).
Qed.

End WeeklyPlan.

(** X18: the week [_decide_structure] and [_decide_groups_per_day] plan
    for a number of training days has as many days as asked for, up to
    six: a profile with seven training days gets a six-day plan, and
    within the validated range 2..7 that is the only shortfall.  Whatever
    the structure (the learned mode passes a stored one), the plan never
    has more days than asked for, the 'upper_lower' plan never more than
    four, every day names at least one group and never 'cardio'; and the
    structure decided is one the [Routine] constructor accepts. *)
Theorem X18_weekly_plan_days (days : Z) :
  let structure := AIService._decide_structure days in
  let plan := AIService._decide_groups_per_day structure days in
  (0 <= days → length plan = Z.to_nat (Z.min days 6)) ∧
  (ValidationConfig.DAYS_MIN <= days <= ValidationConfig.DAYS_MAX →
     (Z.of_nat (length plan) < days ↔ days = 7)) ∧
  (∀ stored, 0 <= days →
     Z.of_nat (length (AIService._decide_groups_per_day stored days)) <= days) ∧
  (length (AIService._decide_groups_per_day "upper_lower" days) <= 4)%nat ∧
  (∀ stored groups,
     groups ∈ AIService._decide_groups_per_day stored days →
     groups ≠ [] ∧ "cardio" ∉ groups) ∧
  (∀ perfil rutina metadatos id fresh fecha,
     rutina ≠ [] →
     ∃ r, Routine.new perfil rutina structure metadatos id fresh fecha = inr r ∧
          Routine.rutina_semanal r = rutina ∧
          Routine.estructura r = structure).
Proof.
  intros structure plan. subst structure plan.
  split; [|split; [|split; [|split; [|split]]]].
  - apply decide_structure_plan_length.
  - unfold ValidationConfig.DAYS_MIN, ValidationConfig.DAYS_MAX. intros Hd.
    rewrite decide_structure_plan_length by lia. lia.
  - intros stored. apply decide_groups_length.
  - apply (slice_to_length_le days
             [["pecho"; "espalda"; "hombros"; "brazos"];
              ["piernas"; "core"];
              ["pecho"; "espalda"; "brazos"];
              ["piernas"; "hombros"; "core"]]%string).
  - intros stored groups. apply decide_groups_day.
  - intros. apply decide_structure_accepted. assumption.
Qed.

Lemma X18_weekly_plan_days_witness :
  length (AIService._decide_groups_per_day (AIService._decide_structure 7) 7) =
    6%nat ∧
  (Z.of_nat (length (AIService._decide_groups_per_day
                       (AIService._decide_structure 5) 5)) < 5 ↔ 5 = 7).
Proof.
  split.
  - apply (proj1 (X18_weekly_plan_days 7)). lia.
  - apply (proj1 (proj2 (X18_weekly_plan_days 5))).
    unfold ValidationConfig.DAYS_MIN, ValidationConfig.DAYS_MAX. lia.
Defined.

(** * Exercises through their dictionaries *)

Section ExerciseRoundTrip.

Lemma truthy_str_idem (o : option string) :
  truthy_str (truthy_str o) = truthy_str o.
Proof. destruct o as [[|]|]; reflexivity. Qed.

Lemma falsy_str_truthy (o : option string) :
  Exercise.falsy_str (truthy_str o) = Exercise.falsy_str o.
Proof. unfold Exercise.falsy_str. rewrite truthy_str_idem. reflexivity. Qed.

Lemma truthy_str_not_falsy (o : option string) :
  Exercise.falsy_str o = false → truthy_str o = o.
Proof. destruct o as [[|]|]; [discriminate|reflexivity|discriminate]. Qed.

Lemma exercise_new_inr (ejercicio grupo : string) (series : option Z)
    (repeticiones descanso duracion intensidad notas : option string)
    (e : Exercise.t) :
  Exercise.new ejercicio grupo series repeticiones descanso duracion
    intensidad notas = inr e →
  e = Exercise.mk ejercicio grupo series repeticiones descanso duracion
        intensidad notas ∧
  (String.eqb ejercicio "" || String.eqb (strip ejercicio) "" = false) ∧
  (String.eqb grupo "" || String.eqb (strip grupo) "" = false) ∧
  (if Exercise.is_cardio e
   then Exercise.falsy_str duracion = false ∧
        Exercise.falsy_str intensidad = false
   else is_Some series ∧ Exercise.falsy_str repeticiones = false ∧
        Exercise.falsy_str descanso = false).
Proof.
  unfold Exercise.new.
  destruct (String.eqb ejercicio "" || String.eqb (strip ejercicio) "") eqn:E1;
    [discriminate|].
  destruct (String.eqb grupo "" || String.eqb (strip grupo) "") eqn:E2;
    [discriminate|].
  destruct (Exercise.is_cardio _) eqn:Ec.
  - destruct (Exercise.falsy_str duracion) eqn:Ed; [discriminate|].
    destruct (Exercise.falsy_str intensidad) eqn:Ei; [discriminate|].
    intros [= <-]. rewrite Ec. auto.
  - destruct series as [s|]; [|discriminate].
    destruct (Exercise.falsy_str repeticiones) eqn:Er; [discriminate|].
    destruct (Exercise.falsy_str descanso) eqn:Ed; [discriminate|].
    intros [= <-]. rewrite Ec. split; [reflexivity|].
    split; [reflexivity|]. split; [reflexivity|]. split; [eexists; reflexivity|].
    auto.
Qed.

End ExerciseRoundTrip.

(** X19: an exercise the constructor accepted survives [to_dict] followed
    by [from_dict]: the rebuilt exercise is accepted too, it is the
    original with each empty optional text replaced by [None], it gives
    the same dictionary again, compares equal to the original, is cardio
    exactly when the original is, and keeps the fields its kind requires
    (duration and intensity of a cardio exercise; series, repetitions and
    rest of a strength exercise) unchanged. *)
Theorem X19_exercise_dict_round_trip (ejercicio grupo : string)
    (series : option Z)
    (repeticiones descanso duracion intensidad notas : option string)
    (e : Exercise.t) :
  Exercise.new ejercicio grupo series repeticiones descanso duracion
    intensidad notas = inr e →
  let e' :=
    Exercise.mk (Exercise.ejercicio e) (Exercise.grupo e) (Exercise.series e)
      (truthy_str (Exercise.repeticiones e)) (truthy_str (Exercise.descanso e))
      (truthy_str (Exercise.duracion e)) (truthy_str (Exercise.intensidad e))
      (truthy_str (Exercise.notas e)) in
  Exercise.from_dict (Exercise.to_dict e) = inr e' ∧
  Exercise.to_dict e' = Exercise.to_dict e ∧
  Exercise.eq e' e = true ∧
  Exercise.is_cardio e' = Exercise.is_cardio e ∧
  (if Exercise.is_cardio e
   then Exercise.duracion e' = Exercise.duracion e ∧
        Exercise.intensidad e' = Exercise.intensidad e
   else Exercise.repeticiones e' = Exercise.repeticiones e ∧
        Exercise.descanso e' = Exercise.descanso e).
Proof.
  intros Hnew e'.
  destruct (exercise_new_inr _ _ _ _ _ _ _ _ _ Hnew) as (-> & E1 & E2 & Hk).
  subst e'. cbn [Exercise.ejercicio Exercise.grupo Exercise.series
                 Exercise.repeticiones Exercise.descanso Exercise.duracion
                 Exercise.intensidad Exercise.notas] in *.
  split; [|split; [|split; [|split]]].
  - unfold Exercise.from_dict, Exercise.to_dict, Exercise.new.
    cbn [d_ejercicio d_grupo d_series d_repeticiones d_descanso d_duracion
         d_intensidad d_notas Exercise.ejercicio Exercise.grupo Exercise.series
         Exercise.repeticiones Exercise.descanso Exercise.duracion
         Exercise.intensidad Exercise.notas].
    rewrite E1, E2.
    unfold Exercise.is_cardio in *. cbn [Exercise.grupo] in *.
    destruct (String.eqb (lower grupo) "cardio").
    + destruct Hk as [Hd Hi]. rewrite !falsy_str_truthy, Hd, Hi. reflexivity.
    + destruct Hk as ([s ->] & Hr & Hd).
      rewrite !falsy_str_truthy, Hr, Hd. reflexivity.
  - unfold Exercise.to_dict.
    cbn [Exercise.ejercicio Exercise.grupo Exercise.series
         Exercise.repeticiones Exercise.descanso Exercise.duracion
         Exercise.intensidad Exercise.notas].
    rewrite !truthy_str_idem. reflexivity.
  - unfold Exercise.eq. cbn [Exercise.ejercicio Exercise.grupo].
    rewrite !String.eqb_refl. reflexivity.
  - reflexivity.
  - unfold Exercise.is_cardio in *. cbn [Exercise.grupo] in *.
    destruct (String.eqb (lower grupo) "cardio").
    + destruct Hk as [Hd Hi].
      split; apply truthy_str_not_falsy; assumption.
    + destruct Hk as (_ & Hr & Hd).
      split; apply truthy_str_not_falsy; assumption.
Qed.

Lemma X19_exercise_dict_round_trip_witness :
  Exercise.from_dict
    (Exercise.to_dict
       (Exercise.mk "Press banca" "pecho" (Some 4) (Some "8-12") (Some "60s")
          (Some "") None (Some ""))) =
  inr (Exercise.mk "Press banca" "pecho" (Some 4) (Some "8-12") (Some "60s")
         None None None).
Proof.
  apply (X19_exercise_dict_round_trip "Press banca" "pecho" (Some 4)
           (Some "8-12") (Some "60s") (Some "") None (Some "")
           (Exercise.mk "Press banca" "pecho" (Some 4) (Some "8-12")
              (Some "60s") (Some "") None (Some ""))).
  vm_compute. reflexivity.
Defined.

(** * Measures of a routine *)

Section RoutineMeasures.

Lemma size_union_singleton_le (X : gset string) (x : string) :
  (size (X ∪ {[x]}) <= size X + 1)%nat.
Proof.
  rewrite size_union_alt.
  assert (size (({[x]} : gset string) ∖ X) <= 1)%nat; [|lia].
  rewrite <- (size_singleton (C := gset string) x).
  apply subseteq_size. intros y Hy.
  apply elem_of_difference in Hy as [Hy _]. exact Hy.
Qed.

Lemma day_groups_elem (g : string) (l : list Exercise.t) (acc : gset string) :
  g ∈ foldl (fun groups exercise =>
               if negb (String.eqb (Exercise.grupo exercise) "cardio")
               then groups ∪ {[Exercise.grupo exercise]}
               else groups) acc l ↔
  g ∈ acc ∨ ∃ ex, ex ∈ l ∧ Exercise.grupo ex = g ∧ g ≠ "cardio".
Proof.
  revert acc. induction l as [|x l IH]; intros acc; cbn [foldl].
  - split; [auto|]. intros [H|(ex & H & _)]; [exact H|].
    apply elem_of_nil in H. contradiction.
  - rewrite IH. destruct (String.eqb (Exercise.grupo x) "cardio") eqn:E;
      cbn [negb].
    + apply String.eqb_eq in E. split.
      * intros [H|(ex & Hin & Hg & Hne)]; [auto|].
        right. exists ex. rewrite elem_of_cons. auto.
      * intros [H|(ex & Hin & Hg & Hne)]; [auto|].
        apply elem_of_cons in Hin as [->|Hin]; [congruence|].
        right. exists ex. auto.
    + apply String.eqb_neq in E. rewrite elem_of_union, elem_of_singleton.
      split.
      * intros [[H| ->]|(ex & Hin & Hg & Hne)]; [auto| |].
        -- right. exists x. rewrite elem_of_cons. auto.
        -- right. exists ex. rewrite elem_of_cons. auto.
      * intros [H|(ex & Hin & Hg & Hne)]; [auto|].
        apply elem_of_cons in Hin as [->|Hin]; [auto|].
        right. exists ex. auto.
Qed.

Lemma week_groups_elem (g : string) (days : list (string * list Exercise.t))
    (acc : gset string) :
  g ∈ foldl (fun groups day =>
               foldl (fun groups exercise =>
                        if negb (String.eqb (Exercise.grupo exercise) "cardio")
                        then groups ∪ {[Exercise.grupo exercise]}
                        else groups)
                     groups day.2) acc days ↔
  g ∈ acc ∨
  ∃ day ex, day ∈ days ∧ ex ∈ day.2 ∧ Exercise.grupo ex = g ∧ g ≠ "cardio".
Proof.
  revert acc. induction days as [|d days IH]; intros acc; cbn [foldl].
  - split; [auto|]. intros [H|(day & ex & H & _)]; [exact H|].
    apply elem_of_nil in H. contradiction.
  - rewrite IH, day_groups_elem. split.
    + intros [[H|(ex & Hin & Hg)]|(day & ex & Hd & Hrest)]; [auto| |].
      * right. exists d, ex. rewrite elem_of_cons. auto.
      * right. exists day, ex. rewrite elem_of_cons. auto.
    + intros [H|(day & ex & Hd & Hin & Hg)]; [auto|].
      apply elem_of_cons in Hd as [->|Hd].
      * left. right. exists ex. auto.
      * right. exists day, ex. auto.
Qed.

Lemma day_groups_size (l : list Exercise.t) (acc : gset string) :
  (size (foldl (fun groups exercise =>
                  if negb (String.eqb (Exercise.grupo exercise) "cardio")
                  then groups ∪ {[Exercise.grupo exercise]}
                  else groups) acc l) <= size acc + length l)%nat.
Proof.
  revert acc. induction l as [|x l IH]; intros acc; cbn [foldl length]; [lia|].
  etransitivity; [apply IH|].
  destruct (negb _); [|lia].
  pose proof (size_union_singleton_le acc (Exercise.grupo x)). lia.
Qed.

Lemma week_groups_size (days : list (string * list Exercise.t))
    (acc : gset string) :
  (size (foldl (fun groups day =>
                  foldl (fun groups exercise =>
                           if negb (String.eqb (Exercise.grupo exercise) "cardio")
                           then groups ∪ {[Exercise.grupo exercise]}
                           else groups)
                        groups day.2) acc days) <=
   size acc + foldr (fun day n => (length day.2 + n)%nat) 0%nat days)%nat.
Proof.
  revert acc. induction days as [|d days IH]; intros acc; cbn [foldl foldr];
    [lia|].
  etransitivity; [apply IH|].
  pose proof (day_groups_size d.2 acc). lia.
Qed.

Lemma cardio_frequency_acc (days : list (string * list Exercise.t)) (c : Z) :
  foldl (fun count day =>
           if existsb Exercise.is_cardio day.2 then count + 1 else count)
        c days =
  c + foldl (fun count day =>
               if existsb Exercise.is_cardio day.2 then count + 1 else count)
            0 days.
Proof.
  revert c. induction days as [|d days IH]; intros c; cbn [foldl]; [lia|].
  rewrite IH. rewrite (IH (if existsb _ _ then 0 + 1 else 0)).
  destruct (existsb _ _); lia.
Qed.

Lemma cardio_frequency_range (days : list (string * list Exercise.t)) :
  0 <= foldl (fun count day =>
                if existsb Exercise.is_cardio day.2 then count + 1 else count)
             0 days <= Z.of_nat (length days) ∧
  (existsb (fun day => existsb Exercise.is_cardio day.2) days = true ↔
   1 <= foldl (fun count day =>
                if existsb Exercise.is_cardio day.2 then count + 1 else count)
              0 days).
Proof.
  induction days as [|d days [IH1 IH2]]; cbn [foldl existsb length].
  - split; [lia|]. split; [discriminate|lia].
  - rewrite cardio_frequency_acc.
    destruct (existsb Exercise.is_cardio d.2); cbn [orb].
    + split; [lia|]. split; [lia|reflexivity].
    + split; [lia|]. rewrite IH2. lia.
Qed.

Lemma exercises_per_day_nonneg (r : Routine.t) :
  (0 <= Routine.get_exercises_per_day r)%R.
Proof.
  unfold Routine.get_exercises_per_day.
  destruct (Routine.get_total_days r =? 0)%nat eqn:E; [lra|].
  apply Nat.eqb_neq in E. unfold Rdiv.
  apply Rmult_le_pos; [apply pos_INR|].
  left. apply Rinv_0_lt_compat. apply lt_0_INR. lia.
Qed.

Lemma has_cardio_elem (days : list (string * list Exercise.t)) :
  existsb (fun day => existsb Exercise.is_cardio day.2) days = true ↔
  ∃ day ex, day ∈ days ∧ ex ∈ day.2 ∧ Exercise.is_cardio ex = true.
Proof.
  rewrite existsb_exists. split.
  - intros (day & Hd & Hex). apply existsb_exists in Hex as (ex & Hin & Hc).
    exists day, ex. split; [apply list_elem_of_In; exact Hd|].
    split; [apply list_elem_of_In; exact Hin|exact Hc].
  - intros (day & ex & Hd & Hin & Hc). exists day.
    rewrite existsb_exists. apply list_elem_of_In in Hd.
    apply list_elem_of_In in Hin.
    split; [exact Hd|]. exists ex. auto.
Qed.

End RoutineMeasures.

(** X20: the measures of a routine.  [get_muscle_groups_worked] holds
    exactly the groups, other than the literal 'cardio', of the exercises
    of the plan, so never more groups than exercises; [has_cardio] holds
    exactly when some exercise is cardio by [is_cardio], which ignores
    case -- an exercise of group 'Cardio' is both cardio and a muscle
    group; [get_cardio_frequency] lies between 0 and the number of days
    and is at least 1 exactly when [has_cardio]; [get_complexity_score]
    lies in [0, 1] and is at least 0.2 for a routine with cardio. *)
Theorem X20_routine_measures (r : Routine.t) :
  (∀ g, g ∈ Routine.get_muscle_groups_worked r ↔
        ∃ day ex, day ∈ Routine.rutina_semanal r ∧ ex ∈ day.2 ∧
                  Exercise.grupo ex = g ∧ g ≠ "cardio") ∧
  (size (Routine.get_muscle_groups_worked r) <=
     Routine.get_total_exercises r)%nat ∧
  (Routine.has_cardio r = true ↔
     ∃ day ex, day ∈ Routine.rutina_semanal r ∧ ex ∈ day.2 ∧
               lower (Exercise.grupo ex) = "cardio") ∧
  0 <= Routine.get_cardio_frequency r <= Z.of_nat (Routine.get_total_days r) ∧
  (Routine.has_cardio r = true ↔ 1 <= Routine.get_cardio_frequency r) ∧
  (0 <= Routine.get_complexity_score r <= 1)%R ∧
  (Routine.has_cardio r = true → (0.2 <= Routine.get_complexity_score r)%R).
Proof.
  pose proof (cardio_frequency_range (Routine.rutina_semanal r)) as [Hf Hc].
  pose proof (exercises_per_day_nonneg r) as Hpd.
  pose proof (pos_INR (size (Routine.get_muscle_groups_worked r))) as Hg.
  split; [|split; [|split; [|split; [|split; [|split]]]]].
  - intros g. unfold Routine.get_muscle_groups_worked.
    rewrite week_groups_elem. split; [|auto].
    intros [H|H]; [|exact H]. apply elem_of_empty in H. contradiction.
  - unfold Routine.get_muscle_groups_worked, Routine.get_total_exercises.
    pose proof (week_groups_size (Routine.rutina_semanal r) ∅) as H.
    rewrite size_empty in H. exact H.
  - unfold Routine.has_cardio. rewrite has_cardio_elem.
    unfold Exercise.is_cardio.
    split; intros (day & ex & Hd & Hin & Hcardio); exists day, ex;
      (split; [exact Hd|split; [exact Hin|]]).
    + apply String.eqb_eq. exact Hcardio.
    + apply String.eqb_eq. exact Hcardio.
  - exact Hf.
  - exact Hc.
  - unfold Routine.get_complexity_score.
    destruct (Routine.has_cardio r); unfold Rmin;
      destruct (Rle_dec _ _); lra.
  - intros Hcardio. unfold Routine.get_complexity_score.
    rewrite Hcardio. unfold Rmin. destruct (Rle_dec _ _); lra.
Qed.

Lemma X20_routine_measures_witness :
  (0.2 <= Routine.get_complexity_score
            (Routine.mk sample_profile
               [("Día 1", [Exercise.create_cardio_exercise "Correr" "20 min"
                             "moderada"])]
               "fullbody" ∅ None "" None None))%R.
Proof.
  apply (proj2 (proj2 (proj2 (proj2 (proj2 (proj2
           (X20_routine_measures
              (Routine.mk sample_profile
                 [("Día 1", [Exercise.create_cardio_exercise "Correr" "20 min"
                               "moderada"])]
                 "fullbody" ∅ None "" None None)))))))).
  reflexivity.
Defined.

(** * Quality of a generated routine *)

Section Quality.

Lemma few_series_problems_nil (days : list (string * list Exercise.t)) :
  AIService.few_series_problems days = [] ↔
  ∀ day ex, day ∈ days → ex ∈ day.2 → Exercise.is_cardio ex = false →
            ∃ s, Exercise.series ex = Some s ∧ 2 <= s.
Proof.
  unfold AIService.few_series_problems.
  induction days as [|d days IH]; cbn [map concat].
  - split; [|reflexivity]. intros _ day ex H. apply elem_of_nil in H.
    contradiction.
  - split.
    + intros H. apply app_eq_nil in H as [Hd Hrest].
      intros day ex Hday Hex Hc. apply elem_of_cons in Hday as [->|Hday].
      * clear IH Hrest. induction (d.2) as [|x l IHl].
        -- apply elem_of_nil in Hex. contradiction.
        -- cbn [omap list_omap] in Hd.
           destruct (negb (Exercise.is_cardio x) && _) eqn:E;
             [discriminate|].
           apply elem_of_cons in Hex as [->|Hex]; [|apply IHl; assumption].
           rewrite Hc in E. cbn [negb andb] in E.
           destruct (Exercise.series x) as [s|]; [|discriminate].
           exists s. split; [reflexivity|]. apply Z.ltb_ge. exact E.
      * apply (proj1 IH Hrest day ex Hday Hex Hc).
    + intros H. apply app_nil. split.
      * assert (Hd : ∀ ex, ex ∈ d.2 → Exercise.is_cardio ex = false →
                           ∃ s, Exercise.series ex = Some s ∧ 2 <= s).
        { intros ex Hex. apply (H d ex); [left|exact Hex]. }
        clear H IH. induction (d.2) as [|x l IHl]; [reflexivity|].
        cbn [omap list_omap].
        destruct (Exercise.is_cardio x) eqn:Ec; cbn [negb andb].
        -- apply IHl. intros ex Hex. apply Hd. right. exact Hex.
        -- destruct (Hd x ltac:(left) Ec) as (s & -> & Hs).
           apply Z.ltb_ge in Hs. rewrite Hs.
           apply IHl. intros ex Hex. apply Hd. right. exact Hex.
      * apply IH. intros day ex Hday. apply H. right. exact Hday.
Qed.

Lemma few_series_problems_empty_plan (days : list (string * list Exercise.t)) :
  foldr (fun day n => (length day.2 + n)%nat) 0%nat days = 0%nat →
  AIService.few_series_problems days = [].
Proof.
  intros H. apply few_series_problems_nil. intros day ex Hday Hex _.
  exfalso. induction days as [|d days IH].
  - apply elem_of_nil in Hday. contradiction.
  - cbn [foldr] in H. apply elem_of_cons in Hday as [->|Hday].
    + destruct (d.2); [apply elem_of_nil in Hex; contradiction|].
      cbn [length] in H. lia.
    + apply IH; [lia|exact Hday].
Qed.

Lemma missing_major_empty (groups : gset string) :
  ({["pecho"; "espalda"; "piernas"]} : gset string) ∖ groups = ∅ ↔
  "pecho" ∈ groups ∧ "espalda" ∈ groups ∧ "piernas" ∈ groups.
Proof.
  split.
  - intros H.
    assert (∀ g, g ∈ ({["pecho"; "espalda"; "piernas"]} : gset string) →
                 g ∈ groups) as Hall.
    { intros g Hg. destruct (decide (g ∈ groups)) as [Hin|Hout]; [exact Hin|].
      exfalso. apply (not_elem_of_empty (C := gset string) g).
      rewrite <- H. apply elem_of_difference. auto. }
    split; [|split]; apply Hall; set_solver.
  - intros (H1 & H2 & H3). apply leibniz_equiv. apply elem_of_equiv_empty.
    intros g Hg. apply elem_of_difference in Hg as [Hg Hout].
    rewrite !elem_of_union, !elem_of_singleton in Hg.
    destruct Hg as [[->| ->]| ->]; contradiction.
Qed.

Lemma exercises_per_day_bounds (r : Routine.t) :
  (3 <= Routine.get_exercises_per_day r <= 8)%R ↔
  (1 <= Routine.get_total_days r ∧
   3 * Routine.get_total_days r <= Routine.get_total_exercises r ∧
   Routine.get_total_exercises r <= 8 * Routine.get_total_days r)%nat.
Proof.
  unfold Routine.get_exercises_per_day.
  destruct (Routine.get_total_days r =? 0)%nat eqn:E.
  - apply Nat.eqb_eq in E. split; [lra|lia].
  - apply Nat.eqb_neq in E.
    assert (0 < INR (Routine.get_total_days r))%R as Hpos
      by (apply lt_0_INR; lia).
    set (d := Routine.get_total_days r) in *.
    set (t := Routine.get_total_exercises r) in *.
    assert (INR t / INR d * INR d = INR t)%R as Hmul by (field; lra).
    split.
    + intros [H3 H8].
      assert (3 * INR d <= INR t)%R as H3' by nra.
      assert (INR t <= 8 * INR d)%R as H8' by nra.
      split; [lia|]. split; apply INR_le.
      * rewrite mult_INR. replace (INR 3) with 3%R by (simpl; lra). exact H3'.
      * rewrite mult_INR. replace (INR 8) with 8%R by (simpl; lra). exact H8'.
    + intros (_ & H3 & H8).
      apply le_INR in H3, H8. rewrite mult_INR in H3, H8.
      replace (INR 3) with 3%R in H3 by (simpl; lra).
      replace (INR 8) with 8%R in H8 by (simpl; lra).
      split.
      * apply (Rmult_le_reg_r (INR d)); [exact Hpos|]. rewrite Hmul. exact H3.
      * apply (Rmult_le_reg_r (INR d)); [exact Hpos|]. rewrite Hmul. exact H8.
Qed.

End Quality.

(** X21: [validate_routine_quality] accepts a routine exactly when its
    list of problems is empty, and that is exactly when the routine works
    chest, back and legs, has between 3 and 8 exercises per day on
    average -- so at least one day -- and every exercise that is not
    cardio has two series or more.  The order in which the missing groups
    are named plays no part in the verdict.  A routine without exercises
    is never reported with the single message meant for it: it always
    draws exactly three. *)
Theorem X21_routine_quality_verdict (order : gset string → list string)
    (r : Routine.t) :
  let result := AIService.validate_routine_quality order r in
  (result.1 = true ↔ result.2 = []) ∧
  (result.1 = true ↔
     ("pecho" ∈ Routine.get_muscle_groups_worked r ∧
      "espalda" ∈ Routine.get_muscle_groups_worked r ∧
      "piernas" ∈ Routine.get_muscle_groups_worked r) ∧
     (1 <= Routine.get_total_days r ∧
      3 * Routine.get_total_days r <= Routine.get_total_exercises r ∧
      Routine.get_total_exercises r <= 8 * Routine.get_total_days r)%nat ∧
     (∀ day ex, day ∈ Routine.rutina_semanal r → ex ∈ day.2 →
                Exercise.is_cardio ex = false →
                ∃ s, Exercise.series ex = Some s ∧ 2 <= s)) ∧
  (Routine.get_total_exercises r = 0%nat → length result.2 = 3%nat).
Proof.
  intros result. subst result.
  pose proof (missing_major_empty (Routine.get_muscle_groups_worked r)) as Hm.
  pose proof (exercises_per_day_bounds r) as Hb.
  pose proof (few_series_problems_nil (Routine.rutina_semanal r)) as Hf.
  pose proof (few_series_problems_empty_plan (Routine.rutina_semanal r)) as He.
  fold (Routine.get_total_exercises r) in He.
  unfold AIService.validate_routine_quality. cbn [fst snd].
  assert (Hzero : Routine.get_total_exercises r = 0%nat →
                  (Routine.get_exercises_per_day r < 3)%R ∧
                  "pecho" ∉ Routine.get_muscle_groups_worked r).
  { intros H0. split.
    - destruct (Rlt_dec (Routine.get_exercises_per_day r) 3) as [Hlt|Hge];
        [exact Hlt|].
      exfalso. assert (3 <= Routine.get_exercises_per_day r)%R as H3 by lra.
      unfold Routine.get_exercises_per_day in H3.
      destruct (Routine.get_total_days r =? 0)%nat; [lra|].
      rewrite H0 in H3. unfold Rdiv in H3. cbn [INR] in H3. lra.
    - intros Hin.
      pose proof (week_groups_size (Routine.rutina_semanal r) ∅) as Hs.
      fold (Routine.get_total_exercises r) in Hs.
      fold (Routine.get_muscle_groups_worked r) in Hs.
      rewrite size_empty, H0 in Hs.
      assert (size (Routine.get_muscle_groups_worked r) = 0%nat) as Hs0 by lia.
      apply size_empty_inv in Hs0. apply leibniz_equiv in Hs0.
      rewrite Hs0 in Hin. apply elem_of_empty in Hin. exact Hin. }
  destruct (Routine.get_total_exercises r =? 0)%nat eqn:E0.
  - apply Nat.eqb_eq in E0. destruct (Hzero E0) as [Hlt Hnot].
    rewrite bool_decide_true by (intros Hmt; apply Hm in Hmt; tauto).
    unfold Rltb. destruct (Rlt_dec _ 3) as [_|Hn]; [|contradiction].
    rewrite (He E0). cbn [app length Nat.eqb].
    split; [split; discriminate|]. split; [|reflexivity].
    split; [discriminate|]. intros ((Hp & _) & _). contradiction.
  - apply Nat.eqb_neq in E0. split; [|split; [|intros H0; contradiction]].
    + destruct (bool_decide _); unfold Rltb;
        destruct (Rlt_dec _ 3); try destruct (Rlt_dec 8 _);
        cbn [app length Nat.eqb];
        try (split; discriminate);
        destruct (AIService.few_series_problems _);
        cbn [length Nat.eqb]; split; congruence.
    + rewrite <- Hb, <- Hf, <- Hm.
      destruct (bool_decide_reflect
                  (({["pecho"; "espalda"; "piernas"]} : gset string) ∖
                     Routine.get_muscle_groups_worked r ≠ ∅)) as [Hne|Heq].
      * unfold Rltb.
        destruct (Rlt_dec _ 3); try destruct (Rlt_dec 8 _);
          cbn [app length Nat.eqb];
          (split; [discriminate|intros (Hmt & _); contradiction]).
      * assert (({["pecho"; "espalda"; "piernas"]} : gset string) ∖
                  Routine.get_muscle_groups_worked r = ∅) as Hmt.
        { destruct (decide (({["pecho"; "espalda"; "piernas"]} : gset string) ∖
                              Routine.get_muscle_groups_worked r = ∅));
            [assumption|contradiction]. }
        unfold Rltb.
        destruct (Rlt_dec _ 3) as [H3|H3]; [|destruct (Rlt_dec 8 _) as [H8|H8]];
          cbn [app length Nat.eqb].
        -- split; [discriminate|]. intros (_ & [Hge _] & _). lra.
        -- split; [discriminate|]. intros (_ & [_ Hle] & _). lra.
        -- destruct (AIService.few_series_problems _) eqn:Ef;
             cbn [length Nat.eqb].
           ++ split; [|reflexivity]. intros _.
              split; [exact Hmt|]. split; [lra|reflexivity].
           ++ split; [discriminate|]. intros (_ & _ & Hnil). discriminate.
Qed.

Lemma X21_routine_quality_verdict_witness :
  length (AIService.validate_routine_quality elements
            (Routine.mk sample_profile [("Día 1", [])] "fullbody" ∅
               None "" None None)).2 = 3%nat.
Proof.
  apply (proj2 (proj2 (X21_routine_quality_verdict elements
                         (Routine.mk sample_profile [("Día 1", [])] "fullbody"
                            ∅ None "" None None)))).
  reflexivity.
Defined.

(** * Inferred parameters applied to a plan *)

Section AppliedParameters.

Variables (series reps_min reps_max : Z) (rest : string).

Lemma apply_to_exercise_cardio (ex : Exercise.t) :
  Exercise.is_cardio ex = true →
  AIService.apply_to_exercise series reps_min reps_max rest ex = ex.
Proof. intros H. unfold AIService.apply_to_exercise. rewrite H. reflexivity. Qed.

Lemma apply_to_exercise_strength (ex : Exercise.t) :
  Exercise.is_cardio ex = false →
  AIService.apply_to_exercise series reps_min reps_max rest ex =
    Exercise.mk (Exercise.ejercicio ex) (Exercise.grupo ex) (Some series)
      (Some (Calculations.format_rep_range reps_min reps_max)) (Some rest)
      (Exercise.duracion ex) (Exercise.intensidad ex) (Exercise.notas ex).
Proof. intros H. unfold AIService.apply_to_exercise. rewrite H. reflexivity. Qed.

Lemma apply_to_exercise_kind (ex : Exercise.t) :
  Exercise.is_cardio
    (AIService.apply_to_exercise series reps_min reps_max rest ex) =
  Exercise.is_cardio ex.
Proof.
  destruct (Exercise.is_cardio ex) eqn:E.
  - rewrite apply_to_exercise_cardio by exact E. exact E.
  - rewrite apply_to_exercise_strength by exact E. exact E.
Qed.

Lemma stored_applied (rutina : list (string * list Exercise.t)) :
  concat (map snd
            (map (fun day : string * list Exercise.t =>
                    (day.1, map Exercise.to_dict day.2))
                 (AIService._apply_optimal_parameters rutina series reps_min
                    reps_max rest))) =
  map (fun ex => Exercise.to_dict
                   (AIService.apply_to_exercise series reps_min reps_max rest ex))
      (concat (map snd rutina)).
Proof.
  unfold AIService._apply_optimal_parameters.
  induction rutina as [|d rutina IH]; [reflexivity|].
  cbn [map concat snd]. rewrite IH, map_app, map_map. reflexivity.
Qed.

Hypothesis Hmin : 0 <= reps_min.
Hypothesis Hmax : 0 <= reps_max.

Lemma reps_midpoint_format :
  InferenceService.reps_midpoint
    (Calculations.format_rep_range reps_min reps_max) =
  Some (inject_Z (reps_min + reps_max) / 2)%Q.
Proof.
  unfold InferenceService.reps_midpoint, Calculations.format_rep_range.
  destruct (str_of_Z_nonneg reps_min Hmin) as (Hda & _ & _).
  destruct (str_of_Z_nonneg reps_max Hmax) as (Hdb & _ & _).
  change (str_of_Z reps_min ++ "-" ++ str_of_Z reps_max)%string
    with (str_of_Z reps_min ++ String "-" (str_of_Z reps_max))%string.
  rewrite contains_dash_joined, (split_dash_joined _ _ Hda),
    (split_dash_digits _ Hdb).
  rewrite !py_int_of_string_str_of_Z by assumption. reflexivity.
Qed.

Lemma format_rep_range_truthy :
  truthy_str (Some (Calculations.format_rep_range reps_min reps_max)) =
  Some (Calculations.format_rep_range reps_min reps_max).
Proof.
  unfold Calculations.format_rep_range.
  change (str_of_Z reps_min ++ "-" ++ str_of_Z reps_max)%string
    with (str_of_Z reps_min ++ String "-" (str_of_Z reps_max))%string.
  destruct (str_of_Z reps_min); reflexivity.
Qed.

Lemma applied_series_list (l : list Exercise.t) :
  (∀ ex, ex ∈ l → Exercise.is_cardio ex = true →
         Exercise.series ex = None ∧ Exercise.repeticiones ex = None) →
  omap d_series
    (map (fun ex => Exercise.to_dict
                      (AIService.apply_to_exercise series reps_min reps_max rest ex))
         l) =
  replicate (length (filter (fun ex => Exercise.is_cardio ex = false) l)) series.
Proof.
  induction l as [|x l IH]; intros Hc; [reflexivity|].
  cbn [map omap list_omap]. rewrite filter_cons.
  rewrite IH by (intros ex Hex; apply Hc; right; exact Hex).
  destruct (Exercise.is_cardio x) eqn:E.
  - rewrite apply_to_exercise_cardio by exact E.
    destruct (Hc x ltac:(left) E) as [Hs _].
    cbn [Exercise.to_dict d_series]. rewrite Hs.
    destruct (decide (true = false)); [discriminate|]. reflexivity.
  - rewrite apply_to_exercise_strength by exact E.
    destruct (decide (false = false)); [|contradiction]. reflexivity.
Qed.

Lemma applied_reps_list (l : list Exercise.t) :
  (∀ ex, ex ∈ l → Exercise.is_cardio ex = true →
         Exercise.series ex = None ∧ Exercise.repeticiones ex = None) →
  omap (fun ex => d_repeticiones ex ≫= InferenceService.reps_midpoint)
    (map (fun ex => Exercise.to_dict
                      (AIService.apply_to_exercise series reps_min reps_max rest ex))
         l) =
  replicate (length (filter (fun ex => Exercise.is_cardio ex = false) l))
            (inject_Z (reps_min + reps_max) / 2)%Q.
Proof.
  induction l as [|x l IH]; intros Hc; [reflexivity|].
  cbn [map omap list_omap]. rewrite filter_cons.
  rewrite IH by (intros ex Hex; apply Hc; right; exact Hex).
  destruct (Exercise.is_cardio x) eqn:E.
  - rewrite apply_to_exercise_cardio by exact E.
    destruct (Hc x ltac:(left) E) as [_ Hr].
    cbn [Exercise.to_dict d_repeticiones]. rewrite Hr.
    destruct (decide (true = false)); [discriminate|]. reflexivity.
  - rewrite apply_to_exercise_strength by exact E.
    cbn [Exercise.to_dict d_repeticiones Exercise.repeticiones].
    rewrite format_rep_range_truthy. cbn [mbind option_bind].
    rewrite reps_midpoint_format.
    destruct (decide (false = false)); [|contradiction]. reflexivity.
Qed.

End AppliedParameters.

Section MedianOfEqual.

Lemma Qsort_replicate (n : nat) (x : Q) : Qsort (replicate n x) = replicate n x.
Proof.
  unfold Qsort. induction n as [|n IH]; [reflexivity|].
  cbn [replicate foldr]. rewrite IH.
  destruct n as [|n]; [reflexivity|]. cbn [replicate Qinsert].
  assert (Qle_bool x x = true) as -> by (apply Qle_bool_iff, Qle_refl).
  reflexivity.
Qed.

Lemma nth_replicate_lt (n i : nat) (x d : Q) :
  (i < n)%nat → nth i (replicate n x) d = x.
Proof.
  revert i. induction n as [|n IH]; intros i Hi; [lia|].
  destruct i as [|i]; [reflexivity|]. cbn [replicate nth]. apply IH. lia.
Qed.

Lemma median_replicate (n : nat) (x : Q) :
  (0 < n)%nat → (median (replicate n x) == x)%Q.
Proof.
  intros Hn. unfold median. rewrite Qsort_replicate, length_replicate.
  assert (n / 2 < n)%nat by (apply Nat.div_lt; lia).
  destruct (Nat.even n).
  - rewrite !nth_replicate_lt by lia. field.
  - rewrite nth_replicate_lt by lia. reflexivity.
Qed.

Lemma Qround_half_even_comp (x y : Q) :
  (x == y)%Q → Qround_half_even x = Qround_half_even y.
Proof.
  intros H. unfold Qround_half_even.
  assert (Qfloor x = Qfloor y) as -> by (apply Qfloor_comp; exact H).
  assert (((x - inject_Z (Qfloor y)) ?= 1 # 2) =
          ((y - inject_Z (Qfloor y)) ?= 1 # 2))%Q as ->; [|reflexivity].
  apply Qcompare_comp; [rewrite H|]; reflexivity.
Qed.

Lemma Qround_half_even_inject_Z (z : Z) : Qround_half_even (inject_Z z) = z.
Proof.
  unfold Qround_half_even. rewrite Qfloor_Z.
  assert (((inject_Z z - inject_Z z) ?= 1 # 2) = Lt)%Q as ->; [|reflexivity].
  apply Qlt_alt.
  assert (inject_Z z - inject_Z z == 0)%Q as -> by ring. reflexivity.
Qed.

End MedianOfEqual.

(** X22: what [_apply_optimal_parameters] does to a plan, and what the
    inference reads back from it.  The days and the exercises keep their
    names, groups and order; a cardio exercise is not touched; every other
    exercise gets the inferred series, the range written by
    [format_rep_range] and the inferred rest.  When the routine is later
    stored as the successful routine of a user, and its cardio exercises
    carry neither series nor repetitions (as those of the generator do),
    [_extract_parameters_from_routines] reads from it the applied series
    and the midpoint of the applied range once per strength exercise, and
    [_calculate_optimal_values] infers the same series again. *)
Theorem X22_applied_parameters_are_read_back
    (rutina : list (string * list Exercise.t))
    (series reps_min reps_max : Z) (rest : string) :
  let applied :=
    AIService._apply_optimal_parameters rutina series reps_min reps_max rest in
  let strength :=
    length (filter (fun ex => Exercise.is_cardio ex = false)
                   (concat (map snd rutina))) in
  Forall2 (fun day day' =>
             day'.1 = day.1 ∧
             Forall2 (fun ex ex' =>
                        Exercise.eq ex' ex = true ∧
                        Exercise.is_cardio ex' = Exercise.is_cardio ex ∧
                        if Exercise.is_cardio ex then ex' = ex
                        else Exercise.series ex' = Some series ∧
                             Exercise.repeticiones ex' =
                               Some (Calculations.format_rep_range reps_min
                                       reps_max) ∧
                             Exercise.descanso ex' = Some rest)
                     day.2 day'.2)
          rutina applied ∧
  (0 <= reps_min → 0 <= reps_max →
   (∀ ex, ex ∈ concat (map snd rutina) → Exercise.is_cardio ex = true →
          Exercise.series ex = None ∧ Exercise.repeticiones ex = None) →
   ∀ (r : Routine.t) (e : Experience.t) (sim : R) (profile : Profile.t),
     Routine.rutina_semanal r = applied →
     Experience.rutina_exitosa e = Some (Routine.to_dict r) →
     let params :=
       InferenceService._extract_parameters_from_routines
         [{| InferenceService.usuario := e;
             InferenceService.similitud := sim |}] in
     params = (replicate strength series,
               replicate strength (inject_Z (reps_min + reps_max) / 2)%Q) ∧
     (strength ≠ 0%nat →
      (InferenceService._calculate_optimal_values params profile).1.1.1 =
        series)).
Proof.
  intros applied strength. split.
  - subst applied. unfold AIService._apply_optimal_parameters.
    induction rutina as [|d rutina' IH]; [constructor|].
    cbn [map]. constructor; [|exact IH]. cbn [fst snd].
    split; [reflexivity|].
    induction (d.2) as [|x l IHl]; [constructor|].
    cbn [map]. constructor; [|exact IHl].
    rewrite apply_to_exercise_kind. split; [|split; [reflexivity|]].
    + unfold Exercise.eq, AIService.apply_to_exercise.
      destruct (negb (Exercise.is_cardio x));
        cbn [Exercise.ejercicio Exercise.grupo];
        rewrite !String.eqb_refl; reflexivity.
    + destruct (Exercise.is_cardio x) eqn:E.
      * apply apply_to_exercise_cardio. exact E.
      * rewrite apply_to_exercise_strength by exact E. auto.
  - intros Hmin Hmax Hcardio r e sim profile Hr He params.
    assert (Hp : params =
                 (replicate strength series,
                  replicate strength (inject_Z (reps_min + reps_max) / 2)%Q)).
    { subst params. unfold InferenceService._extract_parameters_from_routines.
      cbn [map concat]. rewrite app_nil_r.
      unfold InferenceService.stored_exercises.
      cbn [InferenceService.usuario]. rewrite He.
      cbn [Routine.to_dict d_rutina_semanal]. rewrite Hr. subst applied.
      rewrite stored_applied.
      rewrite (applied_series_list series reps_min reps_max rest _ Hcardio).
      rewrite (applied_reps_list series reps_min reps_max rest Hmin Hmax _
                 Hcardio).
      reflexivity. }
    split; [exact Hp|]. intros Hn. rewrite Hp.
    unfold InferenceService._calculate_optimal_values. cbn [fst snd].
    destruct strength as [|n]; [contradiction|].
    change (replicate (S n) series) with (series :: replicate n series).
    cbn iota.
    change (map inject_Z (series :: replicate n series))
      with (map inject_Z (replicate (S n) series)).
    assert (map inject_Z (replicate (S n) series) =
            replicate (S n) (inject_Z series)) as ->.
    { generalize (S n). intros k. induction k as [|k IHk]; [reflexivity|].
      cbn [replicate map]. rewrite IHk. reflexivity. }
    rewrite (Qround_half_even_comp _ (inject_Z series))
      by (apply median_replicate; lia).
    apply Qround_half_even_inject_Z.
Qed.

Lemma X22_applied_parameters_are_read_back_witness :
  InferenceService._extract_parameters_from_routines
    [{| InferenceService.usuario :=
          Experience.mk None None
            (Some (Routine.to_dict
                     (Routine.mk sample_profile
                        (AIService._apply_optimal_parameters
                           [("Día 1",
                             [Exercise.create_strength_exercise "Press banca"
                                "pecho" 3 "8-12" "60s";
                              Exercise.create_cardio_exercise "Correr"
                                "20 min" "moderada"])]
                           4 6 10 "90s")
                        "fullbody" ∅ None "" None None)))
            (Some 5) "" "";
        InferenceService.similitud := 1%R |}] =
  ([4], [(inject_Z (6 + 10) / 2)%Q]).
Proof.
  assert (Hmin : 0 <= 6) by lia.
  assert (Hmax : 0 <= 10) by lia.
  assert (Hc : ∀ ex,
             ex ∈ concat (map snd
                    [("Día 1"%string,
                      [Exercise.create_strength_exercise "Press banca" "pecho"
                         3 "8-12" "60s";
                       Exercise.create_cardio_exercise "Correr" "20 min"
                         "moderada"])]) →
             Exercise.is_cardio ex = true →
             Exercise.series ex = None ∧ Exercise.repeticiones ex = None).
  { intros ex Hex Hc. cbn in Hex.
    apply elem_of_cons in Hex as [->|Hex]; [discriminate Hc|].
    apply elem_of_cons in Hex as [->|Hex]; [split; reflexivity|].
    apply elem_of_nil in Hex. contradiction. }
  exact (proj1 (proj2 (X22_applied_parameters_are_read_back
           [("Día 1",
             [Exercise.create_strength_exercise "Press banca" "pecho" 3 "8-12"
                "60s";
              Exercise.create_cardio_exercise "Correr" "20 min" "moderada"])]
           4 6 10 "90s") Hmin Hmax Hc
           (Routine.mk sample_profile
              (AIService._apply_optimal_parameters
                 [("Día 1",
                   [Exercise.create_strength_exercise "Press banca" "pecho" 3
                      "8-12" "60s";
                    Exercise.create_cardio_exercise "Correr" "20 min"
                      "moderada"])]
                 4 6 10 "90s")
              "fullbody" ∅ None "" None None)
           (Experience.mk None None
              (Some (Routine.to_dict
                       (Routine.mk sample_profile
                          (AIService._apply_optimal_parameters
                             [("Día 1",
                               [Exercise.create_strength_exercise "Press banca"
                                  "pecho" 3 "8-12" "60s";
                                Exercise.create_cardio_exercise "Correr"
                                  "20 min" "moderada"])]
                             4 6 10 "90s")
                          "fullbody" ∅ None "" None None)))
              (Some 5) "" "")
           1%R sample_profile eq_refl eq_refl)).
Defined.

(** * Validation of a feedback before it is processed *)

(** [len] counts characters, not bytes: an accented letter is one
    character of two bytes. *)
Lemma py_len_counts_characters :
  Validators.py_len "día" = 3%nat ∧ String.length "día" = 4%nat ∧
  Validators.py_len "dia" = String.length "dia".
Proof. repeat split. Qed.

Lemma py_len_le_length (s : string) :
  (Validators.py_len s <= String.length s)%nat.
Proof.
  induction s as [|c s IH]; cbn [Validators.py_len String.length]; [lia|].
  destruct (Validators.continuation_byte c); lia.
Qed.

(** X23: [validate_feedback] accepts exactly a satisfaction between 1 and
    5 with comments of at most 500 characters, counted as [len] counts
    them, and then reports no error;
    it never reports more than two.  Every feedback it accepts is
    processed: [process_feedback] raises nothing on it.  The service itself
    does not look at the comments -- it also processes a feedback that was
    turned down for its comments alone. *)
Theorem X23_validated_feedback_is_processed (satisfaction : Z)
    (comments : string) :
  let verdict := Validators.validate_feedback satisfaction comments in
  (verdict.1 = true ↔
     1 <= satisfaction <= 5 ∧ (Validators.py_len comments <= 500)%nat) ∧
  (verdict.1 = true ↔ verdict.2 = []) ∧
  (length verdict.2 <= 2)%nat ∧
  (∀ user now1 now2 w,
     verdict.1 = true →
     ∃ results w',
       LearningService.process_feedback user satisfaction comments now1 now2 w =
         (inr results, w')) ∧
  (∀ user now1 now2 w,
     1 <= satisfaction <= 5 →
     ∃ results w',
       LearningService.process_feedback user satisfaction comments now1 now2 w =
         (inr results, w')).
Proof.
  intros verdict.
  assert (Hservice : ∀ user now1 now2 w,
            1 <= satisfaction <= 5 →
            ∃ results w',
              LearningService.process_feedback user satisfaction comments
                now1 now2 w = (inr results, w')).
  { intros user now1 now2 [ls r] Hin.
    rewrite process_feedback_valid by exact Hin. eauto. }
  assert (Hverdict : verdict.1 = true ↔
            1 <= satisfaction <= 5 ∧ (Validators.py_len comments <= 500)%nat).
  { subst verdict.
    unfold Validators.validate_feedback, Validators.validate_satisfaction,
      ValidationConfig.SATISFACTION_MIN, ValidationConfig.SATISFACTION_MAX.
    destruct (satisfaction <? 1) eqn:E1;
      [|destruct (5 <? satisfaction) eqn:E2];
      cbn [negb app];
      destruct (String.eqb comments "") eqn:Ec;
      try destruct (500 <? Z.of_nat (Validators.py_len comments)) eqn:El;
      cbn [negb andb app length Nat.eqb fst];
      try apply String.eqb_eq in Ec; subst;
      cbn [Validators.py_len] in *;
      split; try discriminate; try lia; intros; try reflexivity; lia. }
  split; [exact Hverdict|]. split; [|split; [|split]].
  - subst verdict.
    unfold Validators.validate_feedback, Validators.validate_satisfaction.
    destruct (satisfaction <? _); [|destruct (_ <? satisfaction)];
      cbn [negb app];
      destruct (negb (String.eqb comments "") && _);
      cbn [app length Nat.eqb fst snd]; split; congruence.
  - subst verdict.
    unfold Validators.validate_feedback, Validators.validate_satisfaction.
    destruct (satisfaction <? _); [|destruct (_ <? satisfaction)];
      cbn [negb app];
      destruct (negb (String.eqb comments "") && _);
      cbn [app length snd]; lia.
  - intros user now1 now2 w Hok. apply Hservice. apply Hverdict. exact Hok.
  - exact Hservice.
Qed.

Lemma X23_validated_feedback_is_processed_witness :
  ∃ results w',
    LearningService.process_feedback sample_user 4 "bien" "" "" sample_world =
      (inr results, w').
Proof.
  apply (proj1 (proj2 (proj2 (proj2
           (X23_validated_feedback_is_processed 4 "bien"))))).
  reflexivity.
Defined.

(** * Statistics of the learning system *)

Section Statistics.






End Statistics.



(** * Classification of a user *)

Section Classification.

Lemma Rsum_IZR_acc (l : list Z) (a : Z) :
  fold_left Rplus (map IZR l) (IZR a) = IZR (fold_left Z.add l a).
Proof.
  revert a. induction l as [|x l IH]; intros a; cbn [map fold_left];
    [reflexivity|].
  rewrite <- plus_IZR. apply IH.
Qed.

Lemma Rsum_IZR (l : list Z) : Calculations.Rsum (map IZR l) = IZR (Zsum l).
Proof. apply (Rsum_IZR_acc l 0). Qed.

Lemma average_of_ratings (h : list Experience.t) :
  h ≠ [] →
  Calculations.calculate_average
    (map (fun exp => IZR (default 3 (Experience.satisfaccion exp))) h) =
  (IZR (Zsum (map rating h)) / IZR (Z.of_nat (length h)))%R.
Proof.
  intros Hne. unfold Calculations.calculate_average.
  destruct h as [|u h]; [contradiction|].
  change (map (fun exp => IZR (default 3 (Experience.satisfaccion exp)))
              (u :: h))
    with (map (fun exp => IZR (rating exp)) (u :: h)).
  rewrite <- (map_map rating IZR).
  set (l := map rating (u :: h)).
  assert (length (u :: h) = length l) as Hl by (subst l; rewrite length_map; reflexivity).
  rewrite Hl.
  destruct (map IZR l) as [|x l'] eqn:E.
  - destruct l; [cbn in Hl; discriminate|discriminate].
  - rewrite <- E. rewrite Rsum_IZR, length_map, INR_IZR_INZ. reflexivity.
Qed.

Lemma ratio_ge (total n p q : Z) :
  0 < n → 0 < q →
  ((IZR total / IZR n >= IZR p / IZR q)%R ↔ p * n <= q * total).
Proof.
  intros Hn Hq.
  assert (0 < IZR n)%R as Hn' by (apply IZR_lt; exact Hn).
  assert (0 < IZR q)%R as Hq' by (apply IZR_lt; exact Hq).
  assert (0 < IZR q * IZR n)%R as Hqn by (apply Rmult_lt_0_compat; assumption).
  set (x := (IZR total / IZR n)%R).
  set (y := (IZR p / IZR q)%R).
  assert (x * IZR n = IZR total)%R as Hx by (subst x; field; lra).
  assert (y * IZR q = IZR p)%R as Hy by (subst y; field; lra).
  split.
  - intros Hge. apply le_IZR. rewrite !mult_IZR, <- Hx, <- Hy. nra.
  - intros Hle. apply IZR_le in Hle. rewrite !mult_IZR, <- Hx, <- Hy in Hle.
    nra.
Qed.

End Classification.

(** X25: [classify_user].  The category is 'novato' exactly for an empty
    or missing history, and the category named always is the entry of
    [UserClassificationConfig.CATEGORIES] whose bounds enclose the number
    of experiences, with that entry's description.  A user without
    history is rated 'necesita_ajuste' with an average of 0.  For a user
    with [n] experiences whose ratings (3 where one is missing) add up to
    [total], the performance is 'excelente' from an average of 4.5,
    'bueno' from 4, 'aceptable' from 3.5 and 'necesita_ajuste' below.
    There is always at least one recommendation. *)
Theorem X25_user_classification (profile : Profile.t)
    (user_history : option (list Experience.t)) :
  let result := InferenceService.classify_user profile user_history in
  let history := default [] user_history in
  let n := Z.of_nat (length history) in
  let total := Zsum (map rating history) in
  (InferenceService.categoria result = "novato" ↔ history = []) ∧
  (∃ bounds,
     UserClassificationConfig.CATEGORIES (InferenceService.categoria result) =
       Some bounds ∧
     UserClassificationConfig.description bounds =
       InferenceService.cl_descripcion result ∧
     (∀ lo, UserClassificationConfig.min_experiences bounds = Some lo →
            lo <= n) ∧
     (∀ hi, UserClassificationConfig.max_experiences bounds = Some hi →
            n <= hi)) ∧
  (history = [] →
     InferenceService.rendimiento result = "necesita_ajuste" ∧
     InferenceService.cl_satisfaccion_promedio result = 0%R) ∧
  (history ≠ [] →
     (InferenceService.rendimiento result = "excelente" ↔ 9 * n <= 2 * total) ∧
     (InferenceService.rendimiento result = "bueno" ↔
        8 * n <= 2 * total < 9 * n) ∧
     (InferenceService.rendimiento result = "aceptable" ↔
        7 * n <= 2 * total < 8 * n) ∧
     (InferenceService.rendimiento result = "necesita_ajuste" ↔
        2 * total < 7 * n)) ∧
  InferenceService.recomendaciones result ≠ [].
Proof.
  intros result history n total.
  assert (Hcat : (InferenceService.categoria result = "novato" ↔ history = []) ∧
    (∃ bounds,
       UserClassificationConfig.CATEGORIES (InferenceService.categoria result) =
         Some bounds ∧
       UserClassificationConfig.description bounds =
         InferenceService.cl_descripcion result ∧
       (∀ lo, UserClassificationConfig.min_experiences bounds = Some lo →
              lo <= n) ∧
       (∀ hi, UserClassificationConfig.max_experiences bounds = Some hi →
              n <= hi)) ∧
    InferenceService.recomendaciones result ≠ []).
  { subst result n. unfold InferenceService.classify_user.
    fold history. clear total. clearbody history.
    cbn [InferenceService.categoria InferenceService.cl_descripcion
         InferenceService.recomendaciones].
    unfold InferenceService._get_user_category,
      InferenceService._generate_recommendations,
      InferenceService._get_performance_level.
    destruct (length history =? 0)%nat eqn:E0;
      [|destruct (length history <=? 5)%nat eqn:E5;
        [|destruct (length history <=? 15)%nat eqn:E15;
          [|destruct (length history <=? 50)%nat eqn:E50]]];
      cbn [InferenceService.name InferenceService.category_description];
      repeat match goal with
             | H : (_ =? _)%nat = true |- _ => apply Nat.eqb_eq in H
             | H : (_ =? _)%nat = false |- _ => apply Nat.eqb_neq in H
             | H : (_ <=? _)%nat = true |- _ => apply Nat.leb_le in H
             | H : (_ <=? _)%nat = false |- _ => apply Nat.leb_gt in H
             end.
    all: split; [split|split].
    all: try (intros Hn; discriminate Hn).
    all: try (intros ->; cbn [length] in *; first [reflexivity | lia]).
    all: try (intros _; destruct history; [reflexivity|cbn [length] in *; lia]).
    all: try (eexists; split; [reflexivity|]; split; [reflexivity|];
              split; intros ? [= <-]; lia).
    all: cbn; repeat destruct (Rgeb _ _); discriminate. }
  destruct Hcat as (Hc1 & Hc2 & Hc3).
  split; [exact Hc1|]. split; [exact Hc2|]. split; [|split; [|exact Hc3]].
  - intros Hnil. subst result. unfold InferenceService.classify_user.
    fold history. rewrite Hnil.
    cbn [InferenceService.rendimiento InferenceService.cl_satisfaccion_promedio].
    split.
    + unfold InferenceService._get_performance_level, Rgeb.
      repeat (destruct (Rge_dec _ _); [lra|]). reflexivity.
    + destruct (Rround2_between 0 0 0 ltac:(lra)) as [Hlo Hhi]. lra.
  - intros Hne.
    assert (0 < n) as Hn by (subst n; destruct history; [contradiction|cbn [length]; lia]).
    subst result. unfold InferenceService.classify_user. fold history.
    cbn [InferenceService.rendimiento].
    assert (match history with
            | [] => 0%R
            | _ :: _ =>
                Calculations.calculate_average
                  (map (fun exp => IZR (default 3 (Experience.satisfaccion exp)))
                       history)
            end = (IZR total / IZR n)%R) as ->.
    { unfold total, n. rewrite <- (average_of_ratings history Hne).
      destruct history; [contradiction|reflexivity]. }
    pose proof (ratio_ge total n 9 2 Hn ltac:(lia)) as H45.
    pose proof (ratio_ge total n 8 2 Hn ltac:(lia)) as H40.
    pose proof (ratio_ge total n 7 2 Hn ltac:(lia)) as H35.
    replace (IZR 9 / IZR 2)%R with 4.5%R in H45 by lra.
    replace (IZR 8 / IZR 2)%R with 4.0%R in H40 by lra.
    replace (IZR 7 / IZR 2)%R with 3.5%R in H35 by lra.
    unfold InferenceService._get_performance_level, Rgeb.
    destruct (Rge_dec _ 4.5) as [G45|G45];
      [|destruct (Rge_dec _ 4.0) as [G40|G40];
        [|destruct (Rge_dec _ 3.5) as [G35|G35]]];
      try (apply H45 in G45); try (apply H40 in G40); try (apply H35 in G35);
      try (assert (¬ 9 * n <= 2 * total) by (intros Hx; apply H45 in Hx; contradiction));
      try (assert (¬ 8 * n <= 2 * total) by (intros Hx; apply H40 in Hx; contradiction));
      try (assert (¬ 7 * n <= 2 * total) by (intros Hx; apply H35 in Hx; contradiction));
      (split; [|split; [|split]]); split; intros; try discriminate;
      try reflexivity; lia.
Qed.

Lemma X25_user_classification_witness :
  InferenceService.rendimiento
    (InferenceService.classify_user sample_profile None) = "necesita_ajuste" ∧
  InferenceService.cl_satisfaccion_promedio
    (InferenceService.classify_user sample_profile None) = 0%R.
Proof.
  apply (proj1 (proj2 (proj2 (X25_user_classification sample_profile None)))).
  reflexivity.
Defined.

(** * Validated profiles *)

Section ValidatedProfile.

Lemma validate_nil (edad : Z) (peso altura : Q) (nivel objetivo : string)
    (dias : Z) :
  Profile._validate edad peso altura nivel objetivo dias = [] ↔
  10 <= edad <= 100 ∧ (30 <= peso)%Q ∧ (peso <= 300)%Q ∧
  (1 <= altura)%Q ∧ (altura <= 2.5)%Q ∧
  is_Some (Mappings.LEVEL_STR_TO_NUM nivel) ∧
  is_Some (Mappings.GOAL_STR_TO_NUM objetivo) ∧
  2 <= dias <= 7.
Proof.
  unfold Profile._validate, ValidationConfig.AGE_MIN, ValidationConfig.AGE_MAX,
    ValidationConfig.WEIGHT_MIN, ValidationConfig.WEIGHT_MAX,
    ValidationConfig.HEIGHT_MIN, ValidationConfig.HEIGHT_MAX,
    ValidationConfig.DAYS_MIN, ValidationConfig.DAYS_MAX.
  rewrite !app_nil.
  assert (He : (if edad <? 10 then ["La edad debe ser mayor a 10"%string]
                else if 100 <? edad then ["La edad debe ser menor a 100"%string]
                else []) = [] ↔ 10 <= edad <= 100).
  { destruct (edad <? 10) eqn:E1; [|destruct (100 <? edad) eqn:E2];
      Zleb_to_prop; split; try discriminate; try reflexivity; lia. }
  assert (Hd : (if dias <? 2 then ["Los días deben ser al menos 2"%string]
                else if 7 <? dias then ["Los días no pueden ser más de 7"%string]
                else []) = [] ↔ 2 <= dias <= 7).
  { destruct (dias <? 2) eqn:E1; [|destruct (7 <? dias) eqn:E2];
      Zleb_to_prop; split; try discriminate; try reflexivity; lia. }
  assert (Hp : (if negb (Qle_bool 30 peso)
                then ["El peso debe ser mayor a 30 kg"%string]
                else if negb (Qle_bool peso 300)
                then ["El peso debe ser menor a 300 kg"%string]
                else []) = [] ↔ (30 <= peso)%Q ∧ (peso <= 300)%Q).
  { destruct (Qle_bool 30 peso) eqn:E1; [destruct (Qle_bool peso 300) eqn:E2|];
      cbn [negb]; Qleb_to_prop;
      (split; [intros Hx; first [discriminate Hx | split; lra]
              |intros [? ?]; first [reflexivity | exfalso; lra]]). }
  assert (Ha : (if negb (Qle_bool 1.0 altura)
                then ["La altura debe ser mayor a 1.0 m"%string]
                else if negb (Qle_bool altura 2.5)
                then ["La altura debe ser menor a 2.5 m"%string]
                else []) = [] ↔ (1 <= altura)%Q ∧ (altura <= 2.5)%Q).
  { destruct (Qle_bool 1.0 altura) eqn:E1;
      [destruct (Qle_bool altura 2.5) eqn:E2|];
      cbn [negb]; Qleb_to_prop;
      (split; [intros Hx; first [discriminate Hx | split; lra]
              |intros [? ?]; first [reflexivity | exfalso; lra]]). }
  rewrite He, Hd, Hp, Ha.
  assert (Hn : match Mappings.LEVEL_STR_TO_NUM nivel with
               | Some _ => []
               | None =>
                   ["Nivel debe ser uno de: principiante, intermedio, avanzado"%string]
               end = [] ↔ is_Some (Mappings.LEVEL_STR_TO_NUM nivel)).
  { destruct (Mappings.LEVEL_STR_TO_NUM nivel); split; try discriminate;
      try (intros _; eexists; reflexivity); try reflexivity.
    intros [? ?]. discriminate. }
  assert (Ho : match Mappings.GOAL_STR_TO_NUM objetivo with
               | Some _ => []
               | None =>
                   ["Objetivo debe ser uno de: perder_peso, ganar_masa, resistencia, fuerza"%string]
               end = [] ↔ is_Some (Mappings.GOAL_STR_TO_NUM objetivo)).
  { destruct (Mappings.GOAL_STR_TO_NUM objetivo); split; try discriminate;
      try (intros _; eexists; reflexivity); try reflexivity.
    intros [? ?]. discriminate. }
  rewrite Hn, Ho. tauto.
Qed.

Lemma level_table (nivel : string) (n : Z) :
  Mappings.LEVEL_STR_TO_NUM nivel = Some n →
  1 <= n <= 3 ∧ is_Some (RoutineConfig.SERIES_BY_LEVEL nivel) ∧
  (nivel = "principiante" ∨ nivel = "intermedio" ∨ nivel = "avanzado").
Proof.
  unfold Mappings.LEVEL_STR_TO_NUM, RoutineConfig.SERIES_BY_LEVEL.
  destruct (String.eqb nivel "principiante") eqn:E1;
    [|destruct (String.eqb nivel "intermedio") eqn:E2;
      [|destruct (String.eqb nivel "avanzado") eqn:E3]];
    intros [= <-]; repeat match goal with
                          | H : String.eqb _ _ = true |- _ =>
                              apply String.eqb_eq in H
                          end;
    (split; [lia|split; [eexists; reflexivity|tauto]]).
Qed.

Lemma goal_table (objetivo : string) (n : Z) :
  Mappings.GOAL_STR_TO_NUM objetivo = Some n →
  1 <= n <= 4 ∧ is_Some (RoutineConfig.PARAMS_BY_GOAL objetivo) ∧
  (objetivo = "perder_peso" ∨ objetivo = "ganar_masa" ∨
   objetivo = "resistencia" ∨ objetivo = "fuerza").
Proof.
  unfold Mappings.GOAL_STR_TO_NUM, RoutineConfig.PARAMS_BY_GOAL.
  destruct (String.eqb objetivo "perder_peso") eqn:E1;
    [|destruct (String.eqb objetivo "ganar_masa") eqn:E2;
      [|destruct (String.eqb objetivo "resistencia") eqn:E3;
        [|destruct (String.eqb objetivo "fuerza") eqn:E4]]];
    intros [= <-]; repeat match goal with
                          | H : String.eqb _ _ = true |- _ =>
                              apply String.eqb_eq in H
                          end;
    (split; [lia|split; [eexists; reflexivity|tauto]]).
Qed.


Lemma profile_new_inr (edad : Z) (peso altura : Q) (nivel objetivo : string)
    (dias : Z) (created_at : string) (p : Profile.t) :
  Profile.new edad peso altura nivel objetivo dias created_at = inr p →
  Profile._validate edad peso altura nivel objetivo dias = [] ∧
  p = Profile.mk edad peso altura nivel objetivo dias
        (peso / (altura * altura))%Q
        (default 2 (Mappings.LEVEL_STR_TO_NUM nivel))
        (default 2 (Mappings.GOAL_STR_TO_NUM objetivo)) created_at.
Proof.
  unfold Profile.new.
  destruct (Profile._validate _ _ _ _ _ _) eqn:Ev; [|discriminate].
  unfold Calculations.calculate_imc.
  destruct (Qle_bool altura 0); [discriminate|].
  intros [= <-]. split; reflexivity.
Qed.

End ValidatedProfile.



(** * The exploration generator *)

Section GeneratorSteps.

Context {S A B : Type}.

Lemma gbind_run (m : G S A) (f : A → G S B) (g g1 : S) (a : A) :
  m g = (inr a, g1) → gbind m f g = f a g1.
Proof. intros H. unfold gbind. rewrite H. reflexivity. Qed.

Lemma gdraw_run (f : S → A * S) (g : S) :
  gdraw f g = (inr (f g).1, (f g).2).
Proof. unfold gdraw. destruct (f g). reflexivity. Qed.

End GeneratorSteps.

Section Tables.

Lemma params_table (objetivo : string) (params : RoutineConfig.goal_params) :
  RoutineConfig.PARAMS_BY_GOAL objetivo = Some params →
  RoutineConfig.rest_min params <= RoutineConfig.rest_max params ∧
  4 <= RoutineConfig.reps_min params ∧
  RoutineConfig.reps_min params + 2 <= RoutineConfig.reps_max params - 2.
Proof.
  unfold RoutineConfig.PARAMS_BY_GOAL.
  destruct (String.eqb objetivo "perder_peso");
    [|destruct (String.eqb objetivo "ganar_masa");
      [|destruct (String.eqb objetivo "resistencia");
        [|destruct (String.eqb objetivo "fuerza")]]];
    intros [= <-]; cbn; lia.
Qed.

Lemma exercises_per_group_range (group structure level : string) :
  1 <= AIService._decide_exercises_per_group group structure level <= 3.
Proof.
  unfold AIService._decide_exercises_per_group,
    RoutineConfig.EXERCISES_PER_STRUCTURE.
  destruct (String.eqb group "cardio"); [lia|].
  destruct (String.eqb structure "fullbody");
    [|destruct (String.eqb structure "upper_lower");
      [|destruct (String.eqb structure "split")]];
    cbn [default from_option]; unfold Datatypes.id;
    destruct (String.eqb level "principiante");
    try destruct (String.eqb level "intermedio");
    try destruct (String.eqb level "avanzado");
    cbn [default from_option]; unfold Datatypes.id; lia.
Qed.

Lemma planned_groups_known (structure : string) (days : Z)
    (groups : list string) (group : string) :
  groups ∈ AIService._decide_groups_per_day structure days →
  group ∈ groups →
  group ∈ ["pecho"; "espalda"; "piernas"; "hombros"; "brazos"; "core"]%string.
Proof.
  unfold AIService._decide_groups_per_day.
  destruct (String.eqb structure "fullbody");
    [|destruct (String.eqb structure "upper_lower")]; intros Hin.
  - apply elem_of_replicate in Hin as [-> _].
    rewrite !elem_of_cons, !elem_of_nil. tauto.
  - apply slice_to_elem in Hin.
    rewrite !elem_of_cons, elem_of_nil in Hin.
    repeat match goal with
           | H : _ ∨ _ |- _ => destruct H as [H|H]
           end;
      try contradiction; subst groups;
      rewrite !elem_of_cons, !elem_of_nil; tauto.
  - apply slice_to_elem in Hin.
    rewrite !elem_of_cons, elem_of_nil in Hin.
    repeat match goal with
           | H : _ ∨ _ |- _ => destruct H as [H|H]
           end;
      try contradiction; subst groups;
      rewrite !elem_of_cons, !elem_of_nil; tauto.
Qed.

(** The names of the database pass the check of the constructor. *)
Lemma pool_names_accepted (group level name : string) :
  name ∈ innovative_pool group level →
  String.eqb name "" || String.eqb (strip name) "" = false.
Proof.
  unfold innovative_pool, ExerciseDatabase.EXERCISES.
  destruct (String.eqb group "pecho");
    [|destruct (String.eqb group "espalda");
      [|destruct (String.eqb group "piernas");
        [|destruct (String.eqb group "hombros");
          [|destruct (String.eqb group "brazos");
            [|destruct (String.eqb group "core");
              [|destruct (String.eqb group "cardio")]]]]]];
    try destruct (String.eqb level "principiante");
    match goal with
    | |- _ ∈ ?pool → _ =>
        let p := eval vm_compute in pool in change pool with p
    end;
    rewrite ?elem_of_cons, ?elem_of_nil; intros H;
    repeat match goal with
           | H : _ ∨ _ |- _ => destruct H as [H|H]
           end;
    try contradiction; subst name; vm_compute; reflexivity.
Qed.

Lemma known_group_accepted (group : string) :
  group ∈ ["pecho"; "espalda"; "piernas"; "hombros"; "brazos"; "core"]%string →
  String.eqb group "cardio" = false ∧
  String.eqb group "" || String.eqb (strip group) "" = false ∧
  String.eqb (lower group) "cardio" = false.
Proof.
  rewrite !elem_of_cons, elem_of_nil. intros H.
  repeat match goal with
         | H : _ ∨ _ |- _ => destruct H as [H|H]
         end;
    try contradiction; subst group; vm_compute; auto.
Qed.

Lemma suffixed_truthy (s : string) (c : ascii) (rest : string) :
  truthy_str (Some (s ++ String c rest)%string) = Some (s ++ String c rest)%string.
Proof. destruct s; reflexivity. Qed.

End Tables.

Section ExplorationGenerator.

Context {rng : Type}.
Variable sample : list string → nat → rng → list string * rng.
Variable randint : Z → Z → rng → Z * rng.
Variable random : rng → Q * rng.
Variable choice : list string → rng → string * rng.
Hypothesis Hrandom : random_spec sample randint choice.

Variable profile : Profile.t.
Variable params : RoutineConfig.goal_params.
Hypothesis Hparams :
  RoutineConfig.PARAMS_BY_GOAL (Profile.objetivo_str profile) = Some params.

Lemma select_innovative_run (group : string) (count : Z) (g : rng) :
  0 <= count →
  ∃ names g1,
    AIService._select_innovative_exercises sample group count
      (Profile.nivel_str profile) g = (inr names, g1) ∧
    length names =
      Z.to_nat (Z.min count
                  (Z.of_nat (length (innovative_pool group
                                       (Profile.nivel_str profile))))) ∧
    Forall (fun name => name ∈ innovative_pool group
                                 (Profile.nivel_str profile)) names.
Proof.
  intros Hc. unfold AIService._select_innovative_exercises, innovative_pool.
  destruct (ExerciseDatabase.EXERCISES group) as [[available|available]|].
  - set (pool := if String.eqb _ _ then _ else _).
    rewrite gdraw_run. eexists _, _. split; [reflexivity|]. split.
    + apply (sample_length _ _ _ Hrandom). lia.
    + apply Forall_forall. intros x Hx.
      apply (sample_elem _ _ _ Hrandom) in Hx. exact Hx.
  - rewrite gdraw_run. eexists _, _. split; [reflexivity|]. split.
    + apply (sample_length _ _ _ Hrandom). lia.
    + apply Forall_forall. intros x Hx.
      apply (sample_elem _ _ _ Hrandom) in Hx. exact Hx.
  - exists [], g. split; [reflexivity|]. split; [cbn; lia|constructor].
Qed.

Lemma strength_exercise_run (group name : string) (g : rng) :
  group ∈ ["pecho"; "espalda"; "piernas"; "hombros"; "brazos"; "core"]%string →
  name ∈ innovative_pool group (Profile.nivel_str profile) →
  ∃ ex g1,
    gbind (AIService._generate_experimental_parameters randint choice
             (Profile.objetivo_str profile) (Profile.nivel_str profile) group)
      (fun exp =>
         if String.eqb group "cardio" then
           match exp with
           | AIService.CardioParameters duracion intensidad =>
               AIService.new_cardio_exercise name duracion intensidad
           | AIService.StrengthParameters _ _ _ => gfail KeyError
           end
         else
           match exp with
           | AIService.StrengthParameters series repeticiones descanso =>
               AIService.new_strength_exercise name group series repeticiones
                 descanso
           | AIService.CardioParameters _ _ => gfail KeyError
           end) g = (inr ex, g1) ∧
    Exercise.ejercicio ex = name ∧
    explored_strength profile group ex.
Proof.
  intros Hgroup Hname.
  destruct (known_group_accepted group Hgroup) as (Hnc & Hgok & Hlow).
  destruct (params_table _ _ Hparams) as (Hrest & Hmin & Hspan).
  unfold AIService._generate_experimental_parameters.
  rewrite Hnc, Hparams.
  set (d1 := randint (RoutineConfig.reps_min params)
               (RoutineConfig.reps_min params + 2) g).
  set (d2 := randint (RoutineConfig.reps_max params - 2)
               (RoutineConfig.reps_max params) d1.2).
  set (d3 := randint (RoutineConfig.rest_min params)
               (RoutineConfig.rest_max params) d2.2).
  assert (H1 : RoutineConfig.reps_min params <= d1.1 <=
               RoutineConfig.reps_min params + 2)
    by (apply (randint_range _ _ _ Hrandom); lia).
  assert (H2 : RoutineConfig.reps_max params - 2 <= d2.1 <=
               RoutineConfig.reps_max params)
    by (apply (randint_range _ _ _ Hrandom); lia).
  assert (H3 : RoutineConfig.rest_min params <= d3.1 <=
               RoutineConfig.rest_max params)
    by (apply (randint_range _ _ _ Hrandom); lia).
  exists (Exercise.create_strength_exercise name group
            (default 4 (RoutineConfig.SERIES_BY_LEVEL (Profile.nivel_str profile)))
            (Calculations.format_rep_range d1.1 d2.1)
            (str_of_Z d3.1 ++ "s")), d3.2.
  split; [|split; [reflexivity|]].
  - unfold gbind at 1. unfold gbind at 1.
    rewrite gdraw_run. fold d1. cbn iota beta.
    unfold gbind at 1. rewrite gdraw_run. fold d2. cbn iota beta.
    unfold gbind at 1. rewrite gdraw_run. fold d3. cbn iota beta.
    unfold gret at 1. cbn iota beta.
    unfold AIService.new_strength_exercise, Exercise.new.
    rewrite (pool_names_accepted _ _ _ Hname), Hgok.
    unfold Exercise.is_cardio. cbn [Exercise.grupo]. rewrite Hlow.
    unfold Exercise.falsy_str.
    change (str_of_Z d1.1 ++ "-" ++ str_of_Z d2.1)%string
      with (str_of_Z d1.1 ++ String "-" (str_of_Z d2.1))%string.
    change (str_of_Z d3.1 ++ "s")%string
      with (str_of_Z d3.1 ++ String "s" EmptyString)%string.
    rewrite !suffixed_truthy. reflexivity.
  - exists params, d1.1, d2.1, d3.1.
    split; [exact Hparams|]. split; [exact H1|]. split; [exact H2|].
    split; [exact H3|]. split; [exact Hname|reflexivity].
Qed.

Lemma explore_group_run (structure group : string) (g : rng) :
  group ∈ ["pecho"; "espalda"; "piernas"; "hombros"; "brazos"; "core"]%string →
  ∃ exs g1,
    AIService.explore_group sample randint choice profile structure group g =
      (inr exs, g1) ∧
    length exs = group_load profile structure group ∧
    Forall (explored_strength profile group) exs.
Proof.
  intros Hgroup. unfold AIService.explore_group, group_load.
  pose proof (exercises_per_group_range group structure
                (Profile.nivel_str profile)) as Hcount.
  destruct (select_innovative_run group
              (AIService._decide_exercises_per_group group structure
                 (Profile.nivel_str profile)) g ltac:(lia))
    as (names & g1 & Hrun & Hlen & Hnames).
  rewrite (gbind_run _ _ _ _ _ Hrun). rewrite <- Hlen. clear Hrun Hlen.
  revert g1. induction names as [|name names IH]; intros g1.
  - exists [], g1. split; [reflexivity|]. split; [reflexivity|constructor].
  - apply Forall_cons in Hnames as [Hname Hnames].
    destruct (strength_exercise_run group name g1 Hgroup Hname)
      as (ex & g2 & Hex & _ & Hshape).
    destruct (IH Hnames g2) as (exs & g3 & Hexs & Hl & Hall).
    exists (ex :: exs), g3. split; [|split].
    + cbn [gfor]. rewrite (gbind_run _ _ _ _ _ Hex).
      rewrite (gbind_run _ _ _ _ _ Hexs). reflexivity.
    + cbn [length]. rewrite Hl. reflexivity.
    + constructor; assumption.
Qed.

Lemma explore_groups_run (structure : string) (groups : list string) (g : rng) :
  Forall (fun group =>
            group ∈ ["pecho"; "espalda"; "piernas"; "hombros"; "brazos";
                     "core"]%string) groups →
  ∃ per_group g1,
    gfor (AIService.explore_group sample randint choice profile structure)
      groups g = (inr per_group, g1) ∧
    length (concat per_group) =
      sum_list (map (group_load profile structure) groups) ∧
    Forall (fun ex => ∃ group, group ∈ groups ∧
                               explored_strength profile group ex)
           (concat per_group).
Proof.
  intros Hgroups. revert g.
  induction groups as [|group groups IH]; intros g.
  - exists [], g. split; [reflexivity|]. split; [reflexivity|constructor].
  - apply Forall_cons in Hgroups as [Hgroup Hgroups].
    destruct (explore_group_run structure group g Hgroup)
      as (exs & g1 & Hrun & Hlen & Hall).
    destruct (IH Hgroups g1) as (rest & g2 & Hrest & Hlen' & Hall').
    exists (exs :: rest), g2. split; [|split].
    + cbn [gfor]. rewrite (gbind_run _ _ _ _ _ Hrun).
      rewrite (gbind_run _ _ _ _ _ Hrest). reflexivity.
    + cbn [concat map sum_list sum_list_with]. rewrite length_app, Hlen, Hlen'.
      reflexivity.
    + cbn [concat]. apply Forall_app. split.
      * apply Forall_forall. intros ex Hex. exists group.
        split; [left|]. rewrite Forall_forall in Hall. apply Hall, Hex.
      * apply Forall_forall. intros ex Hex.
        rewrite Forall_forall in Hall'. destruct (Hall' ex Hex) as (g' & Hg' & Hs).
        exists g'. split; [right; exact Hg'|exact Hs].
Qed.

Lemma cardio_exercise_run (g : rng) :
  ∃ c g1,
    AIService._generate_cardio_exercise randint choice
      (Profile.objetivo_str profile) g = (inr c, g1) ∧
    explored_cardio (Profile.objetivo_str profile) c.
Proof.
  unfold AIService._generate_cardio_exercise.
  change (ExerciseDatabase.EXERCISES "cardio")
    with (Some (ExerciseDatabase.Plain (innovative_pool "cardio" ""))).
  cbn beta iota.
  set (options := innovative_pool "cardio" "").
  set (d0 := choice options g).
  assert (Hname : d0.1 ∈ options)
    by (apply (choice_elem _ _ _ Hrandom); discriminate).
  pose proof (pool_names_accepted "cardio" "" _ Hname) as Hok.
  rewrite (gbind_run _ _ g d0.2 d0.1) by (rewrite gdraw_run; reflexivity).
  assert (Hnew : ∀ minutes intensity (g' : rng),
            intensity ∈ ["moderada"; "alta"; "HIIT"]%string →
            AIService.new_cardio_exercise d0.1 (str_of_Z minutes ++ " min")
              intensity g' =
            (inr (Exercise.create_cardio_exercise d0.1
                    (str_of_Z minutes ++ " min") intensity), g')).
  { intros minutes intensity g' Hi.
    unfold AIService.new_cardio_exercise, Exercise.new. rewrite Hok.
    cbn [orb String.eqb strip]. unfold Exercise.falsy_str.
    change (str_of_Z minutes ++ " min")%string
      with (str_of_Z minutes ++ String " " "min")%string.
    rewrite suffixed_truthy.
    rewrite !elem_of_cons, elem_of_nil in Hi.
    repeat match goal with
           | H : _ ∨ _ |- _ => destruct H as [H|H]
           end;
      try contradiction; subst intensity; reflexivity. }
  destruct (String.eqb (Profile.objetivo_str profile) "perder_peso") eqn:E1;
    [|destruct (String.eqb (Profile.objetivo_str profile) "resistencia") eqn:E2].
  - set (d1 := randint 20 30 d0.2). set (d2 := choice ["alta"; "HIIT"]%string d1.2).
    assert (H1 : 20 <= d1.1 <= 30) by (apply (randint_range _ _ _ Hrandom); lia).
    assert (H2 : d2.1 ∈ ["alta"; "HIIT"]%string)
      by (apply (choice_elem _ _ _ Hrandom); discriminate).
    rewrite (gbind_run _ _ d0.2 d1.2 d1.1) by (rewrite gdraw_run; reflexivity).
    rewrite (gbind_run _ _ d1.2 d2.2 d2.1) by (rewrite gdraw_run; reflexivity).
    assert (Hi : d2.1 ∈ ["moderada"; "alta"; "HIIT"]%string) by (right; exact H2).
    eexists _, _. split; [apply Hnew; exact Hi|].
    exists d1.1, d2.1. split; [lia|]. split; [exact Hi|].
    split; [|split; [exact Hname|reflexivity]].
    intros _. split; [exact H1|].
    rewrite !elem_of_cons, elem_of_nil in H2.
    destruct H2 as [->|[->|[]]]; discriminate.
  - set (d1 := randint 25 40 d0.2).
    set (d2 := choice ["moderada"; "alta"]%string d1.2).
    assert (H1 : 25 <= d1.1 <= 40) by (apply (randint_range _ _ _ Hrandom); lia).
    assert (H2 : d2.1 ∈ ["moderada"; "alta"]%string)
      by (apply (choice_elem _ _ _ Hrandom); discriminate).
    rewrite (gbind_run _ _ d0.2 d1.2 d1.1) by (rewrite gdraw_run; reflexivity).
    rewrite (gbind_run _ _ d1.2 d2.2 d2.1) by (rewrite gdraw_run; reflexivity).
    assert (Hi : d2.1 ∈ ["moderada"; "alta"; "HIIT"]%string).
    { rewrite !elem_of_cons, elem_of_nil in H2.
      rewrite !elem_of_cons. tauto. }
    eexists _, _. split; [apply Hnew; exact Hi|].
    exists d1.1, d2.1. split; [lia|]. split; [exact Hi|].
    split; [|split; [exact Hname|reflexivity]].
    intros Hp. rewrite Hp in E1. discriminate.
  - set (d1 := randint 15 20 d0.2).
    assert (H1 : 15 <= d1.1 <= 20) by (apply (randint_range _ _ _ Hrandom); lia).
    rewrite (gbind_run _ _ d0.2 d1.2 d1.1) by (rewrite gdraw_run; reflexivity).
    assert (Hi : "moderada"%string ∈ ["moderada"; "alta"; "HIIT"]%string)
      by left.
    eexists _, _. split; [apply Hnew; exact Hi|].
    exists d1.1, "moderada"%string. split; [lia|]. split; [exact Hi|].
    split; [|split; [exact Hname|reflexivity]].
    intros Hp. rewrite Hp in E1. discriminate.
Qed.

Lemma explore_day_run (structure : string) (day_num : Z)
    (groups : list string) (g : rng) :
  Forall (fun group =>
            group ∈ ["pecho"; "espalda"; "piernas"; "hombros"; "brazos";
                     "core"]%string) groups →
  ∃ day g1,
    AIService.explore_day sample randint random choice profile structure
      day_num groups g = (inr day, g1) ∧
    explored_day profile structure day_num groups day.
Proof.
  intros Hgroups. unfold AIService.explore_day.
  destruct (explore_groups_run structure groups g Hgroups)
    as (per_group & g1 & Hrun & Hlen & Hall).
  rewrite (gbind_run _ _ _ _ _ Hrun).
  unfold AIService._needs_cardio. rewrite Hparams.
  set (d := random g1).
  rewrite (gbind_run _ _ g1 d.2
             (negb (Qle_bool (RoutineConfig.cardio_probability params) d.1)))
    by (rewrite (gbind_run _ _ g1 d.2 d.1) by (rewrite gdraw_run; reflexivity);
        reflexivity).
  destruct (negb _).
  - destruct (cardio_exercise_run d.2) as (c & g2 & Hc & Hshape).
    rewrite (gbind_run _ _ d.2 g2 (concat per_group ++ [c])%list)
      by (rewrite (gbind_run _ _ _ _ _ Hc); reflexivity).
    eexists _, _. split; [reflexivity|]. split; [reflexivity|].
    exists (concat per_group), [c]. split; [reflexivity|].
    split; [exact Hlen|]. split; [exact Hall|]. right. exists c. auto.
  - rewrite (gbind_run _ _ d.2 d.2 (concat per_group)) by reflexivity.
    eexists _, _. split; [reflexivity|]. split; [reflexivity|].
    exists (concat per_group), []. split; [rewrite app_nil_r; reflexivity|].
    split; [exact Hlen|]. split; [exact Hall|]. left. reflexivity.
Qed.

Lemma explore_days_run (structure : string) (plan : list (list string)) :
  Forall (Forall (fun group =>
                    group ∈ ["pecho"; "espalda"; "piernas"; "hombros";
                             "brazos"; "core"]%string)) plan →
  ∀ (day_num : Z) (g : rng),
  ∃ days g1,
    AIService.explore_days sample randint random choice profile structure
      day_num plan g = (inr days, g1) ∧
    length days = length plan ∧
    ∀ (i : nat) groups day,
      plan !! i = Some groups → days !! i = Some day →
      explored_day profile structure (day_num + Z.of_nat i) groups day.
Proof.
  induction plan as [|groups plan IH]; intros Hplan day_num g.
  - exists [], g. split; [reflexivity|]. split; [reflexivity|].
    intros i groups day H. rewrite lookup_nil in H. discriminate.
  - apply Forall_cons in Hplan as [Hgroups Hplan].
    destruct (explore_day_run structure day_num groups g Hgroups)
      as (day & g1 & Hday & Hshape).
    destruct (IH Hplan (day_num + 1) g1) as (days & g2 & Hdays & Hlen & Hall).
    exists (day :: days), g2. split; [|split].
    + cbn [AIService.explore_days]. rewrite (gbind_run _ _ _ _ _ Hday).
      rewrite (gbind_run _ _ _ _ _ Hdays). reflexivity.
    + cbn [length]. rewrite Hlen. reflexivity.
    + intros [|i] groups' day' Hg Hd.
      * cbn in Hg, Hd. injection Hg as <-. injection Hd as <-.
        replace (day_num + Z.of_nat 0) with day_num by lia. exact Hshape.
      * cbn in Hg, Hd.
        replace (day_num + Z.of_nat (Datatypes.S i))
          with (day_num + 1 + Z.of_nat i) by lia.
        apply (Hall i groups' day' Hg Hd).
Qed.

Lemma exploration_routine_run (g : rng) :
  ∃ result g1,
    AIService._generate_exploration_routine sample randint random choice
      profile g = (inr result, g1) ∧
    AIService.rd_estructura result =
      AIService._decide_structure (Profile.dias profile) ∧
    AIService.rd_metadatos result = AIService.exploration_metadatos ∧
    length (AIService.rd_rutina_semanal result) =
      length (AIService._decide_groups_per_day
                (AIService._decide_structure (Profile.dias profile))
                (Profile.dias profile)) ∧
    ∀ (i : nat) groups day,
      AIService._decide_groups_per_day
        (AIService._decide_structure (Profile.dias profile))
        (Profile.dias profile) !! i = Some groups →
      AIService.rd_rutina_semanal result !! i = Some day →
      explored_day profile (AIService._decide_structure (Profile.dias profile))
        (1 + Z.of_nat i) groups day.
Proof.
  unfold AIService._generate_exploration_routine.
  set (structure := AIService._decide_structure (Profile.dias profile)).
  set (plan := AIService._decide_groups_per_day structure (Profile.dias profile)).
  assert (Hplan : Forall (Forall (fun group =>
                    group ∈ ["pecho"; "espalda"; "piernas"; "hombros";
                             "brazos"; "core"]%string)) plan).
  { apply Forall_forall. intros groups Hin. apply Forall_forall.
    intros group Hg.
    apply (planned_groups_known structure (Profile.dias profile) groups group);
      assumption. }
  destruct (explore_days_run structure plan Hplan 1 g)
    as (days & g1 & Hrun & Hlen & Hall).
  rewrite (gbind_run _ _ _ _ _ Hrun).
  eexists _, _. split; [reflexivity|]. cbn.
  split; [reflexivity|]. split; [reflexivity|]. split; [exact Hlen|exact Hall].
Qed.

End ExplorationGenerator.

Section ExploredExercises.

Lemma explored_strength_accepted (profile : Profile.t) (group : string)
    (ex : Exercise.t) :
  group ∈ ["pecho"; "espalda"; "piernas"; "hombros"; "brazos"; "core"]%string →
  explored_strength profile group ex →
  Exercise.is_cardio ex = false ∧
  Exercise.new (Exercise.ejercicio ex) (Exercise.grupo ex) (Exercise.series ex)
    (Exercise.repeticiones ex) (Exercise.descanso ex) (Exercise.duracion ex)
    (Exercise.intensidad ex) (Exercise.notas ex) = inr ex.
Proof.
  intros Hgroup (params & low & high & rest & _ & _ & _ & _ & Hname & Hex).
  destruct (known_group_accepted group Hgroup) as (_ & Hgok & Hlow).
  pose proof (pool_names_accepted _ _ _ Hname) as Hok.
  set (name := Exercise.ejercicio ex) in *. rewrite Hex.
  unfold Exercise.create_strength_exercise, Exercise.is_cardio, Exercise.new.
  cbn [Exercise.ejercicio Exercise.grupo Exercise.series Exercise.repeticiones
       Exercise.descanso Exercise.duracion Exercise.intensidad Exercise.notas].
  rewrite Hok, Hgok. unfold Exercise.is_cardio. cbn [Exercise.grupo].
  rewrite Hlow. split; [reflexivity|].
  unfold Exercise.falsy_str, Calculations.format_rep_range.
  change (str_of_Z low ++ "-" ++ str_of_Z high)%string
    with (str_of_Z low ++ String "-" (str_of_Z high))%string.
  change (str_of_Z rest ++ "s")%string
    with (str_of_Z rest ++ String "s" EmptyString)%string.
  rewrite !suffixed_truthy. reflexivity.
Qed.

Lemma explored_cardio_accepted (objetivo : string) (ex : Exercise.t) :
  explored_cardio objetivo ex →
  Exercise.is_cardio ex = true ∧
  Exercise.new (Exercise.ejercicio ex) (Exercise.grupo ex) (Exercise.series ex)
    (Exercise.repeticiones ex) (Exercise.descanso ex) (Exercise.duracion ex)
    (Exercise.intensidad ex) (Exercise.notas ex) = inr ex.
Proof.
  intros (minutes & intensity & _ & Hi & _ & Hname & Hex).
  pose proof (pool_names_accepted _ _ _ Hname) as Hok.
  set (name := Exercise.ejercicio ex) in *. rewrite Hex.
  unfold Exercise.create_cardio_exercise, Exercise.new.
  cbn [Exercise.ejercicio Exercise.grupo Exercise.series Exercise.repeticiones
       Exercise.descanso Exercise.duracion Exercise.intensidad Exercise.notas].
  rewrite Hok. split; [reflexivity|].
  cbn [orb String.eqb strip]. unfold Exercise.falsy_str.
  change (str_of_Z minutes ++ " min")%string
    with (str_of_Z minutes ++ String " " "min")%string.
  rewrite suffixed_truthy.
  rewrite !elem_of_cons, elem_of_nil in Hi.
  repeat match goal with
         | H : _ ∨ _ |- _ => destruct H as [H|H]
         end;
    try contradiction; subst intensity; reflexivity.
Qed.

Lemma validated_profile_tables (edad : Z) (peso altura : Q)
    (nivel objetivo : string) (dias : Z) (created_at : string)
    (profile : Profile.t) :
  Profile.new edad peso altura nivel objetivo dias created_at = inr profile →
  2 <= Profile.dias profile <= 7 ∧
  is_Some (RoutineConfig.PARAMS_BY_GOAL (Profile.objetivo_str profile)) ∧
  (Profile.nivel_str profile = "principiante" ∨
   Profile.nivel_str profile = "intermedio" ∨
   Profile.nivel_str profile = "avanzado").
Proof.
  intros Hnew. apply profile_new_inr in Hnew as [Hv ->].
  apply validate_nil in Hv.
  destruct Hv as (_ & _ & _ & _ & _ & [n Hn] & [o Ho] & Hd).
  cbn [Profile.dias Profile.objetivo_str Profile.nivel_str].
  destruct (level_table _ _ Hn) as (_ & _ & Hl).
  destruct (goal_table _ _ Ho) as (_ & Hg & _).
  auto.
Qed.

Lemma day_keys_distinct (days : list (string * list Exercise.t)) :
  (length days <= 6)%nat →
  (∀ (i : nat) day, days !! i = Some day →
                    day.1 = ("Día " ++ str_of_Z (1 + Z.of_nat i))%string) →
  map fst days =
    take (length days)
         ["Día 1"; "Día 2"; "Día 3"; "Día 4"; "Día 5"; "Día 6"]%string ∧
  NoDup (map fst days).
Proof.
  intros Hlen Hkeys.
  assert (Heq : map fst days =
                take (length days)
                  ["Día 1"; "Día 2"; "Día 3"; "Día 4"; "Día 5"; "Día 6"]%string).
  { apply list_eq. intros i.
    destruct (days !! i) as [day|] eqn:E.
    - pose proof (lookup_lt_Some _ _ _ E) as Hi.
      rewrite list_lookup_fmap, E. cbn [fmap option_fmap option_map].
      rewrite (Hkeys i day E), lookup_take_lt by lia.
      do 6 (destruct i as [|i]; [reflexivity|]). lia.
    - pose proof (lookup_ge_None_1 _ _ E) as Hi.
      rewrite list_lookup_fmap, E. cbn [fmap option_fmap option_map].
      symmetry. apply lookup_ge_None_2. rewrite length_take. lia. }
  split; [exact Heq|]. rewrite Heq.
  refine (sublist_NoDup _ _ _ (sublist_take _ _)).
  apply (bool_decide_unpack _). vm_compute. reflexivity.
Qed.

End ExploredExercises.

(** X27: for a profile the constructor accepted, and whatever the random
    module draws, [_generate_exploration_routine] raises nothing and
    returns a plan with the structure [_decide_structure] chose, the
    metadata of the exploration mode, and one day for each day planned:
    as many as the training days, but six for seven.  The days are keyed
    'Día 1', 'Día 2', ... in order, so no key is written twice; every
    exercise of the plan is one its constructor accepts, and the [Routine]
    constructor accepts the plan. *)
Theorem X27_exploration_routine_is_built {rng : Type}
    (sample : list string → nat → rng → list string * rng)
    (randint : Z → Z → rng → Z * rng) (random : rng → Q * rng)
    (choice : list string → rng → string * rng)
    (edad : Z) (peso altura : Q) (nivel objetivo : string) (dias : Z)
    (created_at : string) (profile : Profile.t) (g : rng) :
  random_spec sample randint choice →
  Profile.new edad peso altura nivel objetivo dias created_at = inr profile →
  ∃ result g1,
    AIService._generate_exploration_routine sample randint random choice
      profile g = (inr result, g1) ∧
    AIService.rd_estructura result =
      AIService._decide_structure (Profile.dias profile) ∧
    AIService.rd_metadatos result = AIService.exploration_metadatos ∧
    length (AIService.rd_rutina_semanal result) =
      Z.to_nat (Z.min (Profile.dias profile) 6) ∧
    map fst (AIService.rd_rutina_semanal result) =
      take (length (AIService.rd_rutina_semanal result))
           ["Día 1"; "Día 2"; "Día 3"; "Día 4"; "Día 5"; "Día 6"]%string ∧
    NoDup (map fst (AIService.rd_rutina_semanal result)) ∧
    (∀ day ex, day ∈ AIService.rd_rutina_semanal result → ex ∈ day.2 →
       Exercise.new (Exercise.ejercicio ex) (Exercise.grupo ex)
         (Exercise.series ex) (Exercise.repeticiones ex) (Exercise.descanso ex)
         (Exercise.duracion ex) (Exercise.intensidad ex) (Exercise.notas ex) =
       inr ex) ∧
    (∀ fresh fecha,
       ∃ r, Routine.new profile (AIService.rd_rutina_semanal result)
              (AIService.rd_estructura result) (AIService.rd_metadatos result)
              None fresh fecha = inr r ∧
            Routine.rutina_semanal r = AIService.rd_rutina_semanal result).
Proof.
  intros Hrandom Hnew.
  destruct (validated_profile_tables _ _ _ _ _ _ _ _ Hnew)
    as (Hdias & [params Hparams] & _).
  destruct (exploration_routine_run sample randint random choice Hrandom
              profile params Hparams g)
    as (result & g1 & Hrun & Hs & Hm & Hlen & Hdays).
  rewrite decide_structure_plan_length in Hlen by lia.
  exists result, g1. split; [exact Hrun|]. split; [exact Hs|].
  split; [exact Hm|]. split; [exact Hlen|].
  set (plan := AIService._decide_groups_per_day
                 (AIService._decide_structure (Profile.dias profile))
                 (Profile.dias profile)) in *.
  assert (Hplan_len : length plan = length (AIService.rd_rutina_semanal result)).
  { subst plan. rewrite decide_structure_plan_length by lia. congruence. }
  assert (Hkeys : ∀ (i : nat) day,
            AIService.rd_rutina_semanal result !! i = Some day →
            day.1 = ("Día " ++ str_of_Z (1 + Z.of_nat i))%string).
  { intros i day Hday.
    destruct (plan !! i) as [groups|] eqn:Eg.
    - destruct (Hdays i groups day Eg Hday) as [Hk _]. exact Hk.
    - apply lookup_ge_None_1 in Eg. apply lookup_lt_Some in Hday. lia. }
  destruct (day_keys_distinct (AIService.rd_rutina_semanal result)
              ltac:(lia) Hkeys) as [Hmap Hnodup].
  split; [exact Hmap|]. split; [exact Hnodup|]. split.
  - intros day ex Hday Hex.
    apply list_elem_of_lookup in Hday as [i Hi].
    destruct (plan !! i) as [groups|] eqn:Eg;
      [|apply lookup_ge_None_1 in Eg; apply lookup_lt_Some in Hi; lia].
    destruct (Hdays i groups day Eg Hi)
      as (_ & strength & cardio & Hsplit & _ & Hstrength & Hcardio).
    rewrite Hsplit in Hex. apply elem_of_app in Hex as [Hex|Hex].
    + rewrite Forall_forall in Hstrength.
      destruct (Hstrength ex Hex) as (group & Hgroup & Hshape).
      apply (explored_strength_accepted profile group); [|exact Hshape].
      apply (planned_groups_known
               (AIService._decide_structure (Profile.dias profile))
               (Profile.dias profile) groups); [|exact Hgroup].
      apply list_elem_of_lookup. exists i. exact Eg.
    + destruct Hcardio as [->|(c & -> & Hshape)].
      * apply elem_of_nil in Hex. contradiction.
      * apply list_elem_of_singleton in Hex as ->.
        apply (explored_cardio_accepted _ _ Hshape).
  - intros fresh fecha. rewrite Hs, Hm.
    destruct (decide_structure_accepted (Profile.dias profile) profile
                (AIService.rd_rutina_semanal result)
                AIService.exploration_metadatos None fresh fecha)
      as (r & Hr & Hplan & _).
    + intros Hnil. rewrite Hnil in Hlen. cbn [length] in Hlen. lia.
    + exists r. split; [exact Hr|exact Hplan].
Qed.

Lemma X27_exploration_routine_is_built_witness :
  ∃ result g1,
    AIService._generate_exploration_routine first_sample low_randint
      zero_random first_choice sample_profile tt = (inr result, g1) ∧
    length (AIService.rd_rutina_semanal result) = 4%nat.
Proof.
  assert (Hrandom : random_spec first_sample low_randint first_choice).
  { constructor.
    - intros pool k g Hk. cbn. rewrite length_take. lia.
    - intros pool k g x Hx. cbn in Hx. apply (subseteq_take k pool x Hx).
    - intros a b g Hab. cbn. lia.
    - intros [|x l] g Hne; [contradiction|]. cbn. left. }
  destruct (X27_exploration_routine_is_built first_sample low_randint
              zero_random first_choice 25 70 1.75 "intermedio" "ganar_masa" 4
              "2025-01-01T10:00:00" sample_profile tt Hrandom eq_refl)
    as (result & g1 & Hrun & _ & _ & Hlen & _).
  exists result, g1. split; [exact Hrun|exact Hlen].
Defined.

Section ExploredPlan.

Context {rng : Type}.
Variable sample : list string → nat → rng → list string * rng.
Variable randint : Z → Z → rng → Z * rng.
Variable random : rng → Q * rng.
Variable choice : list string → rng → string * rng.
Hypothesis Hrandom : random_spec sample randint choice.

Variables (edad : Z) (peso altura : Q) (nivel objetivo : string) (dias : Z).
Variables (created_at : string) (profile : Profile.t).
Hypothesis Hnew :
  Profile.new edad peso altura nivel objetivo dias created_at = inr profile.

Variables (g g1 : rng) (result : AIService.routine_dict).
Hypothesis Hrun :
  AIService._generate_exploration_routine sample randint random choice
    profile g = (inr result, g1).

(** Every day of the plan built is a day of the generator for the groups
    planned for it. *)
Lemma exploration_days_shape (i : nat) (day : string * list Exercise.t) :
  AIService.rd_rutina_semanal result !! i = Some day →
  ∃ groups,
    AIService._decide_groups_per_day
      (AIService._decide_structure (Profile.dias profile))
      (Profile.dias profile) !! i = Some groups ∧
    explored_day profile (AIService._decide_structure (Profile.dias profile))
      (1 + Z.of_nat i) groups day.
Proof.
  intros Hday.
  destruct (validated_profile_tables _ _ _ _ _ _ _ _ Hnew)
    as (Hdias & [params Hparams] & _).
  destruct (exploration_routine_run sample randint random choice Hrandom
              profile params Hparams g)
    as (result' & g1' & Hrun' & _ & _ & Hlen & Hdays).
  rewrite Hrun in Hrun'. injection Hrun' as <- <-.
  destruct (AIService._decide_groups_per_day _ _ !! i) as [groups|] eqn:Eg.
  - exists groups. split; [reflexivity|]. apply Hdays; assumption.
  - apply lookup_ge_None_1 in Eg. apply lookup_lt_Some in Hday. lia.
Qed.

End ExploredPlan.

Section RepetitionRanges.

Lemma extract_rep_range_format (low high : Z) :
  0 <= low → 0 <= high →
  Calculations.extract_rep_range (Calculations.format_rep_range low high) =
    (low, high).
Proof.
  intros Hl Hh.
  unfold Calculations.extract_rep_range, Calculations.format_rep_range.
  destruct (str_of_Z_nonneg low Hl) as (Hda & _ & _).
  destruct (str_of_Z_nonneg high Hh) as (Hdb & _ & _).
  change (str_of_Z low ++ "-" ++ str_of_Z high)%string
    with (str_of_Z low ++ String "-" (str_of_Z high))%string.
  rewrite contains_dash_joined, (split_dash_joined _ _ Hda),
    (split_dash_digits _ Hdb).
  rewrite !py_int_of_string_str_of_Z by assumption. reflexivity.
Qed.

Lemma series_of_level (nivel : string) :
  nivel = "principiante" ∨ nivel = "intermedio" ∨ nivel = "avanzado" →
  3 <= default 4 (RoutineConfig.SERIES_BY_LEVEL nivel) <= 5.
Proof. intros [->|[->| ->]]; vm_compute; split; discriminate. Qed.

(** The number of strength exercises of a planned day, by structure and
    level. *)
Lemma planned_load (profile : Profile.t) (groups : list string) :
  Profile.nivel_str profile = "principiante" ∨
  Profile.nivel_str profile = "intermedio" ∨
  Profile.nivel_str profile = "avanzado" →
  2 <= Profile.dias profile →
  groups ∈ AIService._decide_groups_per_day
             (AIService._decide_structure (Profile.dias profile))
             (Profile.dias profile) →
  (2 <= sum_list (map (group_load profile
                         (AIService._decide_structure (Profile.dias profile)))
                      groups) <= 10)%nat ∧
  (Profile.dias profile <= 3 →
   sum_list (map (group_load profile
                    (AIService._decide_structure (Profile.dias profile)))
                 groups) =
   if String.eqb (Profile.nivel_str profile) "principiante"
   then 5%nat else 10%nat).
Proof.
  intros Hlevel Hdias. unfold group_load, AIService._decide_structure.
  destruct (Profile.dias profile <=? 3) eqn:E3;
    [|destruct (Profile.dias profile =? 4) eqn:E4]; Zleb_to_prop.
  - change (AIService._decide_groups_per_day "fullbody" (Profile.dias profile))
      with (replicate (Z.to_nat (Profile.dias profile))
              ["pecho"; "espalda"; "piernas"; "hombros"; "brazos"]%string).
    intros Hin. apply elem_of_replicate in Hin as [-> _].
    destruct Hlevel as [->|[->| ->]]; vm_compute; repeat split; lia.
  - change (AIService._decide_groups_per_day "upper_lower" (Profile.dias profile))
      with (slice_to (Profile.dias profile)
              [["pecho"; "espalda"; "hombros"; "brazos"];
               ["piernas"; "core"];
               ["pecho"; "espalda"; "brazos"];
               ["piernas"; "hombros"; "core"]]%string).
    intros Hin. apply slice_to_elem in Hin.
    rewrite !elem_of_cons, elem_of_nil in Hin.
    split; [|intros; lia]. revert Hlevel.
    repeat match goal with
           | H : _ ∨ _ |- _ => destruct H as [H|H]
           end;
      try contradiction; subst groups;
      intros [->|[->| ->]]; vm_compute; repeat split; lia.
  - change (AIService._decide_groups_per_day "split" (Profile.dias profile))
      with (slice_to (Profile.dias profile)
              [["pecho"; "brazos"]; ["espalda"]; ["piernas"];
               ["hombros"; "brazos"]; ["pecho"; "espalda"];
               ["piernas"; "core"]]%string).
    intros Hin. apply slice_to_elem in Hin.
    rewrite !elem_of_cons, elem_of_nil in Hin.
    split; [|intros; lia]. revert Hlevel.
    repeat match goal with
           | H : _ ∨ _ |- _ => destruct H as [H|H]
           end;
      try contradiction; subst groups;
      intros [->|[->| ->]]; vm_compute; repeat split; lia.
Qed.

Lemma total_exercises_at_least (n : nat)
    (days : list (string * list Exercise.t)) :
  (∀ day, day ∈ days → (n <= length day.2)%nat) →
  (n * length days <=
   foldr (fun day k => (length day.2 + k)%nat) 0%nat days)%nat.
Proof.
  induction days as [|d days IH]; intros H; cbn [foldr length]; [lia|].
  pose proof (H d ltac:(left)).
  assert (n * length days <=
          foldr (fun day k => (length day.2 + k)%nat) 0%nat days)%nat
    by (apply IH; intros day Hd; apply H; right; exact Hd).
  lia.
Qed.

End RepetitionRanges.

(** X28: the days of an exploration plan.  Each day holds strength
    exercises, then at most one cardio exercise.  A strength exercise
    belongs to one of the groups planned for that day, bears a name of the
    database for that group and the level of the profile, has the series
    of the level (3 to 5), and a repetition range that [extract_rep_range]
    reads back as a lower bound within two of the goal's minimum and an
    upper bound within two of its maximum, the lower never above the
    upper.  A cardio exercise lasts 15 to 40 minutes and has no series.
    So the check of [validate_routine_quality] for too few series never
    fires on a plan of the generator. *)
Theorem X28_explored_days {rng : Type}
    (sample : list string → nat → rng → list string * rng)
    (randint : Z → Z → rng → Z * rng) (random : rng → Q * rng)
    (choice : list string → rng → string * rng)
    (edad : Z) (peso altura : Q) (nivel objetivo : string) (dias : Z)
    (created_at : string) (profile : Profile.t) (g g1 : rng)
    (result : AIService.routine_dict) :
  random_spec sample randint choice →
  Profile.new edad peso altura nivel objetivo dias created_at = inr profile →
  AIService._generate_exploration_routine sample randint random choice
    profile g = (inr result, g1) →
  (∀ (i : nat) day,
     AIService.rd_rutina_semanal result !! i = Some day →
     ∃ groups strength cardio,
       AIService._decide_groups_per_day
         (AIService._decide_structure (Profile.dias profile))
         (Profile.dias profile) !! i = Some groups ∧
       day.2 = (strength ++ cardio)%list ∧
       (length cardio <= 1)%nat ∧
       Forall (fun ex =>
                 Exercise.is_cardio ex = false ∧
                 Exercise.grupo ex ∈ groups ∧
                 Exercise.ejercicio ex ∈
                   innovative_pool (Exercise.grupo ex)
                                   (Profile.nivel_str profile) ∧
                 (∃ s, Exercise.series ex = Some s ∧
                       RoutineConfig.SERIES_BY_LEVEL
                         (Profile.nivel_str profile) = Some s ∧
                       3 <= s <= 5) ∧
                 ∃ params reps low high,
                   RoutineConfig.PARAMS_BY_GOAL (Profile.objetivo_str profile) =
                     Some params ∧
                   Exercise.repeticiones ex = Some reps ∧
                   Calculations.extract_rep_range reps = (low, high) ∧
                   RoutineConfig.reps_min params <= low <=
                     RoutineConfig.reps_min params + 2 ∧
                   RoutineConfig.reps_max params - 2 <= high <=
                     RoutineConfig.reps_max params ∧
                   low <= high)
              strength ∧
       Forall (fun ex =>
                 Exercise.is_cardio ex = true ∧
                 Exercise.series ex = None ∧
                 ∃ minutes,
                   Exercise.duracion ex = Some (str_of_Z minutes ++ " min")%string ∧
                   15 <= minutes <= 40)
              cardio) ∧
  AIService.few_series_problems (AIService.rd_rutina_semanal result) = [].
Proof.
  intros Hrandom Hnew Hrun.
  destruct (validated_profile_tables _ _ _ _ _ _ _ _ Hnew)
    as (Hdias & _ & Hlevel).
  pose proof (series_of_level _ Hlevel) as Hseries.
  assert (Hsome : RoutineConfig.SERIES_BY_LEVEL (Profile.nivel_str profile) =
                  Some (default 4 (RoutineConfig.SERIES_BY_LEVEL
                                     (Profile.nivel_str profile)))).
  { destruct Hlevel as [->|[->| ->]]; reflexivity. }
  assert (Hdaysok : ∀ (i : nat) day,
     AIService.rd_rutina_semanal result !! i = Some day →
     ∃ groups strength cardio,
       AIService._decide_groups_per_day
         (AIService._decide_structure (Profile.dias profile))
         (Profile.dias profile) !! i = Some groups ∧
       day.2 = (strength ++ cardio)%list ∧
       (length cardio <= 1)%nat ∧
       Forall (fun ex =>
                 Exercise.is_cardio ex = false ∧
                 Exercise.grupo ex ∈ groups ∧
                 Exercise.ejercicio ex ∈
                   innovative_pool (Exercise.grupo ex)
                                   (Profile.nivel_str profile) ∧
                 (∃ s, Exercise.series ex = Some s ∧
                       RoutineConfig.SERIES_BY_LEVEL
                         (Profile.nivel_str profile) = Some s ∧
                       3 <= s <= 5) ∧
                 ∃ params reps low high,
                   RoutineConfig.PARAMS_BY_GOAL (Profile.objetivo_str profile) =
                     Some params ∧
                   Exercise.repeticiones ex = Some reps ∧
                   Calculations.extract_rep_range reps = (low, high) ∧
                   RoutineConfig.reps_min params <= low <=
                     RoutineConfig.reps_min params + 2 ∧
                   RoutineConfig.reps_max params - 2 <= high <=
                     RoutineConfig.reps_max params ∧
                   low <= high)
              strength ∧
       Forall (fun ex =>
                 Exercise.is_cardio ex = true ∧
                 Exercise.series ex = None ∧
                 ∃ minutes,
                   Exercise.duracion ex = Some (str_of_Z minutes ++ " min")%string ∧
                   15 <= minutes <= 40)
              cardio).
  { intros i day Hday.
    destruct (exploration_days_shape sample randint random choice Hrandom
                _ _ _ _ _ _ _ _ Hnew _ _ _ Hrun i day Hday)
      as (groups & Hgroups & _ & strength & cardio & Hsplit & _ & Hstrength &
          Hcardio).
    exists groups, strength, cardio.
    split; [exact Hgroups|]. split; [exact Hsplit|].
    split; [destruct Hcardio as [->|(c & -> & _)]; cbn [length]; lia|].
    split.
    - apply Forall_forall. intros ex Hex. rewrite Forall_forall in Hstrength.
      destruct (Hstrength ex Hex) as (group & Hgroup & Hshape).
      assert (Hknown : group ∈ ["pecho"; "espalda"; "piernas"; "hombros";
                                "brazos"; "core"]%string).
      { apply (planned_groups_known
                 (AIService._decide_structure (Profile.dias profile))
                 (Profile.dias profile) groups); [|exact Hgroup].
        apply list_elem_of_lookup. exists i. exact Hgroups. }
      destruct (explored_strength_accepted _ _ _ Hknown Hshape) as [Hnc _].
      destruct Hshape as (params & low & high & rest & Hp & Hl & Hh & _ &
                          Hname & Hex').
      destruct (params_table _ _ Hp) as (_ & Hmin & Hspan).
      split; [exact Hnc|]. rewrite Hex'.
      cbn [Exercise.create_strength_exercise Exercise.grupo Exercise.ejercicio
           Exercise.series Exercise.repeticiones].
      split; [exact Hgroup|]. split; [exact Hname|]. split.
      + eexists. split; [reflexivity|]. split; [exact Hsome|exact Hseries].
      + exists params, (Calculations.format_rep_range low high), low, high.
        split; [exact Hp|]. split; [reflexivity|].
        split; [apply extract_rep_range_format; lia|].
        split; [exact Hl|]. split; [exact Hh|lia].
    - destruct Hcardio as [->|(c & -> & Hshape)]; [constructor|].
      constructor; [|constructor].
      destruct (explored_cardio_accepted _ _ Hshape) as [Hc _].
      destruct Hshape as (minutes & intensity & Hm & _ & _ & _ & Hex').
      split; [exact Hc|]. rewrite Hex'.
      cbn [Exercise.create_cardio_exercise Exercise.series Exercise.duracion].
      split; [reflexivity|]. exists minutes. split; [reflexivity|exact Hm]. }
  split; [exact Hdaysok|].
  apply few_series_problems_nil. intros day ex Hday Hex Hnc.
  apply list_elem_of_lookup in Hday as [i Hi].
  destruct (Hdaysok i day Hi)
    as (groups & strength & cardio & _ & Hsplit & _ & Hstrength & Hcardio).
  rewrite Hsplit in Hex. apply elem_of_app in Hex as [Hex|Hex].
  - rewrite Forall_forall in Hstrength.
    destruct (Hstrength ex Hex) as (_ & _ & _ & (s & Hs & _ & Hrange) & _).
    exists s. split; [exact Hs|lia].
  - rewrite Forall_forall in Hcardio.
    destruct (Hcardio ex Hex) as (Hc & _). congruence.
Qed.

Lemma X28_explored_days_witness :
  ∃ result g1,
    AIService._generate_exploration_routine first_sample low_randint
      zero_random first_choice sample_profile tt = (inr result, g1) ∧
    AIService.few_series_problems (AIService.rd_rutina_semanal result) = [].
Proof.
  assert (Hrandom : random_spec first_sample low_randint first_choice).
  { constructor.
    - intros pool k g Hk. cbn. rewrite length_take. lia.
    - intros pool k g x Hx. cbn in Hx. apply (subseteq_take k pool x Hx).
    - intros a b g Hab. cbn. lia.
    - intros [|x l] g Hne; [contradiction|]. cbn. left. }
  eexists _, _. split; [vm_compute; reflexivity|].
  refine (proj2 (X28_explored_days first_sample low_randint zero_random
                   first_choice 25 70 1.75 "intermedio" "ganar_masa" 4
                   "2025-01-01T10:00:00" sample_profile tt tt _ Hrandom
                   eq_refl _)).
  vm_compute. reflexivity.
Defined.

(** X29: the size of the days of an exploration plan.  A day holds
    between 2 and 11 exercises.  With three training days or fewer the
    plan is a full-body one: each day of a beginner holds 5 or 6
    exercises, and each day of an intermediate or advanced user holds 10
    or 11 -- more than the 8 per day [validate_routine_quality] allows, so
    every such plan is turned down by it with the message about too many
    exercises. *)
Theorem X29_explored_plan_load {rng : Type}
    (sample : list string → nat → rng → list string * rng)
    (randint : Z → Z → rng → Z * rng) (random : rng → Q * rng)
    (choice : list string → rng → string * rng)
    (edad : Z) (peso altura : Q) (nivel objetivo : string) (dias : Z)
    (created_at : string) (profile : Profile.t) (g g1 : rng)
    (result : AIService.routine_dict) :
  random_spec sample randint choice →
  Profile.new edad peso altura nivel objetivo dias created_at = inr profile →
  AIService._generate_exploration_routine sample randint random choice
    profile g = (inr result, g1) →
  (∀ day, day ∈ AIService.rd_rutina_semanal result →
          (2 <= length day.2 <= 11)%nat) ∧
  (Profile.dias profile <= 3 →
   Profile.nivel_str profile = "principiante" →
   ∀ day, day ∈ AIService.rd_rutina_semanal result →
          (5 <= length day.2 <= 6)%nat) ∧
  (Profile.dias profile <= 3 →
   Profile.nivel_str profile ≠ "principiante" →
   (∀ day, day ∈ AIService.rd_rutina_semanal result →
           (10 <= length day.2 <= 11)%nat) ∧
   ∀ (order : gset string → list string) (r : Routine.t),
     Routine.rutina_semanal r = AIService.rd_rutina_semanal result →
     (AIService.validate_routine_quality order r).1 = false ∧
     "Demasiados ejercicios por día" ∈
       (AIService.validate_routine_quality order r).2).
Proof.
  intros Hrandom Hnew Hrun.
  destruct (validated_profile_tables _ _ _ _ _ _ _ _ Hnew)
    as (Hdias & [params Hparams] & Hlevel).
  assert (Hday : ∀ day, day ∈ AIService.rd_rutina_semanal result →
            ∃ groups load extra,
              groups ∈ AIService._decide_groups_per_day
                         (AIService._decide_structure (Profile.dias profile))
                         (Profile.dias profile) ∧
              load = sum_list
                       (map (group_load profile
                               (AIService._decide_structure
                                  (Profile.dias profile))) groups) ∧
              (extra <= 1)%nat ∧
              length day.2 = (load + extra)%nat).
  { intros day Hin. apply list_elem_of_lookup in Hin as [i Hi].
    destruct (exploration_days_shape sample randint random choice Hrandom
                _ _ _ _ _ _ _ _ Hnew _ _ _ Hrun i day Hi)
      as (groups & Hgroups & _ & strength & cardio & Hsplit & Hload & _ &
          Hcardio).
    exists groups, (length strength), (length cardio).
    split; [apply list_elem_of_lookup; exists i; exact Hgroups|].
    split; [exact Hload|]. split.
    - destruct Hcardio as [->|(c & -> & _)]; cbn [length]; lia.
    - rewrite Hsplit, length_app. reflexivity. }
  split; [|split].
  - intros day Hin.
    destruct (Hday day Hin) as (groups & load & extra & Hg & -> & He & ->).
    destruct (planned_load profile groups Hlevel ltac:(lia) Hg) as [Hrange _].
    lia.
  - intros H3 Hbeginner day Hin.
    destruct (Hday day Hin) as (groups & load & extra & Hg & -> & He & ->).
    destruct (planned_load profile groups Hlevel ltac:(lia) Hg) as [_ Hfull].
    rewrite (Hfull H3), Hbeginner. cbn. lia.
  - intros H3 Hnot.
    assert (Hten : ∀ day, day ∈ AIService.rd_rutina_semanal result →
                          (10 <= length day.2 <= 11)%nat).
    { intros day Hin.
      destruct (Hday day Hin) as (groups & load & extra & Hg & -> & He & ->).
      destruct (planned_load profile groups Hlevel ltac:(lia) Hg) as [_ Hfull].
      rewrite (Hfull H3).
      destruct (String.eqb (Profile.nivel_str profile) "principiante") eqn:E;
        [apply String.eqb_eq in E; contradiction|lia]. }
    split; [exact Hten|]. intros order r Hr.
    destruct (exploration_routine_run sample randint random choice Hrandom
                profile params Hparams g)
      as (result' & g1' & Hrun' & _ & _ & Hlen & _).
    rewrite Hrun in Hrun'. injection Hrun' as <- <-.
    rewrite decide_structure_plan_length in Hlen by lia.
    assert (Hmany : (8 < Routine.get_exercises_per_day r)%R).
    { unfold Routine.get_exercises_per_day, Routine.get_total_days,
        Routine.get_total_exercises. rewrite Hr.
      pose proof (total_exercises_at_least 10
                    (AIService.rd_rutina_semanal result)
                    (fun day Hin => proj1 (Hten day Hin))) as Htotal.
      set (days := length (AIService.rd_rutina_semanal result)) in *.
      set (total := foldr _ _ _) in *.
      assert (1 <= days)%nat as Hpos by lia.
      destruct (days =? 0)%nat eqn:E0; [apply Nat.eqb_eq in E0; lia|].
      assert (0 < INR days)%R as Hd by (apply lt_0_INR; lia).
      assert (10 * INR days <= INR total)%R as Ht.
      { apply le_INR in Htotal. rewrite mult_INR in Htotal.
        replace (INR 10) with 10%R in Htotal by (simpl; lra). exact Htotal. }
      apply (Rmult_lt_reg_r (INR days)); [exact Hd|].
      assert (INR total / INR days * INR days = INR total)%R as -> by (field; lra).
      nra. }
    unfold AIService.validate_routine_quality. cbn [fst snd].
    unfold Rltb.
    destruct (Rlt_dec (Routine.get_exercises_per_day r) 3) as [Hlt|_]; [lra|].
    destruct (Rlt_dec 8 (Routine.get_exercises_per_day r)) as [_|Hn];
      [|contradiction].
    split.
    + destruct (Routine.get_total_exercises r =? 0)%nat;
        destruct (bool_decide _); cbn [app length Nat.eqb]; reflexivity.
    + apply elem_of_app. left. apply elem_of_app. right. left.
Qed.

Lemma X29_explored_plan_load_witness :
  ∃ result g1,
    AIService._generate_exploration_routine first_sample low_randint
      zero_random first_choice
      (Profile.mk 25 70 1.75 "intermedio" "ganar_masa" 3
         (70 / (1.75 * 1.75))%Q 2 2 "2025-01-01T10:00:00") tt =
      (inr result, g1) ∧
    (AIService.validate_routine_quality elements
       (Routine.mk
          (Profile.mk 25 70 1.75 "intermedio" "ganar_masa" 3
             (70 / (1.75 * 1.75))%Q 2 2 "2025-01-01T10:00:00")
          (AIService.rd_rutina_semanal result) "fullbody"
          AIService.exploration_metadatos None "" None None)).1 = false.
Proof.
  assert (Hrandom : random_spec first_sample low_randint first_choice).
  { constructor.
    - intros pool k g Hk. cbn. rewrite length_take. lia.
    - intros pool k g x Hx. cbn in Hx. apply (subseteq_take k pool x Hx).
    - intros a b g Hab. cbn. lia.
    - intros [|x l] g Hne; [contradiction|]. cbn. left. }
  assert (H3 : Profile.dias
                 (Profile.mk 25 70 1.75 "intermedio" "ganar_masa" 3
                    (70 / (1.75 * 1.75))%Q 2 2 "2025-01-01T10:00:00") <= 3)
    by (cbn; lia).
  assert (Hnot : Profile.nivel_str
                   (Profile.mk 25 70 1.75 "intermedio" "ganar_masa" 3
                      (70 / (1.75 * 1.75))%Q 2 2 "2025-01-01T10:00:00") ≠
                 "principiante") by discriminate.
  eexists _, _. split; [vm_compute; reflexivity|].
  match goal with
  | |- (AIService.validate_routine_quality _ ?r).1 = false =>
      refine (proj1 (proj2 (proj2 (proj2
                (X29_explored_plan_load first_sample low_randint
                   zero_random first_choice 25 70 1.75 "intermedio"
                   "ganar_masa" 3 "2025-01-01T10:00:00"
                   (Profile.mk 25 70 1.75 "intermedio" "ganar_masa" 3
                      (70 / (1.75 * 1.75))%Q 2 2 "2025-01-01T10:00:00")
                   tt tt _ Hrandom eq_refl _)) H3 Hnot) elements r eq_refl))
  end.
  vm_compute. reflexivity.
Defined.

(** * The median of a list *)

Section Median.









End Median.


